(** * devinit: template generation engine and requirement checker

    A shallow embedding of the decision logic of devinit:

    - [internal/template/util.go]      name casing ([toSnakeCase], ...)
    - [internal/template/renderer.go]  [ShouldRender], [GetOutputFilename],
                                       the [Loader] ([Load], [validate])
    - [internal/template/types.go]     [Context], [NewContext], [GetBool],
                                       [GetString], [GetInt],
                                       [GetPermissions]
    - [internal/validator]             [parseVersion], [CompareVersion],
                                       [Validate], [CheckCommand],
                                       [getCommandVersion], [extractVersion],
                                       [HasErrors]
    - [internal/generator/generator.go] [evaluateCondition],
                                       [shouldGenerateFile], [generateFile],
                                       [mergeVariables], [createMetadataFile],
                                       [Generate]
    - [internal/generator/validator.go] [ValidateProjectName]
    - [cmd/devinit/main.go]            [runNewCommand]

    Go strings are byte sequences; they are modelled as [list ascii], and a
    string literal is read as its list of bytes.  The functions of the Go
    standard library that the program calls are modelled in the modules
    [Unicode], [Strings], [Strconv] and [Regexp] below, each with the part
    of its contract the program relies on:

    - [strings.TrimSpace] is modelled on all of Unicode's white space, byte
      by byte, and the prefix, suffix and split functions are exact;
    - the case functions of [unicode] are modelled on ASCII, so what is
      proved of the name casing is proved for names whose letters are ASCII
      (any other byte is kept as it is);
    - [int] is 64 bits wide;
    - the file system, [text/template], the template loader and the
      commands installed on the machine are parameters of the functions
      that use them. *)

From Stdlib Require Import ZArith Ascii Lia.
From Stdlib Require String DecimalString.
From stdpp Require Import gmap strings list.

Abbreviation gostring := (list ascii).
Coercion String.list_ascii_of_string : string >-> list.

Local Open Scope Z_scope.
Local Open Scope list_scope.

(* ================================================================== *)
(** ** Go standard library: the functions the program calls            *)
(* ================================================================== *)

Module Unicode.

(** [unicode.IsUpper], [unicode.ToLower] and [unicode.ToUpper] on the
    ASCII range.  A byte above 0x7f is treated as a caseless character,
    which is what Go does for every rune outside the cased scripts. *)
Definition IsUpper (r : ascii) : bool :=
  let n := N_of_ascii r in ((65 <=? n) && (n <=? 90))%N.

Definition IsLower (r : ascii) : bool :=
  let n := N_of_ascii r in ((97 <=? n) && (n <=? 122))%N.

Definition ToLower (r : ascii) : ascii :=
  if IsUpper r then ascii_of_N (N_of_ascii r + 32) else r.

Definition ToUpper (r : ascii) : ascii :=
  if IsLower r then ascii_of_N (N_of_ascii r - 32) else r.

Definition IsDigit (r : ascii) : bool :=
  let n := N_of_ascii r in ((48 <=? n) && (n <=? 57))%N.

End Unicode.

Module Strings.

(** [strings.HasPrefix(s, prefix)]:
    [len(s) >= len(prefix) && s[:len(prefix)] == prefix]. *)
Definition HasPrefix (s prefix : gostring) : bool :=
  (length prefix <=? length s)%nat &&
  bool_decide (take (length prefix) s = prefix).

(** [strings.HasSuffix(s, suffix)]:
    [len(s) >= len(suffix) && s[len(s)-len(suffix):] == suffix]. *)
Definition HasSuffix (s suffix : gostring) : bool :=
  (length suffix <=? length s)%nat &&
  bool_decide (drop (length s - length suffix) s = suffix).

(** [strings.TrimPrefix]: [s[len(prefix):]] when [s] has the prefix. *)
Definition TrimPrefix (s prefix : gostring) : gostring :=
  if HasPrefix s prefix then drop (length prefix) s else s.

(** [strings.TrimSuffix]: [s[:len(s)-len(suffix)]] when [s] has the
    suffix. *)
Definition TrimSuffix (s suffix : gostring) : gostring :=
  if HasSuffix s suffix then take (length s - length suffix) s else s.

(** [strings.ToLower], byte by byte (see [Unicode]). *)
Definition ToLower (s : gostring) : gostring := map Unicode.ToLower s.

(** [strings.ReplaceAll(s, old, new)] where [old] and [new] are one byte
    each, the only way the program calls it. *)
Definition ReplaceAll (s : gostring) (old new : ascii) : gostring :=
  map (fun c => if bool_decide (c = old) then new else c) s.

(** [strings.Split(s, sep)] where [sep] is one byte.  The result is never
    empty: [Split("", ".")] is [[""]]. *)
Fixpoint Split (s : gostring) (sep : ascii) : list gostring :=
  match s with
  | [] => [[]]
  | c :: s' =>
      if bool_decide (c = sep) then [] :: Split s' sep
      else match Split s' sep with
           | p :: ps => (c :: p) :: ps
           | [] => [[c]]
           end
  end.

(** *** [strings.TrimSpace]

    Go trims the runes for which [unicode.IsSpace] holds, decoding UTF-8
    from the left and from the right.  The white-space runes are
    U+0009..U+000D and U+0020 (one byte), U+0085 and U+00A0 (two bytes,
    lead byte 0xC2), and U+1680, U+2000..U+200A, U+2028, U+2029, U+202F,
    U+205F, U+3000 (three bytes). *)
Definition asciiSpace (a : ascii) : bool :=
  let n := N_of_ascii a in (((9 <=? n) && (n <=? 13)) || (n =? 32))%N.

Definition space2 (a b : ascii) : bool :=
  let x := N_of_ascii a in
  let y := N_of_ascii b in
  ((x =? 194) && ((y =? 133) || (y =? 160)))%N.

Definition space3 (a b c : ascii) : bool :=
  let x := N_of_ascii a in
  let y := N_of_ascii b in
  let z := N_of_ascii c in
  (  ((x =? 225) && (y =? 154) && (z =? 128))
  || ((x =? 226) && (y =? 128) &&
      (((128 <=? z) && (z <=? 138)) || (z =? 168) || (z =? 169) || (z =? 175)))
  || ((x =? 226) && (y =? 129) && (z =? 159))
  || ((x =? 227) && (y =? 128) && (z =? 128)))%N.

(** Strip white-space runes from the front. *)
Fixpoint trimLeft (s : gostring) : gostring :=
  match s with
  | [] => []
  | a :: r1 =>
      if asciiSpace a then trimLeft r1
      else match r1 with
           | b :: r2 =>
               if space2 a b then trimLeft r2
               else match r2 with
                    | c :: r3 => if space3 a b c then trimLeft r3 else s
                    | [] => s
                    end
           | [] => s
           end
  end.

(** The same on the reversed string: the bytes of a rune come last byte
    first. *)
Fixpoint trimLeftRev (s : gostring) : gostring :=
  match s with
  | [] => []
  | a :: r1 =>
      if asciiSpace a then trimLeftRev r1
      else match r1 with
           | b :: r2 =>
               if space2 b a then trimLeftRev r2
               else match r2 with
                    | c :: r3 => if space3 c b a then trimLeftRev r3 else s
                    | [] => s
                    end
           | [] => s
           end
  end.

Definition trimRight (s : gostring) : gostring := rev (trimLeftRev (rev s)).

Definition TrimSpace (s : gostring) : gostring := trimRight (trimLeft s).

End Strings.

Module Strconv.

(** [strconv.Atoi]: an optional sign, then one or more decimal digits, and
    the value must fit a 64-bit [int]; anything else is an error. *)
Definition maxInt : Z := 9223372036854775807.
Definition minInt : Z := -9223372036854775808.

Definition digitValue (c : ascii) : Z := Z.of_N (N_of_ascii c) - 48.

Fixpoint digits (acc : Z) (s : gostring) : option Z :=
  match s with
  | [] => Some acc
  | c :: s' =>
      if Unicode.IsDigit c then digits (acc * 10 + digitValue c) s' else None
  end.

Definition unsigned (s : gostring) : option Z :=
  match s with
  | [] => None
  | _ => digits 0 s
  end.

Definition inRange (n : Z) : option Z :=
  if (minInt <=? n) && (n <=? maxInt) then Some n else None.

Definition Atoi (s : gostring) : option Z :=
  match s with
  | c :: ds =>
      if bool_decide (c = "-"%char) then n ← unsigned ds; inRange (- n)
      else if bool_decide (c = "+"%char) then n ← unsigned ds; inRange n
      else n ← unsigned s; inRange n
  | [] => None
  end.

End Strconv.

Module Regexp.

(** [regexp.MustCompile(c+).ReplaceAllString(s, c)]: every maximal run of
    the byte [c] becomes a single [c].  [prev] tells whether the previous
    byte was [c]. *)
Fixpoint collapseRuns (c : ascii) (prev : bool) (s : gostring) : gostring :=
  match s with
  | [] => []
  | a :: s' =>
      if bool_decide (a = c)
      then (if prev then collapseRuns c true s' else c :: collapseRuns c true s')
      else a :: collapseRuns c false s'
  end.

(** The character class [[-_\s]]; in Go's regexp syntax [\s] is
    [[\t\n\f\r ]]. *)
Definition isSeparator (a : ascii) : bool :=
  let n := N_of_ascii a in
  ((n =? 45) || (n =? 95) || (n =? 9) || (n =? 10) || (n =? 12) || (n =? 13)
   || (n =? 32))%N.

(** [regexp.MustCompile(`[-_\s]+`).Split(s, -1)]: the pieces between the
    maximal runs of separators, an empty piece at either end included.
    [cur] is the piece being read, reversed; [inRun] tells whether the
    previous byte was a separator. *)
Fixpoint splitGo (inRun : bool) (cur : gostring) (s : gostring) : list gostring :=
  match s with
  | [] => [rev cur]
  | a :: s' =>
      if isSeparator a
      then (if inRun then splitGo true [] s' else rev cur :: splitGo true [] s')
      else splitGo false (a :: cur) s'
  end.

Definition SplitSeparators (s : gostring) : list gostring := splitGo false [] s.

End Regexp.

(* ================================================================== *)
(** ** internal/template                                               *)
(* ================================================================== *)

Module Template.

(** *** util.go *)

(** The loop shared by [toSnakeCase] and [toKebabCase]:
    [for i, r := range s { if unicode.IsUpper(r) && i > 0 { write sep };
    write unicode.ToLower(r) }].  [first] is [i == 0]. *)
Fixpoint separateUpper (sep : ascii) (first : bool) (s : gostring) : gostring :=
  match s with
  | [] => []
  | r :: s' =>
      let rest := Unicode.ToLower r :: separateUpper sep false s' in
      if Unicode.IsUpper r && negb first then sep :: rest else rest
  end.

Definition toSnakeCase (s : gostring) : gostring :=
  let s := Strings.ReplaceAll s "-" "_" in
  let result := separateUpper "_" true s in
  Regexp.collapseRuns "_" false result.

Definition toKebabCase (s : gostring) : gostring :=
  let s := Strings.ReplaceAll s "_" "-" in
  let result := separateUpper "-" true s in
  Regexp.collapseRuns "-" false result.

Definition capitalize (s : gostring) : gostring :=
  match s with
  | [] => []
  | r :: runes => Unicode.ToUpper r :: runes
  end.

(** The loop of [toCamelCase] over [parts], from index [i] on. *)
Fixpoint camelParts (i : nat) (parts : list gostring) : gostring :=
  match parts with
  | [] => []
  | part :: rest =>
      match part with
      | [] => camelParts (S i) rest
      | _ =>
          (if (i =? 0)%nat then Strings.ToLower part else capitalize part)
            ++ camelParts (S i) rest
      end
  end.

Definition toCamelCase (s : gostring) : gostring :=
  let parts := Regexp.SplitSeparators s in
  match parts with
  | [] => []
  | _ => camelParts 0 parts
  end.

Fixpoint pascalParts (parts : list gostring) : gostring :=
  match parts with
  | [] => []
  | part :: rest =>
      match part with
      | [] => pascalParts rest
      | _ => capitalize part ++ pascalParts rest
      end
  end.

Definition toPascalCase (s : gostring) : gostring :=
  pascalParts (Regexp.SplitSeparators s).

(** *** types.go *)

(** A value of type [interface{}] held by a variable map: the dynamic
    types that reach it from command-line flags and YAML scalars. *)
Inductive Value :=
| VNil
| VBool (b : bool)
| VInt (n : Z)
| VString (s : gostring).

Record VariableDef := {
  var_Type : gostring;
  var_Required : bool;
  var_Default : Value;          (* [VNil] when the key is absent *)
  var_Description : gostring
}.

Record FileSpec := {
  Source : gostring;
  Destination : gostring;
  Conditions : list gostring;
  Permissions : gostring
}.

(** [GetPermissions]: the permission string is not parsed; both branches
    return [0644]. *)
Definition GetPermissions (f : FileSpec) : N :=
  match Permissions f with
  | [] => 420%N
  | _ => 420%N
  end.

(** The fields of [Template] that generation reads. *)
Record Template := {
  Version : gostring;
  Name : gostring;
  Language : gostring;
  Framework : gostring; Variables : gmap gostring VariableDef;
  Files : list FileSpec;
  Path : gostring
}.

Record Context := {
  ProjectName : gostring;
  OutputDir : gostring;
  ctx_Variables : gmap gostring Value;
  ctx_Template : Template;
  ProjectNameSnake : gostring;
  ProjectNameCamel : gostring;
  ProjectNamePascal : gostring;
  ProjectNameKebab : gostring;
  PythonVersion : gostring;
  IncludeDocker : bool;
  Database : gostring;
  IncludeTests : bool;
  CIProvider : gostring
}.

(** [v, ok := variables[key].(string)]; the field keeps its zero value
    when the assertion fails. *)
Definition assertString (variables : gmap gostring Value) (key : gostring) : gostring :=
  match variables !! key with
  | Some (VString v) => v
  | _ => []
  end.

Definition assertBool (variables : gmap gostring Value) (key : gostring) : bool :=
  match variables !! key with
  | Some (VBool v) => v
  | _ => false
  end.

Definition NewContext (projectName outputDir : gostring)
    (variables : gmap gostring Value) (tmpl : Template) : Context :=
  {| ProjectName := projectName;
     OutputDir := outputDir;
     ctx_Variables := variables;
     ctx_Template := tmpl;
     ProjectNameSnake := toSnakeCase projectName;
     ProjectNameCamel := toCamelCase projectName;
     ProjectNamePascal := toPascalCase projectName;
     ProjectNameKebab := toKebabCase projectName;
     PythonVersion := assertString variables "PythonVersion";
     IncludeDocker := assertBool variables "IncludeDocker";
     Database := assertString variables "Database";
     IncludeTests := assertBool variables "IncludeTests";
     CIProvider := assertString variables "CIProvider" |}.

Definition GetBool (c : Context) (key : gostring) : bool :=
  match ctx_Variables c !! key with
  | Some v => match v with VBool b => b | _ => false end
  | None => false
  end.

(** *** renderer.go *)

Definition ShouldRender (filename : gostring) : bool :=
  Strings.HasSuffix filename ".tmpl".

Definition GetOutputFilename (filename : gostring) : gostring :=
  if Strings.HasSuffix filename ".tmpl"
  then Strings.TrimSuffix filename ".tmpl"
  else filename.

End Template.

(* ================================================================== *)
(** ** internal/validator                                              *)
(* ================================================================== *)

Module Validator.

Inductive ValidationLevel := ValidationNone | ValidationBasic | ValidationStrict.

Global Instance ValidationLevel_eq_dec : EqDecision ValidationLevel.
Proof. solve_decision. Defined.

(** Go error values, kept as the data their messages are formatted
    from. *)
Inductive error :=
| InvalidComponent (component : gostring)
| InvalidCurrent (current : gostring) (cause : error)
| InvalidRequired (required : gostring) (cause : error)
| UnknownOperator (operator : gostring).

Inductive result (A : Type) :=
| Ok (a : A)
| Err (e : error).
Arguments Ok {A} a.
Arguments Err {A} e.

(** The [Message] of a [ValidationError], kept as the format and its
    arguments. *)
Inductive message :=
| MsgCheckError (command : gostring) (e : error)
| MsgNotFound (command : gostring)
| MsgCompareError (command : gostring) (e : error)
| MsgMismatch (command version requirement : gostring).

Record ValidationError := {
  ve_Command : gostring;
  ve_Message : message;
  ve_InstallHint : gostring
}.

Record ValidationResult := {
  Errors : list ValidationError;
  Warnings : list ValidationError
}.

Record Requirement := {
  Command : gostring;
  Version : gostring;
  Required : bool;
  When : gostring;
  InstallHint : gostring
}.

(** [parseVersion]: the array [[3]int] is a triple. *)
Definition component (parts : list gostring) (i : nat) : result Z :=
  match parts !! i with
  | Some p =>
      match Strconv.Atoi p with
      | Some num => Ok num
      | None => Err (InvalidComponent p)
      end
  | None => Ok 0
  end.

Definition parseVersion (version : gostring) : result (Z * Z * Z) :=
  let version := Strings.TrimPrefix version "v" in
  let parts := Strings.Split version "." in
  match component parts 0 with
  | Err e => Err e
  | Ok major =>
      match component parts 1 with
      | Err e => Err e
      | Ok minor =>
          match component parts 2 with
          | Err e => Err e
          | Ok patch => Ok (major, minor, patch)
          end
      end
  end.

Definition compareVersionParts (v1 v2 : Z * Z * Z) : Z :=
  let '(a0, a1, a2) := v1 in
  let '(b0, b1, b2) := v2 in
  if a0 <? b0 then -1 else if a0 >? b0 then 1
  else if a1 <? b1 then -1 else if a1 >? b1 then 1
  else if a2 <? b2 then -1 else if a2 >? b2 then 1
  else 0.

(** The operator prefix of a trimmed requirement and the text after
    it. *)
Definition splitOperator (requirement : gostring) : gostring * gostring :=
  if Strings.HasPrefix requirement ">=" then (">=" : gostring, Strings.TrimSpace (drop 2 requirement))
  else if Strings.HasPrefix requirement "<=" then ("<=" : gostring, Strings.TrimSpace (drop 2 requirement))
  else if Strings.HasPrefix requirement ">" then (">" : gostring, Strings.TrimSpace (drop 1 requirement))
  else if Strings.HasPrefix requirement "<" then ("<" : gostring, Strings.TrimSpace (drop 1 requirement))
  else if Strings.HasPrefix requirement "=" then ("=" : gostring, Strings.TrimSpace (drop 1 requirement))
  else if Strings.HasPrefix requirement "^" then ("^" : gostring, Strings.TrimSpace (drop 1 requirement))
  else if Strings.HasPrefix requirement "~" then ("~" : gostring, Strings.TrimSpace (drop 1 requirement))
  else ("=" : gostring, requirement).

Definition CompareVersion (current requirement : gostring) : result bool :=
  let requirement := Strings.TrimSpace requirement in
  let '(operator, requiredVersion) := splitOperator requirement in
  match parseVersion current with
  | Err e => Err (InvalidCurrent current e)
  | Ok currentParts =>
      match parseVersion requiredVersion with
      | Err e => Err (InvalidRequired requiredVersion e)
      | Ok requiredParts =>
          let comparison := compareVersionParts currentParts requiredParts in
          if bool_decide (operator = ">=") then Ok (comparison >=? 0)
          else if bool_decide (operator = ">") then Ok (comparison >? 0)
          else if bool_decide (operator = "<=") then Ok (comparison <=? 0)
          else if bool_decide (operator = "<") then Ok (comparison <? 0)
          else if bool_decide (operator = "=") then Ok (comparison =? 0)
          else if bool_decide (operator = "^") then
            if comparison <? 0 then Ok false
            else Ok (currentParts.1.1 =? requiredParts.1.1)
          else if bool_decide (operator = "~") then
            if comparison <? 0 then Ok false
            else Ok ((currentParts.1.1 =? requiredParts.1.1)
                     && (currentParts.1.2 =? requiredParts.1.2))
          else Err (UnknownOperator operator)
      end
  end.

Section Validate.

(** The machine the checker runs on: whether [exec.LookPath] finds a
    command, and the version [getCommandVersion] extracts from its
    output (empty when none could be determined). *)
Variable LookPath : gostring -> bool.
Variable getCommandVersion : gostring -> gostring.

(** The validator's [Level]. *)
Variable Level : ValidationLevel.

Definition CheckCommand (cmd : gostring) : bool * gostring * option error :=
  if LookPath cmd then (true, getCommandVersion cmd, None)
  else (false, [], None).

Definition addError (r : ValidationResult) (e : ValidationError) : ValidationResult :=
  {| Errors := Errors r ++ [e]; Warnings := Warnings r |}.

Definition addWarning (r : ValidationResult) (e : ValidationError) : ValidationResult :=
  {| Errors := Errors r; Warnings := Warnings r ++ [e] |}.

(** The body of the loop of [Validate]. *)
Definition validateOne (result : ValidationResult) (req : Requirement) : ValidationResult :=
  let '(exists_, version, err) := CheckCommand (Command req) in
  match err with
  | Some e =>
      let valErr := {| ve_Command := Command req;
                       ve_Message := MsgCheckError (Command req) e;
                       ve_InstallHint := InstallHint req |} in
      if Required req then addError result valErr else addWarning result valErr
  | None =>
      if negb exists_ then
        let valErr := {| ve_Command := Command req;
                         ve_Message := MsgNotFound (Command req);
                         ve_InstallHint := InstallHint req |} in
        if Required req then addError result valErr else addWarning result valErr
      else if negb (bool_decide (Version req = [])) && negb (bool_decide (version = [])) then
        match CompareVersion version (Version req) with
        | Err e =>
            let valErr := {| ve_Command := Command req;
                             ve_Message := MsgCompareError (Command req) e;
                             ve_InstallHint := InstallHint req |} in
            if bool_decide (Level = ValidationStrict)
            then addError result valErr else addWarning result valErr
        | Ok matches =>
            if negb matches then
              let valErr := {| ve_Command := Command req;
                               ve_Message := MsgMismatch (Command req) version (Version req);
                               ve_InstallHint := InstallHint req |} in
              if bool_decide (Level = ValidationStrict)
              then addError result valErr else addWarning result valErr
            else result
        end
      else result
  end.

(** [Validate]; its error result is always [nil]. *)
Definition Validate (reqs : list Requirement) : ValidationResult :=
  fold_left validateOne reqs {| Errors := []; Warnings := [] |}.

End Validate.

End Validator.

(* ================================================================== *)
(** ** internal/generator                                              *)
(* ================================================================== *)

Module Generator.
Import Template.

Record Options := {
  opt_ProjectName : gostring;
  opt_Language : gostring;
  opt_Framework : gostring;
  opt_OutputDir : gostring;
  opt_Variables : gmap gostring Value;
  DryRun : bool
}.

(** The text after the delimiters, the white space and the leading dot
    have been removed: the first half of [evaluateCondition]. *)
Definition conditionKey (condition : gostring) : gostring :=
  let condition := Strings.TrimSpace condition in
  let condition := Strings.TrimSpace condition in
  let condition :=
    if Strings.HasPrefix condition "{{" && Strings.HasSuffix condition "}}"
    then Strings.TrimSpace (drop 2 (take (length condition - 2) condition))
    else condition in
  Strings.TrimPrefix condition ".".

Definition evaluateCondition (condition : gostring) (ctx : Context) : bool :=
  let condition := conditionKey condition in
  if bool_decide (condition = "IncludeDocker") then IncludeDocker ctx
  else if bool_decide (condition = "IncludeTests") then IncludeTests ctx
  else GetBool ctx condition.

(** The loop of [shouldGenerateFile] over the conditions. *)
Fixpoint allConditions (conditions : list gostring) (ctx : Context) : bool :=
  match conditions with
  | [] => true
  | condition :: rest =>
      if negb (evaluateCondition condition ctx) then false
      else allConditions rest ctx
  end.

Definition shouldGenerateFile (fileSpec : FileSpec) (ctx : Context) : bool :=
  if (length (Conditions fileSpec) =? 0)%nat then true
  else allConditions (Conditions fileSpec) ctx.

(** [mergeVariables]: the declared defaults that are not [nil], then every
    user-provided key on top of them. *)
Definition mergeVariables (tmpl : Template) (userVars : gmap gostring Value)
    : gmap gostring Value :=
  let defaults :=
    omap (fun varDef => match var_Default varDef with
                        | VNil => None
                        | v => Some v
                        end) (Variables tmpl) in
  userVars ∪ defaults.

(** What [Generate] prints. *)
Inductive Notice :=
| Skipped (destination : gostring)
| WouldRender (source actualDest : gostring)
| WouldCopy (source destPath : gostring)
| Created (path : gostring).

Inductive error :=
| LoadFailed (templateName : gostring)
| MkdirFailed (outputDir : gostring)
| GenerateFileFailed (destination : gostring)
| MetadataFailed.

Section Engine.

(** The file system and the libraries behind the engine.  [None] is a
    non-nil Go error; a call that fails leaves the file system as it
    was. *)
Variable FS : Type.
Variable MkdirAll : gostring -> FS -> option FS.
Variable ReadFile : gostring -> FS -> option gostring.
Variable WriteFile : gostring -> gostring -> N -> FS -> option FS.
Variable Join : gostring -> gostring -> gostring.
Variable Dir : gostring -> gostring.
(** [text/template]: parse the text and execute it on the context. *)
Variable Execute : gostring -> Context -> option gostring.
(** [Loader.Load], which reads and checks the bundle's metadata. *)
Variable Load : gostring -> FS -> option Template.
(** [fmt.Sprintf("%v", value)]. *)
Variable formatValue : Value -> gostring.

(** The world a run acts on: the file system and the lines printed so
    far. *)
Record World := { fs : FS; printed : list Notice }.

Definition print (n : Notice) (w : World) : World :=
  {| fs := fs w; printed := printed w ++ [n] |}.

Definition setFS (f : FS) (w : World) : World :=
  {| fs := f; printed := printed w |}.

(** [Renderer.Render]. *)
Definition Render (templatePath : gostring) (ctx : Context) (w : World)
    : option gostring :=
  content ← ReadFile templatePath (fs w);
  Execute content ctx.

(** [Renderer.RenderToFile]: [None] is an error; the world is the one
    reached when it occurred. *)
Definition RenderToFile (templatePath outputPath : gostring) (ctx : Context)
    (perm : N) (w : World) : bool * World :=
  match Render templatePath ctx w with
  | None => (false, w)
  | Some content =>
      match MkdirAll (Dir outputPath) (fs w) with
      | None => (false, w)
      | Some f1 =>
          match WriteFile outputPath content perm f1 with
          | None => (false, setFS f1 w)
          | Some f2 => (true, setFS f2 w)
          end
      end
  end.

(** [Renderer.CopyFile]. *)
Definition CopyFile (srcPath dstPath : gostring) (perm : N) (w : World)
    : bool * World :=
  match ReadFile srcPath (fs w) with
  | None => (false, w)
  | Some content =>
      match MkdirAll (Dir dstPath) (fs w) with
      | None => (false, w)
      | Some f1 =>
          match WriteFile dstPath content perm f1 with
          | None => (false, setFS f1 w)
          | Some f2 => (true, setFS f2 w)
          end
      end
  end.

(** [generateFile]: [true] is a [nil] error. *)
Definition generateFile (filesDir : gostring) (fileSpec : FileSpec)
    (ctx : Context) (dryRun : bool) (w : World) : bool * World :=
  let sourcePath := Join filesDir (Source fileSpec) in
  let destPath := Join (OutputDir ctx) (Destination fileSpec) in
  if ShouldRender (Source fileSpec) then
    let actualDest :=
      Join (OutputDir ctx) (GetOutputFilename (Destination fileSpec)) in
    if dryRun then (true, print (WouldRender (Source fileSpec) actualDest) w)
    else
      match RenderToFile sourcePath actualDest ctx (GetPermissions fileSpec) w with
      | (false, w') => (false, w')
      | (true, w') => (true, print (Created actualDest) w')
      end
  else
    if dryRun then (true, print (WouldCopy (Source fileSpec) destPath) w)
    else
      match CopyFile sourcePath destPath (GetPermissions fileSpec) w with
      | (false, w') => (false, w')
      | (true, w') => (true, print (Created destPath) w')
      end.

(** The loop of [Generate] over [tmpl.Files]; the error names the
    destination of the file that failed. *)
Fixpoint generateFiles (filesDir : gostring) (files : list FileSpec)
    (ctx : Context) (dryRun : bool) (w : World) : option error * World :=
  match files with
  | [] => (None, w)
  | fileSpec :: rest =>
      if negb (shouldGenerateFile fileSpec ctx) then
        generateFiles filesDir rest ctx dryRun
          (if dryRun then print (Skipped (Destination fileSpec)) w else w)
      else
        match generateFile filesDir fileSpec ctx dryRun w with
        | (false, w') => (Some (GenerateFileFailed (Destination fileSpec)), w')
        | (true, w') => generateFiles filesDir rest ctx dryRun w'
        end
  end.

Definition newline : gostring := ["010"%char].

(** The text of the metadata file.  Go ranges over the map in an
    unspecified order; [map_to_list] fixes one. *)
Definition metadataText (ctx : Context) (tmpl : Template) : gostring :=
  "schema_version: " ++ ["034"%char] ++ "1.0" ++ ["034"%char] ++ newline
  ++ "template:" ++ newline
  ++ "  name: " ++ Language tmpl ++ "/" ++ Framework tmpl ++ newline
  ++ "  version: " ++ Version tmpl ++ newline
  ++ "variables:" ++ newline
  ++ concat (map (fun kv => "  " ++ kv.1 ++ ": " ++ formatValue kv.2 ++ newline)
                 (map_to_list (ctx_Variables ctx))).

Definition createMetadataFile (ctx : Context) (tmpl : Template) (w : World)
    : bool * World :=
  let metadataPath := Join (OutputDir ctx) ".devinit.yaml" in
  match WriteFile metadataPath (metadataText ctx tmpl) 420%N (fs w) with
  | None => (false, w)
  | Some f => (true, setFS f w)
  end.

Definition Generate (opts : Options) (w : World) : option error * World :=
  let templateName := opt_Language opts ++ "/" ++ opt_Framework opts in
  match Load templateName (fs w) with
  | None => (Some (LoadFailed templateName), w)
  | Some tmpl =>
      let variables := mergeVariables tmpl (opt_Variables opts) in
      let outputDir :=
        if bool_decide (opt_OutputDir opts = []) then opt_ProjectName opts
        else opt_OutputDir opts in
      let ctx := NewContext (opt_ProjectName opts) outputDir variables tmpl in
      let step1 :=
        if negb (DryRun opts) then
          match MkdirAll outputDir (fs w) with
          | None => (Some (MkdirFailed outputDir), w)
          | Some f => (None, setFS f w)
          end
        else (None, w) in
      match step1 with
      | (Some e, w1) => (Some e, w1)
      | (None, w1) =>
          let filesDir := Join (Path tmpl) "files" in
          match generateFiles filesDir (Files tmpl) ctx (DryRun opts) w1 with
          | (Some e, w2) => (Some e, w2)
          | (None, w2) =>
              if negb (DryRun opts) then
                match createMetadataFile ctx tmpl w2 with
                | (false, w3) => (Some MetadataFailed, w3)
                | (true, w3) => (None, w3)
                end
              else (None, w2)
          end
      end
  end.

End Engine.

End Generator.

(* ================================================================== *)
(** ** A small file system to run the engine on                        *)
(* ================================================================== *)

Module SimpleFS.
Import Template.

(** Paths are clean and relative; a path maps to a directory or to a
    file with its content and permission bits.  The directory ["."] always
    exists. *)
Inductive node :=
| Directory
| File (content : gostring) (perm : N).

Definition Join (a b : gostring) : gostring := a ++ "/" ++ b.

Fixpoint afterSlash (r : gostring) : gostring :=
  match r with
  | [] => []
  | c :: r' => if bool_decide (c = "/"%char) then r' else afterSlash r'
  end.

(** [filepath.Dir]: the path up to its last separator, ["."] when it has
    none. *)
Definition Dir (p : gostring) : gostring :=
  if bool_decide ("/"%char ∈ p) then rev (afterSlash (rev p)) else ".".

(** [os.MkdirAll]: nothing to do on a directory, an error on a file,
    otherwise the parents first. *)
Fixpoint mkdirAll (fuel : nat) (p : gostring) (f : gmap gostring node)
    : option (gmap gostring node) :=
  if bool_decide (p = ".") then Some f
  else match f !! p with
       | Some Directory => Some f
       | Some (File _ _) => None
       | None =>
           match fuel with
           | O => None
           | S n => f' ← mkdirAll n (Dir p) f; Some (<[p := Directory]> f')
           end
       end.

Definition MkdirAll (p : gostring) (f : gmap gostring node)
    : option (gmap gostring node) :=
  mkdirAll (length p) p f.

Definition isDir (p : gostring) (f : gmap gostring node) : bool :=
  bool_decide (p = ".") ||
  match f !! p with Some Directory => true | _ => false end.

Definition ReadFile (p : gostring) (f : gmap gostring node) : option gostring :=
  match f !! p with
  | Some (File content _) => Some content
  | _ => None
  end.

(** [os.WriteFile]: the parent must be a directory and the path must not
    be one. *)
Definition WriteFile (p content : gostring) (perm : N) (f : gmap gostring node)
    : option (gmap gostring node) :=
  if isDir p f then None
  else if isDir (Dir p) f then Some (<[p := File content perm]> f)
  else None.

(** A template without actions renders to itself. *)
Definition Execute (content : gostring) (ctx : Context) : option gostring :=
  Some content.

Definition formatValue (v : Value) : gostring :=
  match v with
  | VNil => "<nil>"
  | VBool true => "true"
  | VBool false => "false"
  | VInt n => String.list_ascii_of_string
                (DecimalString.NilZero.string_of_int (Z.to_int n))
  | VString s => s
  end.

(** One template bundle, [go/cli], under [templates]: a rendered file, a
    static file and a file behind a condition. *)
Definition cliTemplate : Template :=
  {| Version := "1.0.0"; Name := "Go CLI"; Language := "go"; Framework := "cli";
     Files := [ {| Source := "main.go.tmpl"; Destination := "main.go.tmpl";
                   Conditions := []; Permissions := [] |};
                {| Source := "LICENSE"; Destination := "LICENSE";
                   Conditions := []; Permissions := [] |};
                {| Source := "Dockerfile"; Destination := "Dockerfile";
                   Conditions := ["{{ .IncludeDocker }}" : gostring];
                   Permissions := [] |} ];
     Path := "templates/go/cli"; Variables := ∅ |}.

(** A second bundle, [go/clash], whose second destination lies below the
    first one. *)
Definition clashTemplate : Template :=
  {| Version := "1.0.0"; Name := "Clash"; Language := "go"; Framework := "clash";
     Files := [ {| Source := "LICENSE"; Destination := "docs";
                   Conditions := []; Permissions := [] |};
                {| Source := "README"; Destination := "docs/README";
                   Conditions := []; Permissions := [] |} ];
     Path := "templates/go/clash"; Variables := ∅ |}.

Definition Load (name : gostring) (f : gmap gostring node) : option Template :=
  if bool_decide (name = "go/cli") then Some cliTemplate
  else if bool_decide (name = "go/clash") then Some clashTemplate
  else None.

Definition disk : gmap gostring node :=
  list_to_map
    [ ("templates/go/cli/files/main.go.tmpl" : gostring, File "package main" 420%N);
      ("templates/go/cli/files/LICENSE" : gostring, File "MIT" 420%N);
      ("templates/go/cli/files/Dockerfile" : gostring, File "FROM scratch" 420%N);
      ("templates/go/clash/files/LICENSE" : gostring, File "MIT" 420%N);
      ("templates/go/clash/files/README" : gostring, File "read me" 420%N) ].

Definition run (opts : Generator.Options) (f : gmap gostring node) :=
  Generator.Generate (gmap gostring node) MkdirAll ReadFile WriteFile Join Dir
    Execute Load formatValue opts
    {| Generator.fs := f; Generator.printed := [] |}.

Definition cliOptions (dryRun : bool) : Generator.Options :=
  {| Generator.opt_ProjectName := "demo";
     Generator.opt_Language := "go";
     Generator.opt_Framework := "cli";
     Generator.opt_OutputDir := [];
     Generator.opt_Variables := {[ ("IncludeDocker" : gostring) := VBool false ]};
     Generator.DryRun := dryRun |}.

Definition clashOptions (dryRun : bool) : Generator.Options :=
  {| Generator.opt_ProjectName := "demo";
     Generator.opt_Language := "go";
     Generator.opt_Framework := "clash";
     Generator.opt_OutputDir := [];
     Generator.opt_Variables := ∅;
     Generator.DryRun := dryRun |}.

End SimpleFS.

(* ================================================================== *)
(** ** Vocabulary of the statements                                    *)
(* ================================================================== *)

Module Spec.

(** A text without any of the separators that [toCamelCase] and
    [toPascalCase] split on. *)
Abbreviation plainText := (Forall (fun c => Regexp.isSeparator c = false)).

(** A byte of a white-space rune: an ASCII space or a byte of a
    multi-byte encoding. *)
Definition blank (c : ascii) : bool :=
  Strings.asciiSpace c || (128 <=? N_of_ascii c)%N.

Abbreviation plainBytes := (Forall (fun c => blank c = false)).

(** [parts] with [w] appended to its last element. *)
Fixpoint appendLast (parts : list gostring) (w : gostring) : list gostring :=
  match parts with
  | [] => []
  | [p] => [p ++ w]
  | p :: rest => p :: appendLast rest w
  end.

(** The three-way comparison of (major, minor, patch), major first. *)
Definition lexCompare (a b : Z * Z * Z) : comparison :=
  match a.1.1 ?= b.1.1 with
  | Eq => match a.1.2 ?= b.1.2 with
          | Eq => a.2 ?= b.2
          | c => c
          end
  | c => c
  end.

(** A numeric component: an optional sign and at least one decimal digit,
    denoting an integer that fits [int]. *)
Definition isSign (c : ascii) : bool :=
  bool_decide (c = "-"%char) || bool_decide (c = "+"%char).

Definition unsign (p : gostring) : gostring :=
  match p with
  | c :: ds => if isSign c then ds else p
  | [] => []
  end.

Definition isNegative (p : gostring) : bool :=
  match p with
  | c :: _ => bool_decide (c = "-"%char)
  | [] => false
  end.

(** A byte of an identifier: a letter, a digit or an underscore. *)
Definition identByte (c : ascii) : bool :=
  Unicode.IsUpper c || Unicode.IsLower c || Unicode.IsDigit c
  || bool_decide (c = "_"%char).

(** The bytes a version that parses can start with. *)
Definition versionStart (c : ascii) : bool :=
  bool_decide (c = "v"%char) || isSign c || Unicode.IsDigit c.

(** The constraint operators; the empty one stands for no operator. *)
Definition operators : list gostring :=
  [ ">=" : gostring; ">" : gostring; "<=" : gostring; "<" : gostring;
    "=" : gostring; "^" : gostring; "~" : gostring; [] ].

(** What a constraint demands of the parsed versions, in the words of
    the specification. *)
Definition holds (operator : gostring) (current required : Z * Z * Z) : bool :=
  let cmp := lexCompare current required in
  if bool_decide (operator = ">=") then bool_decide (cmp <> Lt)
  else if bool_decide (operator = ">") then bool_decide (cmp = Gt)
  else if bool_decide (operator = "<=") then bool_decide (cmp <> Gt)
  else if bool_decide (operator = "<") then bool_decide (cmp = Lt)
  else if bool_decide (operator = "^") then
    bool_decide (cmp <> Lt) && (current.1.1 =? required.1.1)
  else if bool_decide (operator = "~") then
    bool_decide (cmp <> Lt) && (current.1.1 =? required.1.1)
    && (current.1.2 =? required.1.2)
  else bool_decide (cmp = Eq).

Definition decimal (ds : gostring) : Z :=
  fold_left (fun acc c => acc * 10 + Strconv.digitValue c) ds 0.

Definition decimalValue (p : gostring) : Z :=
  if isNegative p then - decimal (unsign p) else decimal (unsign p).

Definition numeric (p : gostring) : bool :=
  negb (bool_decide (unsign p = []))
  && forallb Unicode.IsDigit (unsign p)
  && (Strconv.minInt <=? decimalValue p) && (decimalValue p <=? Strconv.maxInt).

(** The value that a component of a version takes: [0] when it is
    missing. *)
Definition componentValue (parts : list gostring) (i : nat) : Z :=
  match parts !! i with
  | Some p => decimalValue p
  | None => 0
  end.

(** The paths a dry run announces, and the paths a run reports as
    created. *)
Definition wouldBe (n : Generator.Notice) : option gostring :=
  match n with
  | Generator.WouldRender _ actualDest => Some actualDest
  | Generator.WouldCopy _ destPath => Some destPath
  | _ => None
  end.

Definition created (n : Generator.Notice) : option gostring :=
  match n with
  | Generator.Created path => Some path
  | _ => None
  end.

Definition withDryRun (dryRun : bool) (opts : Generator.Options) : Generator.Options :=
  {| Generator.opt_ProjectName := Generator.opt_ProjectName opts;
     Generator.opt_Language := Generator.opt_Language opts;
     Generator.opt_Framework := Generator.opt_Framework opts;
     Generator.opt_OutputDir := Generator.opt_OutputDir opts;
     Generator.opt_Variables := Generator.opt_Variables opts;
     Generator.DryRun := dryRun |}.

(** The context that [Generate] builds for a loaded template. *)
Definition contextOf (opts : Generator.Options) (tmpl : Template.Template)
    : Template.Context :=
  Template.NewContext (Generator.opt_ProjectName opts)
    (if bool_decide (Generator.opt_OutputDir opts = [])
     then Generator.opt_ProjectName opts else Generator.opt_OutputDir opts)
    (Generator.mergeVariables tmpl (Generator.opt_Variables opts)) tmpl.

(** The line a dry run prints for a file. *)
Definition dryNotice (Join : gostring -> gostring -> gostring)
    (ctx : Template.Context) (f : Template.FileSpec) : Generator.Notice :=
  if Generator.shouldGenerateFile f ctx then
    if Template.ShouldRender (Template.Source f)
    then Generator.WouldRender (Template.Source f)
           (Join (Template.OutputDir ctx)
                 (Template.GetOutputFilename (Template.Destination f)))
    else Generator.WouldCopy (Template.Source f)
           (Join (Template.OutputDir ctx) (Template.Destination f))
  else Generator.Skipped (Template.Destination f).

(** Two requirements that differ at most in their [When] field. *)
Definition sameButWhen (r1 r2 : Validator.Requirement) : Prop :=
  Validator.Command r1 = Validator.Command r2
  /\ Validator.Version r1 = Validator.Version r2
  /\ Validator.Required r1 = Validator.Required r2
  /\ Validator.InstallHint r1 = Validator.InstallHint r2.

Definition notFound (req : Validator.Requirement) : Validator.ValidationError :=
  {| Validator.ve_Command := Validator.Command req;
     Validator.ve_Message := Validator.MsgNotFound (Validator.Command req);
     Validator.ve_InstallHint := Validator.InstallHint req |}.

Definition mismatch (version : gostring) (req : Validator.Requirement)
    : Validator.ValidationError :=
  {| Validator.ve_Command := Validator.Command req;
     Validator.ve_Message :=
       Validator.MsgMismatch (Validator.Command req) version (Validator.Version req);
     Validator.ve_InstallHint := Validator.InstallHint req |}.

End Spec.

(* ================================================================== *)
(** ** The rest of the cited files                                     *)
(* ================================================================== *)

Module Accessors.
Import Template.

(** *** internal/template/types.go: [GetString], [GetInt] *)

Definition GetString (c : Context) (key : gostring) : gostring :=
  match ctx_Variables c !! key with
  | Some v => match v with VString s => s | _ => [] end
  | None => []
  end.

Definition GetInt (c : Context) (key : gostring) : Z :=
  match ctx_Variables c !! key with
  | Some v => match v with VInt i => i | _ => 0 end
  | None => 0
  end.

(** *** internal/validator/types.go: [HasErrors], [HasWarnings] *)

Definition HasErrors (r : Validator.ValidationResult) : bool :=
  (0 <? length (Validator.Errors r))%nat.

Definition HasWarnings (r : Validator.ValidationResult) : bool :=
  (0 <? length (Validator.Warnings r))%nat.

End Accessors.

Module Probe.

(** *** internal/validator: [extractVersion], [getCommandVersion]

    The four regular expressions of [extractVersion] are matched by hand.
    In [\d+\.] the digits must run up to the dot, and in [\s+v?\d] the
    white space must run up to the version, so the greedy match is the only
    one; the last [\d+] of a pattern is greedy.  [FindStringSubmatch]
    returns the leftmost match, and every match starts at an ASCII byte. *)

(** [\d+]: the longest run of digits at the front, and what follows. *)
Fixpoint digitRun (s : gostring) : gostring * gostring :=
  match s with
  | c :: s' =>
      if Unicode.IsDigit c
      then let '(d, r) := digitRun s' in (c :: d, r)
      else ([], s)
  | [] => ([], [])
  end.

(** [\.] followed by [\d+]. *)
Definition dotDigits (s : gostring) : option (gostring * gostring) :=
  match s with
  | c :: s' =>
      if bool_decide (c = "."%char)
      then match digitRun s' with
           | ([], _) => None
           | (d, r) => Some (d, r)
           end
      else None
  | [] => None
  end.

(** [(\d+\.\d+)] at the front: the text of the group. *)
Definition majorMinor (s : gostring) : option gostring :=
  match digitRun s with
  | ([], _) => None
  | (d1, r1) =>
      match dotDigits r1 with
      | Some (d2, _) => Some (d1 ++ "." ++ d2)
      | None => None
      end
  end.

(** [(\d+\.\d+\.\d+)] at the front: the text of the group. *)
Definition semver (s : gostring) : option gostring :=
  match digitRun s with
  | ([], _) => None
  | (d1, r1) =>
      match dotDigits r1 with
      | Some (d2, r2) =>
          match dotDigits r2 with
          | Some (d3, _) => Some (d1 ++ "." ++ d2 ++ "." ++ d3)
          | None => None
          end
      | None => None
      end
  end.

(** [v?] before a pattern: with the [v] first, then without. *)
Definition optionalV (m : gostring -> option gostring) (s : gostring)
    : option gostring :=
  match s with
  | c :: s' =>
      if bool_decide (c = "v"%char)
      then match m s' with
           | Some v => Some v
           | None => m s
           end
      else m s
  | [] => m []
  end.

(** [\s] of the regular expressions: [[\t\n\f\r ]]. *)
Definition isReSpace (a : ascii) : bool :=
  let n := N_of_ascii a in
  ((n =? 9) || (n =? 10) || (n =? 12) || (n =? 13) || (n =? 32))%N.

Fixpoint skipSpaces (s : gostring) : gostring :=
  match s with
  | c :: s' => if isReSpace c then skipSpaces s' else s
  | [] => []
  end.

(** [version\s+v?(\d+\.\d+\.\d+)] at the front. *)
Definition versionWord (s : gostring) : option gostring :=
  if Strings.HasPrefix s "version" then
    match drop 7 s with
    | c :: r => if isReSpace c then optionalV semver (skipSpaces r) else None
    | [] => None
    end
  else None.

(** The leftmost position at which [m] matches. *)
Fixpoint leftmost (m : gostring -> option gostring) (s : gostring) : option gostring :=
  match m s with
  | Some v => Some v
  | None =>
      match s with
      | _ :: s' => leftmost m s'
      | [] => None
      end
  end.

(** The loop of [extractVersion] over its patterns. *)
Fixpoint firstPattern (patterns : list (gostring -> option gostring))
    (output : gostring) : gostring :=
  match patterns with
  | [] => []
  | pattern :: rest =>
      match leftmost pattern output with
      | Some v => v
      | None => firstPattern rest output
      end
  end.

Definition patterns : list (gostring -> option gostring) :=
  [ optionalV semver; optionalV majorMinor; versionWord; semver ].

Definition extractVersion (output : gostring) : gostring :=
  firstPattern patterns output.

Section Commands.

(** [exec.Command(cmd, flag).CombinedOutput()]: [None] is a non-nil
    error. *)
Variable CombinedOutput : gostring -> gostring -> option gostring.

Definition versionFlags : list gostring :=
  [ "--version" : gostring; "-version" : gostring; "-v" : gostring;
    "version" : gostring ].

(** The loop of [getCommandVersion]; [None] is its error. *)
Fixpoint tryFlags (cmd : gostring) (flags : list gostring) : option gostring :=
  match flags with
  | [] => None
  | flag :: rest =>
      match CombinedOutput cmd flag with
      | None => tryFlags cmd rest
      | Some output =>
          let version := extractVersion output in
          if negb (bool_decide (version = [])) then Some version
          else tryFlags cmd rest
      end
  end.

Definition getCommandVersion (cmd : gostring) : option gostring :=
  tryFlags cmd versionFlags.

(** [version, _ = v.getCommandVersion(cmd)] in [CheckCommand]: the empty
    string comes with the error. *)
Definition reportedVersion (cmd : gostring) : gostring :=
  match getCommandVersion cmd with
  | Some version => version
  | None => []
  end.

End Commands.

End Probe.

Module ProjectName.

(** *** internal/generator/validator.go: [ValidateProjectName] *)

Inductive error :=
| EmptyName
| DotName
| PathSeparator
| BadPattern
| AlreadyExists (name : gostring).

(** [^[a-z][a-z0-9-]*$]. *)
Definition nameByte (c : ascii) : bool :=
  Unicode.IsLower c || Unicode.IsDigit c || bool_decide (c = "-"%char).

Definition projectNamePattern (name : gostring) : bool :=
  match name with
  | c :: rest => Unicode.IsLower c && forallb nameByte rest
  | [] => false
  end.

Section Validate.

(** [os.Stat(name)] returns no error. *)
Variable Stat : gostring -> bool.

(** [None] is a [nil] error. *)
Definition ValidateProjectName (name : gostring) : option error :=
  if bool_decide (name = []) then Some EmptyName
  else if bool_decide (name = ".") || bool_decide (name = "..") then Some DotName
  else if existsb (fun char => bool_decide (char = "/"%char)
                               || bool_decide (char = "\"%char)) name
       then Some PathSeparator
  else if negb (projectNamePattern name) then Some BadPattern
  else if Stat name then Some (AlreadyExists name)
  else None.

End Validate.

End ProjectName.

Module Loader.
Import Template.

(** *** internal/template: the [Loader]

    [yaml.Unmarshal] is a parameter: what it makes of the bytes of
    [template.yaml], or [None] when it fails.  The field [Path] is not read
    from the file. *)

Inductive validateError :=
| VersionRequired
| NameRequired
| LanguageRequired
| FileNotFound (source : gostring).

Inductive loadError :=
| TemplateNotFound (name : gostring)
| ReadFailed
| ParseFailed
| InvalidTemplate (cause : validateError).

(** [tmpl.Path = templatePath]. *)
Definition setPath (templatePath : gostring) (tmpl : Template) : Template :=
  {| Version := Version tmpl;
     Name := Name tmpl;
     Language := Language tmpl;
     Framework := Framework tmpl; Variables := Variables tmpl;
     Files := Files tmpl;
     Path := templatePath |}.

Section Files.

Variable FS : Type.
Variable Join : gostring -> gostring -> gostring.
(** [os.IsNotExist(err)] for the error of [os.Stat(path)]. *)
Variable IsNotExist : gostring -> FS -> bool.
Variable ReadFile : gostring -> FS -> option gostring.
Variable Unmarshal : gostring -> option Template.

Definition GetFilesDir (tmpl : Template) : gostring :=
  Join (Path tmpl) "files".

(** The loop of [validate] over [tmpl.Files]: the source of the first file
    that does not exist. *)
Fixpoint firstMissing (filesDir : gostring) (files : list FileSpec) (f : FS)
    : option gostring :=
  match files with
  | [] => None
  | file :: rest =>
      if IsNotExist (Join filesDir (Source file)) f then Some (Source file)
      else firstMissing filesDir rest f
  end.

(** [None] is a [nil] error. *)
Definition validate (tmpl : Template) (f : FS) : option validateError :=
  if bool_decide (Version tmpl = []) then Some VersionRequired
  else if bool_decide (Name tmpl = []) then Some NameRequired
  else if bool_decide (Language tmpl = []) then Some LanguageRequired
  else match firstMissing (Join (Path tmpl) "files") (Files tmpl) f with
       | Some source => Some (FileNotFound source)
       | None => None
       end.

(** [inl] is the error, [inr] the template. *)
Definition Load (templatesDir name : gostring) (f : FS) : loadError + Template :=
  let templatePath := Join templatesDir name in
  if IsNotExist templatePath f then inl (TemplateNotFound name)
  else
    let metadataPath := Join templatePath "template.yaml" in
    match ReadFile metadataPath f with
    | None => inl ReadFailed
    | Some data =>
        match Unmarshal data with
        | None => inl ParseFailed
        | Some tmpl =>
            let tmpl := setPath templatePath tmpl in
            match validate tmpl f with
            | Some e => inl (InvalidTemplate e)
            | None => inr tmpl
            end
        end
    end.

End Files.

End Loader.

Module Cli.
Import Template.

(** *** cmd/devinit/main.go: [runNewCommand] *)

Inductive error :=
| NameRequired
| LangRequired
| FrameworkRequired
| GenerateFailed (cause : Generator.error).

(** The lines that [runNewCommand] prints itself. *)
Inductive Line :=
| Creating (lang framework projectName : gostring)
| DryRunBanner
| CreatedAt (projectName : gostring)
| NextSteps
| ChangeDir (projectName : gostring)
| PoetryInstall
| DockerComposeUp
| RunUvicorn.

(** The map of variables that the command makes of its flags. *)
Definition flagVariables (projectName pythonVersion database : gostring)
    (docker includeTests : bool) : gmap gostring Value :=
  <[ ("ProjectName" : gostring) := VString projectName ]>
  (<[ ("PythonVersion" : gostring) := VString pythonVersion ]>
  (<[ ("IncludeDocker" : gostring) := VBool docker ]>
  (<[ ("Database" : gostring) := VString database ]>
  (<[ ("IncludeTests" : gostring) := VBool includeTests ]> ∅)))).

(** The options handed to [Generate]; [OutputDir] keeps its zero value. *)
Definition newOptions (projectName lang framework database pythonVersion : gostring)
    (docker includeTests dryRun : bool) : Generator.Options :=
  {| Generator.opt_ProjectName := projectName;
     Generator.opt_Language := lang;
     Generator.opt_Framework := framework;
     Generator.opt_OutputDir := [];
     Generator.opt_Variables :=
       flagVariables projectName pythonVersion database docker includeTests;
     Generator.DryRun := dryRun |}.

(** What a run leaves: its error, the lines of the command before and
    after the generation, and the world that [Generate] returns. *)
Record Outcome (FS : Type) := {
  failure : option error;
  before : list Line;
  world : Generator.World FS;
  after : list Line
}.
Arguments failure {FS} _.
Arguments before {FS} _.
Arguments world {FS} _.
Arguments after {FS} _.

Section Run.

Variable FS : Type.
(** [gen.Generate] of the generator that [getGenerator] makes. *)
Variable Generate :
  Generator.Options -> Generator.World FS -> option Generator.error * Generator.World FS.

Definition stop (e : error) (w : Generator.World FS) : Outcome FS :=
  {| failure := Some e; before := []; world := w; after := [] |}.

Definition runNewCommand (args : list gostring)
    (lang framework database pythonVersion : gostring)
    (docker includeTests dryRun : bool) (w : Generator.World FS) : Outcome FS :=
  let projectName :=
    match args with
    | _ :: second :: _ => Some second
    | [first] => Some first
    | [] => None
    end in
  match projectName with
  | None => stop NameRequired w
  | Some projectName =>
      if bool_decide (lang = []) then stop LangRequired w
      else if bool_decide (framework = []) then stop FrameworkRequired w
      else
        let opts := newOptions projectName lang framework database pythonVersion
                      docker includeTests dryRun in
        let banner :=
          Creating lang framework projectName
            :: (if dryRun then [DryRunBanner] else []) in
        match Generate opts w with
        | (Some e, w') =>
            {| failure := Some (GenerateFailed e); before := banner;
               world := w'; after := [] |}
        | (None, w') =>
            {| failure := None; before := banner; world := w';
               after :=
                 if negb dryRun then
                   [CreatedAt projectName; NextSteps; ChangeDir projectName]
                   ++ (if bool_decide (lang = "python")
                       then PoetryInstall
                              :: (if docker then [DockerComposeUp] else [RunUvicorn])
                       else [])
                 else [] |}
        end
  end.

End Run.

End Cli.

Module Notions.

(** A non-empty run of decimal digits. *)
Definition digitGroup (d : gostring) : Prop :=
  d <> [] /\ Forall (fun c => Unicode.IsDigit c = true) d.

(** A run of ASCII white space. *)
Abbreviation spaces := (Forall (fun c => Strings.asciiSpace c = true)).

(** No digit comes first: a run of digits that ends here is complete. *)
Definition noDigitAhead (r : gostring) : Prop :=
  match r with
  | c :: _ => Unicode.IsDigit c = false
  | [] => True
  end.

(** The byte [_] turned into [-]. *)
Definition hyphenate (c : ascii) : ascii :=
  if bool_decide (c = "_"%char) then "-"%char else c.

(** A text of ASCII bytes: on these the model of the case functions is
    that of Go. *)
Abbreviation asciiText := (Forall (fun c => (N_of_ascii c < 128)%N)).

(** A file specification with other permissions. *)
Definition setPermissions (permissions : gostring) (f : Template.FileSpec)
    : Template.FileSpec :=
  {| Template.Source := Template.Source f;
     Template.Destination := Template.Destination f;
     Template.Conditions := Template.Conditions f;
     Template.Permissions := permissions |}.

(** The byte [c] never comes twice in a row. *)
Definition noDoubled (c : ascii) (s : gostring) : Prop :=
  forall pre post : gostring, s <> pre ++ c :: c :: post.

End Notions.

(* ================================================================== *)
(** ** Properties of the library models                                *)
(* ================================================================== *)

(** A fact about one byte, by looking at all of them. *)
Ltac by_cases c := destruct c as [[] [] [] [] [] [] [] []]; vm_compute; try done.

(** Boolean tests on byte codes as propositions. *)
Ltac boolean :=
  repeat first
    [ rewrite andb_true_iff | rewrite orb_true_iff
    | rewrite N.eqb_eq | rewrite N.leb_le ].

Section Characters.

Lemma ToLower_not_upper c : Unicode.IsUpper (Unicode.ToLower c) = false.
Proof. by_cases c. Qed.

Lemma ToLower_fixed c : Unicode.IsUpper c = false -> Unicode.ToLower c = c.
Proof. unfold Unicode.ToLower. by intros ->. Qed.

Lemma ToUpper_idem c : Unicode.ToUpper (Unicode.ToUpper c) = Unicode.ToUpper c.
Proof. by_cases c. Qed.

Lemma ToLower_hyphen c : Unicode.ToLower c = "-"%char -> c = "-"%char.
Proof. by_cases c. Qed.

Lemma ToLower_underscore c : Unicode.ToLower c = "_"%char -> c = "_"%char.
Proof. by_cases c. Qed.

Lemma ToLower_separator c :
  Regexp.isSeparator (Unicode.ToLower c) = Regexp.isSeparator c.
Proof. by_cases c. Qed.

Lemma ToUpper_separator c :
  Regexp.isSeparator (Unicode.ToUpper c) = Regexp.isSeparator c.
Proof. by_cases c. Qed.

End Characters.

Section SuffixPrefix.

Lemma HasSuffix_app (base suffix : gostring) :
  Strings.HasSuffix (base ++ suffix) suffix = true.
Proof.
  unfold Strings.HasSuffix. rewrite length_app.
  apply andb_true_intro; split.
  - apply Nat.leb_le. lia.
  - apply bool_decide_eq_true.
    replace (length base + length suffix - length suffix)%nat with (length base) by lia.
    by rewrite drop_app_length.
Qed.

Lemma HasSuffix_split (s suffix : gostring) :
  Strings.HasSuffix s suffix = true ->
  s = take (length s - length suffix) s ++ suffix.
Proof.
  unfold Strings.HasSuffix. intros [_ H%bool_decide_eq_true]%andb_prop.
  transitivity (take (length s - length suffix) s ++ drop (length s - length suffix) s).
  - by rewrite take_drop.
  - by rewrite H.
Qed.

Lemma HasSuffix_length (s suffix : gostring) :
  Strings.HasSuffix s suffix = true -> (length suffix <= length s)%nat.
Proof.
  unfold Strings.HasSuffix. by intros [H%Nat.leb_le _]%andb_prop.
Qed.

Lemma TrimSuffix_app (base suffix : gostring) :
  Strings.TrimSuffix (base ++ suffix) suffix = base.
Proof.
  unfold Strings.TrimSuffix. rewrite HasSuffix_app, length_app.
  replace (length base + length suffix - length suffix)%nat with (length base) by lia.
  by rewrite take_app_length.
Qed.

End SuffixPrefix.

(* ================================================================== *)
(** ** Name casing (util.go)                                           *)
(* ================================================================== *)

Section Casing.
Import Template Spec.

Lemma ReplaceAll_absent (s : gostring) old new :
  Forall (fun c => c <> old) s -> Strings.ReplaceAll s old new = s.
Proof.
  induction 1 as [|c s Hc _ IH]; [done|].
  unfold Strings.ReplaceAll in *. simpl. rewrite IH.
  by rewrite bool_decide_eq_false_2.
Qed.

Lemma collapseRuns_idem c prev (s : gostring) :
  Regexp.collapseRuns c prev (Regexp.collapseRuns c prev s)
  = Regexp.collapseRuns c prev s.
Proof.
  revert prev. induction s as [|a s IH]; intros prev; [done|].
  simpl. case_bool_decide as Ha.
  - destruct prev; [apply IH|].
    simpl. rewrite bool_decide_eq_true_2 by done. by rewrite IH.
  - simpl. rewrite bool_decide_eq_false_2 by done. by rewrite IH.
Qed.

Lemma collapseRuns_Forall (P : ascii -> Prop) c prev (s : gostring) :
  Forall P s -> Forall P (Regexp.collapseRuns c prev s).
Proof.
  intros H. revert prev. induction H as [|a s Ha _ IH]; intros prev; [constructor|].
  simpl. case_bool_decide as Hac.
  - subst a. destruct prev; [apply IH|]. constructor; [done|apply IH].
  - constructor; [done|apply IH].
Qed.

Lemma separateUpper_lower sep first (s : gostring) :
  Unicode.IsUpper sep = false ->
  Forall (fun c => Unicode.IsUpper c = false) (separateUpper sep first s).
Proof.
  intros Hsep. revert first. induction s as [|r s IH]; intros first; [constructor|].
  simpl. destruct (Unicode.IsUpper r && negb first).
  - constructor; [done|]. constructor; [apply ToLower_not_upper|apply IH].
  - constructor; [apply ToLower_not_upper|apply IH].
Qed.

Lemma separateUpper_avoids sep other first (s : gostring) :
  sep <> other ->
  (forall c, Unicode.ToLower c = other -> c = other) ->
  Forall (fun c => c <> other) s ->
  Forall (fun c => c <> other) (separateUpper sep first s).
Proof.
  intros Hsep Hlow H. revert first.
  induction H as [|r s Hr _ IH]; intros first; [constructor|].
  assert (Unicode.ToLower r <> other) by (intros E; by apply Hr, Hlow).
  simpl. destruct (Unicode.IsUpper r && negb first); repeat constructor; auto.
Qed.

Lemma separateUpper_fixed sep first (s : gostring) :
  Forall (fun c => Unicode.IsUpper c = false) s -> separateUpper sep first s = s.
Proof.
  intros H. revert first. induction H as [|r s Hr _ IH]; intros first; [done|].
  simpl. rewrite Hr. simpl. by rewrite IH, ToLower_fixed.
Qed.

Lemma ReplaceAll_avoids (s : gostring) old new :
  new <> old -> Forall (fun c => c <> old) (Strings.ReplaceAll s old new).
Proof.
  intros Hne. unfold Strings.ReplaceAll. apply Forall_map, Forall_forall.
  intros c _. simpl. by case_bool_decide.
Qed.

(** The shape shared by [toSnakeCase] and [toKebabCase]: replace [other]
    by [sep], separate the upper-case letters, collapse the runs. *)
Lemma separator_case_idem sep other (s : gostring) :
  sep <> other ->
  Unicode.IsUpper sep = false ->
  (forall c, Unicode.ToLower c = other -> c = other) ->
  let f := fun s => Regexp.collapseRuns sep false
                      (separateUpper sep true (Strings.ReplaceAll s other sep)) in
  f (f s) = f s.
Proof.
  intros Hne Hsep Hlow f. unfold f at 1.
  assert (Hno : Forall (fun c => c <> other) (f s)).
  { apply collapseRuns_Forall, separateUpper_avoids; try done.
    by apply ReplaceAll_avoids. }
  assert (Hlo : Forall (fun c => Unicode.IsUpper c = false) (f s)).
  { by apply collapseRuns_Forall, separateUpper_lower. }
  rewrite ReplaceAll_absent by done.
  rewrite separateUpper_fixed by done.
  apply collapseRuns_idem.
Qed.

Lemma toSnakeCase_idem (s : gostring) : toSnakeCase (toSnakeCase s) = toSnakeCase s.
Proof.
  apply (separator_case_idem "_" "-" s); [done|done|apply ToLower_hyphen].
Qed.

Lemma toKebabCase_idem (s : gostring) : toKebabCase (toKebabCase s) = toKebabCase s.
Proof.
  apply (separator_case_idem "-" "_" s); [done|done|apply ToLower_underscore].
Qed.

(** Splitting. *)
Lemma splitGo_plain inRun (cur s : gostring) :
  plainText s -> Regexp.splitGo inRun cur s = [rev cur ++ s].
Proof.
  intros H. revert inRun cur. induction H as [|a s Ha _ IH]; intros inRun cur.
  - simpl. by rewrite app_nil_r.
  - simpl. rewrite Ha, IH. simpl. by rewrite <- app_assoc.
Qed.

Lemma splitGo_parts inRun (cur s : gostring) :
  plainText cur -> Forall plainText (Regexp.splitGo inRun cur s).
Proof.
  revert inRun cur. induction s as [|a s IH]; intros inRun cur Hcur.
  - simpl. repeat constructor. by apply Forall_rev.
  - simpl. destruct (Regexp.isSeparator a) eqn:Ha.
    + destruct inRun; [by apply IH|].
      constructor; [by apply Forall_rev|by apply IH].
    + apply IH. by constructor.
Qed.

Lemma capitalize_plain (p : gostring) : plainText p -> plainText (capitalize p).
Proof.
  destruct 1 as [|r p Hr Hp]; [constructor|].
  simpl. constructor; [by rewrite ToUpper_separator|done].
Qed.

Lemma ToLower_plain (p : gostring) : plainText p -> plainText (Strings.ToLower p).
Proof.
  intros H. apply Forall_map. eapply Forall_impl; [exact H|].
  intros c Hc. simpl. by rewrite ToLower_separator.
Qed.

Lemma pascalParts_plain parts : Forall plainText parts -> plainText (pascalParts parts).
Proof.
  induction 1 as [|p parts Hp _ IH]; [constructor|].
  simpl. destruct p as [|r p]; [done|].
  apply Forall_app; split; [by apply capitalize_plain|done].
Qed.

Lemma camelParts_plain i parts : Forall plainText parts -> plainText (camelParts i parts).
Proof.
  intros H. revert i. induction H as [|p parts Hp _ IH]; intros i; [constructor|].
  simpl. destruct p as [|r p]; [apply IH|].
  apply Forall_app; split; [|apply IH].
  destruct (i =? 0)%nat; [by apply ToLower_plain|by apply capitalize_plain].
Qed.

Lemma capitalize_pascalParts parts :
  capitalize (pascalParts parts) = pascalParts parts.
Proof.
  induction parts as [|p parts IH]; [done|].
  simpl. destruct p as [|r p]; [done|].
  simpl. by rewrite ToUpper_idem.
Qed.

Lemma toPascalCase_idem (s : gostring) : toPascalCase (toPascalCase s) = toPascalCase s.
Proof.
  unfold toPascalCase at 1. unfold Regexp.SplitSeparators.
  rewrite splitGo_plain.
  - simpl. destruct (toPascalCase s) eqn:E; [done|].
    rewrite app_nil_r, <- E. apply capitalize_pascalParts.
  - apply pascalParts_plain, splitGo_parts. constructor.
Qed.

Lemma toCamelCase_plain (s : gostring) : plainText (toCamelCase s).
Proof.
  unfold toCamelCase.
  assert (H : Forall plainText (Regexp.SplitSeparators s))
    by (apply splitGo_parts; constructor).
  destruct (Regexp.SplitSeparators s); [constructor|by apply camelParts_plain].
Qed.

Lemma toCamelCase_twice (s : gostring) :
  toCamelCase (toCamelCase s) = Strings.ToLower (toCamelCase s).
Proof.
  unfold toCamelCase at 1. unfold Regexp.SplitSeparators.
  rewrite splitGo_plain by apply toCamelCase_plain.
  simpl. destruct (toCamelCase s); [done|]. by rewrite app_nil_r.
Qed.

End Casing.

(** C4 (amended). The casing transforms on the four sample names:
    [toSnakeCase] puts a separator before every upper-case letter, so
    "MyAPI-Project" becomes "my_a_p_i_project", the mirror image of what
    [toKebabCase] does to "MyAPIProject"; the other three values are the
    stated ones. *)
Theorem casing_samples :
  Template.toSnakeCase "MyAPI-Project" = "my_a_p_i_project"
  /\ Template.toCamelCase "my-api-project" = "myApiProject"
  /\ Template.toPascalCase "my_api_project" = "MyApiProject"
  /\ Template.toKebabCase "MyAPIProject" = "my-a-p-i-project".
Proof. repeat split; reflexivity. Qed.

(** C4 as stated fails: [toSnakeCase "MyAPI-Project"] is not
    "my_api_project". *)
Lemma snake_sample_differs :
  ~ (Template.toSnakeCase "MyAPI-Project" = "my_api_project"
     /\ Template.toCamelCase "my-api-project" = "myApiProject"
     /\ Template.toPascalCase "my_api_project" = "MyApiProject"
     /\ Template.toKebabCase "MyAPIProject" = "my-a-p-i-project").
Proof. intros [H _]. vm_compute in H. discriminate H. Qed.

(** C5 (amended). [toSnakeCase], [toKebabCase] and [toPascalCase] are
    idempotent on every input.  [toCamelCase] applied to its own output
    lower-cases it, since the output is a single segment and the first
    segment is written in lower case. *)
Theorem casing_reapplied (x : gostring) :
  Template.toSnakeCase (Template.toSnakeCase x) = Template.toSnakeCase x
  /\ Template.toKebabCase (Template.toKebabCase x) = Template.toKebabCase x
  /\ Template.toPascalCase (Template.toPascalCase x) = Template.toPascalCase x
  /\ Template.toCamelCase (Template.toCamelCase x)
     = Strings.ToLower (Template.toCamelCase x).
Proof.
  split; [apply toSnakeCase_idem|].
  split; [apply toKebabCase_idem|].
  split; [apply toPascalCase_idem|apply toCamelCase_twice].
Qed.

(** C5 as stated fails for [toCamelCase]: on "my-api-project" the first
    application gives "myApiProject" and the second "myapiproject". *)
Lemma casing_idempotence_fails_for_camel :
  Template.toCamelCase "my-api-project" = "myApiProject"
  /\ Template.toCamelCase (Template.toCamelCase "my-api-project") = "myapiproject"
  /\ ~ (let x : gostring := "my-api-project" in
        Template.toSnakeCase (Template.toSnakeCase x) = Template.toSnakeCase x
        /\ Template.toKebabCase (Template.toKebabCase x) = Template.toKebabCase x
        /\ Template.toCamelCase (Template.toCamelCase x) = Template.toCamelCase x
        /\ Template.toPascalCase (Template.toPascalCase x) = Template.toPascalCase x).
Proof.
  split; [reflexivity|]. split; [reflexivity|].
  intros (_ & _ & H & _). vm_compute in H. discriminate H.
Qed.

(* ================================================================== *)
(** ** Output file names (renderer.go)                                 *)
(* ================================================================== *)

Lemma GetOutputFilename_unchanged (filename : gostring) :
  Strings.HasSuffix filename ".tmpl" = false ->
  Template.GetOutputFilename filename = filename.
Proof. unfold Template.GetOutputFilename. by intros ->. Qed.

Lemma GetOutputFilename_strips (base : gostring) :
  Template.GetOutputFilename (base ++ ".tmpl") = base.
Proof.
  unfold Template.GetOutputFilename.
  rewrite HasSuffix_app. apply TrimSuffix_app.
Qed.

Lemma GetOutputFilename_shorter (filename : gostring) :
  Strings.HasSuffix filename ".tmpl" = true ->
  (length (Template.GetOutputFilename filename) < length filename)%nat.
Proof.
  intros H. unfold Template.GetOutputFilename, Strings.TrimSuffix. rewrite H.
  apply HasSuffix_length in H. rewrite length_take. simpl in *. lia.
Qed.

(** C7 (amended). [GetOutputFilename] returns a name without the [.tmpl]
    suffix unchanged and removes one [.tmpl] suffix from a name that has
    it; applying it twice gives the same as applying it once exactly when
    the name stripped once does not end in [.tmpl] again. *)
Theorem GetOutputFilename_twice (filename : gostring) :
  (Strings.HasSuffix filename ".tmpl" = false ->
   Template.GetOutputFilename filename = filename)
  /\ Template.GetOutputFilename (filename ++ ".tmpl") = filename
  /\ (Template.GetOutputFilename (Template.GetOutputFilename filename)
      = Template.GetOutputFilename filename
      <-> Strings.HasSuffix (Template.GetOutputFilename filename) ".tmpl" = false).
Proof.
  split; [apply GetOutputFilename_unchanged|].
  split; [apply GetOutputFilename_strips|].
  split.
  - intros E.
    destruct (Strings.HasSuffix (Template.GetOutputFilename filename) ".tmpl") eqn:H; [|done].
    apply GetOutputFilename_shorter in H. rewrite E in H. lia.
  - apply GetOutputFilename_unchanged.
Qed.

Lemma GetOutputFilename_twice_witness :
  Strings.HasSuffix "main.go" ".tmpl" = false
  /\ Template.GetOutputFilename "main.go" = "main.go"
  /\ Template.GetOutputFilename (Template.GetOutputFilename "main.go")
     = Template.GetOutputFilename "main.go".
Proof.
  destruct (GetOutputFilename_twice "main.go") as (H1 & _ & H3).
  split; [reflexivity|]. split; [apply H1; reflexivity|apply H3; reflexivity].
Defined.

(** C7 as stated fails: on "page.tmpl.tmpl" one application gives
    "page.tmpl" and two give "page". *)
Lemma GetOutputFilename_not_idempotent :
  Template.GetOutputFilename "page.tmpl.tmpl" = "page.tmpl"
  /\ Template.GetOutputFilename (Template.GetOutputFilename "page.tmpl.tmpl") = "page"
  /\ Template.GetOutputFilename (Template.GetOutputFilename "page.tmpl.tmpl")
     <> Template.GetOutputFilename "page.tmpl.tmpl".
Proof.
  split; [reflexivity|]. split; [reflexivity|].
  intros H. vm_compute in H. discriminate H.
Qed.

(* ================================================================== *)
(** ** Trimming, prefixes and numbers                                  *)
(* ================================================================== *)

Import Spec Notions.

Section Trimming.

Lemma space2_blank a b :
  Strings.space2 a b = true -> blank a = true /\ blank b = true.
Proof.
  unfold Strings.space2, blank, Strings.asciiSpace.
  generalize (N_of_ascii a) (N_of_ascii b). intros x y.
  boolean. lia.
Qed.

Lemma space3_blank a b c :
  Strings.space3 a b c = true -> blank a = true /\ blank b = true /\ blank c = true.
Proof.
  unfold Strings.space3, blank, Strings.asciiSpace.
  generalize (N_of_ascii a) (N_of_ascii b) (N_of_ascii c). intros x y z.
  boolean. lia.
Qed.

Lemma asciiSpace_blank a : Strings.asciiSpace a = true -> blank a = true.
Proof. unfold blank. by intros ->. Qed.

Lemma plain_not_space a : blank a = false -> Strings.asciiSpace a = false.
Proof. unfold blank. by intros [? _]%orb_false_iff. Qed.

Lemma space2_plain_l a b : blank a = false -> Strings.space2 a b = false.
Proof.
  intros H. destruct (Strings.space2 a b) eqn:E; [|done].
  apply space2_blank in E. destruct E; congruence.
Qed.

Lemma space2_plain_r a b : blank b = false -> Strings.space2 a b = false.
Proof.
  intros H. destruct (Strings.space2 a b) eqn:E; [|done].
  apply space2_blank in E. destruct E; congruence.
Qed.

Lemma space3_plain a b c :
  blank a = false \/ blank b = false \/ blank c = false -> Strings.space3 a b c = false.
Proof.
  intros H. destruct (Strings.space3 a b c) eqn:E; [|done].
  apply space3_blank in E. destruct E as (? & ? & ?), H as [|[|]]; congruence.
Qed.

Lemma trimLeft_plain a (r : gostring) :
  blank a = false -> Strings.trimLeft (a :: r) = a :: r.
Proof.
  intros H. simpl. rewrite (plain_not_space a H).
  destruct r as [|b [|c r]]; [done| |].
  - by rewrite space2_plain_l.
  - by rewrite space2_plain_l, space3_plain by auto.
Qed.

Lemma trimLeftRev_plain a (r : gostring) :
  blank a = false -> Strings.trimLeftRev (a :: r) = a :: r.
Proof.
  intros H. simpl. rewrite (plain_not_space a H).
  destruct r as [|b [|c r]]; [done| |].
  - by rewrite space2_plain_r.
  - by rewrite space2_plain_r, space3_plain by auto.
Qed.

Lemma by_length (P : gostring -> Prop) :
  (forall s, (forall t, (length t < length s)%nat -> P t) -> P s) -> forall s, P s.
Proof.
  intros H s. induction s as [s IH] using (induction_ltof1 _ (@length ascii)).
  apply H. exact IH.
Qed.

(** What [trimLeftRev] removes is made of blank bytes. *)
Lemma trimLeftRev_removed (u : gostring) :
  exists w, u = w ++ Strings.trimLeftRev u /\ Forall (fun c => blank c = true) w.
Proof.
  induction u as [u IH] using by_length.
  destruct u as [|a r1]; [by exists []|].
  simpl. destruct (Strings.asciiSpace a) eqn:Ha.
  { destruct (IH r1) as (w & E & Hw); [simpl; lia|].
    exists (a :: w). split; [simpl; by rewrite <- E|].
    constructor; [by apply asciiSpace_blank|done]. }
  destruct r1 as [|b r2]; [by exists []|].
  destruct (Strings.space2 b a) eqn:Hab.
  { destruct (IH r2) as (w & E & Hw); [simpl; lia|].
    apply space2_blank in Hab. destruct Hab.
    exists (a :: b :: w). split; [simpl; by rewrite <- E|].
    by repeat constructor. }
  destruct r2 as [|c r3]; [by exists []|].
  destruct (Strings.space3 c b a) eqn:Habc; [|by exists []].
  destruct (IH r3) as (w & E & Hw); [simpl; lia|].
  apply space3_blank in Habc. destruct Habc as (? & ? & ?).
  exists (a :: b :: c :: w). split; [simpl; by rewrite <- E|].
  by repeat constructor.
Qed.

Lemma trimLeftRev_app (u v : gostring) :
  plainBytes v -> Strings.trimLeftRev (u ++ v) = Strings.trimLeftRev u ++ v.
Proof.
  intros Hv.
  assert (Hid : Strings.trimLeftRev v = v).
  { destruct Hv; [done|by apply trimLeftRev_plain]. }
  induction u as [u IH] using by_length.
  destruct u as [|a r1]; [done|].
  simpl. destruct (Strings.asciiSpace a) eqn:Ha.
  { apply IH. simpl; lia. }
  destruct r1 as [|b r2].
  { simpl. destruct Hv as [|b v Hb Hv]; [done|].
    rewrite space2_plain_l by done.
    destruct Hv as [|c v Hc Hv]; [done|].
    by rewrite space3_plain by auto. }
  simpl. destruct (Strings.space2 b a) eqn:Hab.
  { apply IH. simpl; lia. }
  destruct r2 as [|c r3].
  { simpl. destruct Hv as [|c v Hc Hv]; [done|].
    by rewrite space3_plain by auto. }
  simpl. destruct (Strings.space3 c b a) eqn:Habc; [|done].
  apply IH. simpl; lia.
Qed.

Lemma trimLeftRev_idem (u : gostring) :
  Strings.trimLeftRev (Strings.trimLeftRev u) = Strings.trimLeftRev u.
Proof.
  induction u as [u IH] using by_length.
  destruct u as [|a r1]; [done|].
  simpl. destruct (Strings.asciiSpace a) eqn:Ha.
  { apply IH. simpl; lia. }
  destruct r1 as [|b r2]; [simpl; by rewrite Ha|].
  destruct (Strings.space2 b a) eqn:Hab.
  { apply IH. simpl; lia. }
  destruct r2 as [|c r3]; [simpl; by rewrite Ha, Hab|].
  destruct (Strings.space3 c b a) eqn:Habc.
  { apply IH. simpl; lia. }
  simpl. by rewrite Ha, Hab, Habc.
Qed.

Lemma trimRight_app (v u : gostring) :
  plainBytes v -> Strings.trimRight (v ++ u) = v ++ Strings.trimRight u.
Proof.
  intros Hv. unfold Strings.trimRight.
  rewrite rev_app_distr, trimLeftRev_app by (by apply Forall_rev).
  by rewrite rev_app_distr, rev_involutive.
Qed.

Lemma trimRight_removed (s : gostring) :
  exists w, s = Strings.trimRight s ++ w /\ Forall (fun c => blank c = true) w.
Proof.
  destruct (trimLeftRev_removed (rev s)) as (w & E & Hw).
  exists (rev w). split; [|by apply Forall_rev].
  unfold Strings.trimRight. rewrite <- rev_app_distr, <- E.
  by rewrite rev_involutive.
Qed.

Lemma trimRight_idem (s : gostring) :
  Strings.trimRight (Strings.trimRight s) = Strings.trimRight s.
Proof.
  unfold Strings.trimRight. by rewrite rev_involutive, trimLeftRev_idem.
Qed.

Lemma trimRight_cons a (r : gostring) :
  blank a = false -> Strings.trimRight (a :: r) = a :: Strings.trimRight r.
Proof. intros H. apply (trimRight_app [a]). by constructor. Qed.

Lemma TrimSpace_plain a (r : gostring) :
  blank a = false -> Strings.TrimSpace (a :: r) = a :: Strings.trimRight r.
Proof.
  intros H. unfold Strings.TrimSpace. rewrite trimLeft_plain by done.
  by apply trimRight_cons.
Qed.

End Trimming.

Section Prefixes.

Lemma HasPrefix_nil (s : gostring) : Strings.HasPrefix s [] = true.
Proof. unfold Strings.HasPrefix. simpl. by destruct s. Qed.

Lemma HasPrefix_cons a b (s p : gostring) :
  Strings.HasPrefix (a :: s) (b :: p) = bool_decide (a = b) && Strings.HasPrefix s p.
Proof.
  unfold Strings.HasPrefix. simpl.
  destruct (length p <=? length s)%nat; simpl; [|by rewrite andb_false_r].
  apply eq_true_iff_eq. rewrite andb_true_iff, !bool_decide_eq_true.
  split; [by intros [= -> ->]|by intros [-> ->]].
Qed.

Lemma HasPrefix_empty (p : gostring) : p <> [] -> Strings.HasPrefix [] p = false.
Proof. by destruct p. Qed.

Lemma TrimPrefix_cons a b (s : gostring) :
  Strings.TrimPrefix (a :: s) [b] = if bool_decide (a = b) then s else a :: s.
Proof.
  unfold Strings.TrimPrefix. rewrite HasPrefix_cons, HasPrefix_nil, andb_true_r.
  by case_bool_decide.
Qed.

End Prefixes.

Section Numbers.

Lemma digits_decimal (s : gostring) acc :
  Strconv.digits acc s =
  if forallb Unicode.IsDigit s
  then Some (fold_left (fun acc c => acc * 10 + Strconv.digitValue c)%Z s acc)
  else None.
Proof.
  revert acc. induction s as [|c s IH]; intros acc; [done|].
  simpl. destruct (Unicode.IsDigit c); [apply IH|done].
Qed.

Lemma unsigned_decimal (ds : gostring) :
  Strconv.unsigned ds =
  if negb (bool_decide (ds = [])) && forallb Unicode.IsDigit ds
  then Some (decimal ds) else None.
Proof. destruct ds as [|c ds]; [done|]. unfold Strconv.unsigned. by rewrite digits_decimal. Qed.

(** [Atoi] accepts exactly the numeric components. *)
Lemma Atoi_numeric (p : gostring) :
  Strconv.Atoi p = if numeric p then Some (decimalValue p) else None.
Proof.
  unfold numeric, decimalValue, Strconv.Atoi.
  destruct p as [|c ds]; [done|].
  unfold unsign, isNegative, isSign.
  case_bool_decide as Hm; simpl.
  - rewrite unsigned_decimal.
    destruct (negb (bool_decide (ds = [])) && forallb Unicode.IsDigit ds); [|done].
    simpl. unfold Strconv.inRange.
    by destruct ((Strconv.minInt <=? - decimal ds)%Z && (- decimal ds <=? Strconv.maxInt)%Z).
  - case_bool_decide as Hp; simpl.
    + rewrite unsigned_decimal.
      destruct (negb (bool_decide (ds = [])) && forallb Unicode.IsDigit ds); [|done].
      simpl. unfold Strconv.inRange.
      by destruct ((Strconv.minInt <=? decimal ds)%Z && (decimal ds <=? Strconv.maxInt)%Z).
    + unfold decimal. simpl. destruct (Unicode.IsDigit c); [|done]. simpl.
      rewrite digits_decimal.
      destruct (forallb Unicode.IsDigit ds); [|done].
      simpl. unfold Strconv.inRange.
      match goal with |- context [(?a <=? ?b)%Z && _] => by destruct ((a <=? b)%Z && (b <=? Strconv.maxInt)%Z) end.
Qed.

Lemma digit_plain c : Unicode.IsDigit c = true -> blank c = false.
Proof. by_cases c. Qed.

Lemma sign_plain c : isSign c = true -> blank c = false.
Proof. by_cases c. Qed.

Lemma numeric_plain (p : gostring) : numeric p = true -> plainBytes p.
Proof.
  unfold numeric. intros [[[_ H]%andb_prop _]%andb_prop _]%andb_prop.
  assert (Hd : plainBytes (unsign p)).
  { apply Forall_forall. intros c Hc. apply digit_plain.
    rewrite forallb_forall in H. apply H. by apply list_elem_of_In. }
  destruct p as [|c ds]; [constructor|].
  unfold unsign in Hd. destruct (isSign c) eqn:Hc; [|done].
  constructor; [by apply sign_plain|done].
Qed.

Lemma numeric_nonempty (p : gostring) : numeric p = true -> p <> [].
Proof. by destruct p. Qed.

End Numbers.

Section Versions.
Import Validator.

Lemma component_numeric parts i :
  component parts i =
  match parts !! i with
  | Some p => if numeric p then Ok (decimalValue p) else Err (InvalidComponent p)
  | None => Ok 0%Z
  end.
Proof.
  unfold component. destruct (parts !! i) as [p|]; [|done].
  rewrite Atoi_numeric. by destruct (numeric p).
Qed.

Lemma component_value parts i z :
  component parts i = Ok z -> z = componentValue parts i.
Proof.
  rewrite component_numeric. unfold componentValue.
  destruct (parts !! i) as [p|]; [|congruence].
  destruct (numeric p); congruence.
Qed.

Lemma component_ok parts i :
  (forall p, parts !! i = Some p -> numeric p = true) <->
  component parts i = Ok (componentValue parts i).
Proof.
  rewrite component_numeric. unfold componentValue.
  destruct (parts !! i) as [p|]; [|done].
  split.
  - intros H. by rewrite (H p eq_refl).
  - intros H q [= <-]. by destruct (numeric p).
Qed.

Lemma component_err parts i :
  (exists e, component parts i = Err e) <->
  exists p, parts !! i = Some p /\ numeric p = false.
Proof.
  rewrite component_numeric.
  destruct (parts !! i) as [p|].
  - destruct (numeric p) eqn:E.
    + split; [by intros [e ?]|]. intros (q & [= <-] & ?). congruence.
    + split; [by exists p|by eexists].
  - split; [by intros [e ?]|by intros (q & ? & _)].
Qed.

Lemma parseVersion_components (version : gostring) :
  let parts := Strings.Split (Strings.TrimPrefix version "v") "." in
  parseVersion version =
  match component parts 0, component parts 1, component parts 2 with
  | Ok major, Ok minor, Ok patch => Ok (major, minor, patch)
  | Err e, _, _ => Err e
  | _, Err e, _ => Err e
  | _, _, Err e => Err e
  end.
Proof.
  intros parts. unfold parseVersion. fold parts.
  by destruct (component parts 0), (component parts 1), (component parts 2).
Qed.

Lemma parseVersion_ok (version : gostring) v :
  let parts := Strings.Split (Strings.TrimPrefix version "v") "." in
  parseVersion version = Ok v <->
  component parts 0 = Ok v.1.1 /\ component parts 1 = Ok v.1.2
  /\ component parts 2 = Ok v.2.
Proof.
  intros parts. rewrite parseVersion_components. fold parts.
  destruct v as [[a b] c]. simpl.
  destruct (component parts 0), (component parts 1), (component parts 2);
    split; try (intros (? & ? & ?)); try intros ?; try congruence.
  by simplify_eq.
Qed.

Lemma Split_nonempty (s : gostring) sep : Strings.Split s sep <> [].
Proof.
  destruct s as [|c s]; [done|]. simpl.
  case_bool_decide; [done|]. by destruct (Strings.Split s sep).
Qed.

Lemma Split_whole (w : gostring) sep :
  Forall (fun c => c <> sep) w -> Strings.Split w sep = [w].
Proof.
  induction 1 as [|c w Hc _ IH]; [done|].
  simpl. by rewrite bool_decide_eq_false_2, IH.
Qed.

Lemma appendLast_cons p parts (w : gostring) :
  parts <> [] -> appendLast (p :: parts) w = p :: appendLast parts w.
Proof. by destruct parts. Qed.

Lemma Split_app (x w : gostring) sep :
  Forall (fun c => c <> sep) w ->
  Strings.Split (x ++ w) sep = appendLast (Strings.Split x sep) w.
Proof.
  intros Hw. induction x as [|c x IH]; [by apply Split_whole|].
  simpl. case_bool_decide.
  - rewrite IH, appendLast_cons; [done|apply Split_nonempty].
  - rewrite IH. pose proof (Split_nonempty x sep) as Hne.
    destruct (Strings.Split x sep) as [|p [|q ps]]; done.
Qed.

Lemma blank_not_dot c : blank c = true -> c <> "."%char.
Proof. intros H ->. vm_compute in H. discriminate H. Qed.

Lemma numeric_app_blank (p w : gostring) :
  Forall (fun c => blank c = true) w -> numeric (p ++ w) = true -> w = [].
Proof.
  intros Hw Hn. apply numeric_plain in Hn.
  apply Forall_app in Hn as [_ Hn].
  destruct Hw as [|c w Hc _]; [done|].
  inversion Hn; congruence.
Qed.

Lemma component_appendLast parts (w : gostring) i z :
  Forall (fun c => blank c = true) w ->
  component (appendLast parts w) i = Ok z -> component parts i = Ok z.
Proof.
  intros Hw. revert i. induction parts as [|p parts IH]; intros i; [done|].
  destruct parts as [|q parts].
  - destruct i as [|i]; [|done]. simpl.
    rewrite !component_numeric. simpl.
    destruct (numeric (p ++ w)) eqn:E; [|done].
    pose proof (numeric_app_blank _ _ Hw E) as ->.
    rewrite app_nil_r in *. by rewrite E.
  - rewrite appendLast_cons by done.
    destruct i as [|i]; [done|]. apply (IH i).
Qed.

(** A version that parses starts with a plain byte. *)
Lemma parseVersion_head (version : gostring) v :
  parseVersion version = Ok v ->
  exists a rest, version = a :: rest /\ blank a = false.
Proof.
  intros H. destruct version as [|a rest]; [done|].
  exists a, rest. split; [done|].
  destruct (blank a) eqn:Ha; [exfalso|done].
  apply parseVersion_ok in H as (H0 & _ & _).
  change (String.list_ascii_of_string "v") with ["v"%char] in H0.
  rewrite TrimPrefix_cons in H0.
  rewrite bool_decide_eq_false_2 in H0
    by (intros ->; vm_compute in Ha; discriminate Ha).
  simpl in H0. rewrite bool_decide_eq_false_2 in H0 by (by apply blank_not_dot).
  pose proof (Split_nonempty rest ".") as Hne.
  destruct (Strings.Split rest ".") as [|p ps]; [done|].
  rewrite component_numeric in H0. simpl in H0.
  destruct (numeric (a :: p)) eqn:E; [|done].
  apply numeric_plain in E. inversion E; congruence.
Qed.

Lemma parseVersion_trimRight (version : gostring) v :
  parseVersion version = Ok v -> parseVersion (Strings.trimRight version) = Ok v.
Proof.
  intros H. destruct (parseVersion_head _ _ H) as (a & rest & -> & Ha).
  destruct (trimRight_removed (a :: rest)) as (w & E & Hw).
  rewrite trimRight_cons in * by done.
  set (t := Strings.trimRight rest) in *.
  rewrite E in H. clear E.
  apply parseVersion_ok in H as (H0 & H1 & H2).
  apply parseVersion_ok.
  assert (Hs : Strings.Split (Strings.TrimPrefix (a :: t ++ w) "v") "."
               = appendLast (Strings.Split (Strings.TrimPrefix (a :: t) "v") ".") w).
  { change (String.list_ascii_of_string "v") with ["v"%char].
    rewrite !TrimPrefix_cons. rewrite <- Split_app.
    - by case_bool_decide.
    - eapply Forall_impl; [exact Hw|]. apply blank_not_dot. }
  change ((a :: t) ++ w) with (a :: t ++ w) in *.
  rewrite Hs in *.
  repeat split; by eapply component_appendLast.
Qed.

End Versions.

Section Constraints.
Import Validator.

Lemma versionStart_plain a : versionStart a = true -> blank a = false.
Proof. by_cases a. Qed.

Lemma versionStart_not_operator a :
  versionStart a = true ->
  a <> ">"%char /\ a <> "<"%char /\ a <> "="%char /\ a <> "^"%char /\ a <> "~"%char.
Proof. by_cases a. Qed.

Lemma parseVersion_start (version : gostring) v :
  parseVersion version = Ok v ->
  exists a rest, version = a :: rest /\ versionStart a = true.
Proof.
  intros H. destruct version as [|a rest]; [done|].
  exists a, rest. split; [done|].
  apply parseVersion_ok in H as (H0 & _ & _).
  change (String.list_ascii_of_string "v") with ["v"%char] in H0.
  rewrite TrimPrefix_cons in H0. unfold versionStart.
  case_bool_decide as Hv; [done|]. simpl in *.
  case_bool_decide as Hdot; [done|].
  pose proof (Split_nonempty rest "."%char) as Hne.
  destruct (Strings.Split rest ".") as [|p ps]; [done|].
  rewrite component_numeric in H0. simpl in H0.
  destruct (numeric (a :: p)) eqn:E; [|done].
  unfold numeric, unsign in E.
  destruct (isSign a); [done|]. simpl in E.
  by destruct (Unicode.IsDigit a).
Qed.

Lemma compareVersionParts_lex c r :
  compareVersionParts c r =
  match lexCompare c r with Lt => -1 | Eq => 0 | Gt => 1 end%Z.
Proof.
  destruct c as [[a0 a1] a2], r as [[b0 b1] b2].
  unfold compareVersionParts, lexCompare. simpl.
  destruct (Z.compare_spec a0 b0), (Z.compare_spec a1 b1), (Z.compare_spec a2 b2);
    repeat match goal with
           | |- context [(?x <? ?y)%Z] => destruct (Z.ltb_spec x y); try lia
           | |- context [(?x >? ?y)%Z] => rewrite (Z.gtb_ltb x y)
           end; done.
Qed.

Lemma TrimSpace_operator (op required : gostring) :
  plainBytes op ->
  (exists a rest, required = a :: rest /\ blank a = false) ->
  Strings.TrimSpace (op ++ required) = op ++ Strings.trimRight required.
Proof.
  intros Hop (a & rest & -> & Ha).
  destruct Hop as [|o op Ho Hop].
  - simpl. rewrite TrimSpace_plain by done. by rewrite trimRight_cons.
  - simpl. rewrite TrimSpace_plain by done. by rewrite trimRight_app.
Qed.

Lemma splitOperator_operator (op : gostring) a (t : gostring) :
  op ∈ operators -> versionStart a = true ->
  Strings.trimRight (a :: t) = a :: t ->
  splitOperator (op ++ a :: t)
  = (if bool_decide (op = []) then "=" : gostring else op, a :: t).
Proof.
  intros Hop Ha Ht.
  assert (Hts : Strings.TrimSpace (a :: t) = a :: t).
  { rewrite TrimSpace_plain by (by apply versionStart_plain).
    by rewrite trimRight_cons in Ht by (by apply versionStart_plain). }
  destruct (versionStart_not_operator a Ha) as (? & ? & ? & ? & ?).
  unfold operators in Hop. rewrite !elem_of_cons, elem_of_nil in Hop.
  unfold splitOperator.
  destruct Hop as [->|[->|[->|[->|[->|[->|[->|[->|[]]]]]]]]]; simpl;
    rewrite ?HasPrefix_cons, ?HasPrefix_nil;
    rewrite ?(bool_decide_eq_false_2 (a = _)) by done;
    simpl; by rewrite ?Hts.
Qed.

Lemma operator_plain (op : gostring) : op ∈ operators -> plainBytes op.
Proof.
  unfold operators. rewrite !elem_of_cons, elem_of_nil.
  intros [->|[->|[->|[->|[->|[->|[->|[->|[]]]]]]]]]; by repeat constructor.
Qed.

(** [CompareVersion] on an operator followed by a version: the code's
    switch, on the parsed versions. *)
Lemma CompareVersion_operator (op current required : gostring) c r :
  op ∈ operators ->
  parseVersion current = Ok c ->
  parseVersion required = Ok r ->
  CompareVersion current (op ++ required) = Ok (holds op c r).
Proof.
  intros Hop Hc Hr.
  destruct (parseVersion_start _ _ Hr) as (a & rest & -> & Ha).
  pose proof (versionStart_plain a Ha) as Hpl.
  unfold CompareVersion.
  rewrite TrimSpace_operator by (by eauto using operator_plain).
  apply parseVersion_trimRight in Hr.
  rewrite trimRight_cons in * by done.
  rewrite splitOperator_operator; [|done|done|].
  2:{ rewrite <- (trimRight_cons a rest) by done.
      by rewrite trimRight_idem, trimRight_cons. }
  rewrite Hc, Hr. rewrite compareVersionParts_lex.
  unfold holds.
  unfold operators in Hop. rewrite !elem_of_cons, elem_of_nil in Hop.
  destruct Hop as [->|[->|[->|[->|[->|[->|[->|[->|[]]]]]]]]]; simpl;
    destruct (lexCompare c r); done.
Qed.

End Constraints.

(* ================================================================== *)
(** ** Version constraints (internal/validator)                        *)
(* ================================================================== *)

(** C1. For version strings that parse, [CompareVersion] decides a
    constraint by the three-way comparison of (major, minor, patch): the
    operators [>=], [>], [<=], [<], [=] translate it directly, no operator
    means equality, [^] asks for current >= required with equal majors and
    [~] for current >= required with equal majors and minors; and the five
    sample constraints evaluate as stated. *)
Theorem CompareVersion_semantics (current required : gostring) c r :
  Validator.parseVersion current = Validator.Ok c ->
  Validator.parseVersion required = Validator.Ok r ->
  let cmp := lexCompare c r in
  Validator.CompareVersion current (">=" ++ required)
    = Validator.Ok (bool_decide (cmp <> Lt))
  /\ Validator.CompareVersion current (">" ++ required)
    = Validator.Ok (bool_decide (cmp = Gt))
  /\ Validator.CompareVersion current ("<=" ++ required)
    = Validator.Ok (bool_decide (cmp <> Gt))
  /\ Validator.CompareVersion current ("<" ++ required)
    = Validator.Ok (bool_decide (cmp = Lt))
  /\ Validator.CompareVersion current ("=" ++ required)
    = Validator.Ok (bool_decide (cmp = Eq))
  /\ Validator.CompareVersion current required
    = Validator.Ok (bool_decide (cmp = Eq))
  /\ Validator.CompareVersion current ("^" ++ required)
    = Validator.Ok (bool_decide (cmp <> Lt /\ c.1.1 = r.1.1))
  /\ Validator.CompareVersion current ("~" ++ required)
    = Validator.Ok (bool_decide (cmp <> Lt /\ c.1.1 = r.1.1 /\ c.1.2 = r.1.2))
  /\ Validator.CompareVersion "1.2.4" "^1.2.3" = Validator.Ok true
  /\ Validator.CompareVersion "2.0.0" "^1.2.3" = Validator.Ok false
  /\ Validator.CompareVersion "1.3.0" "~1.2.3" = Validator.Ok false
  /\ Validator.CompareVersion "1.2.4" "~1.2.3" = Validator.Ok true
  /\ Validator.CompareVersion "3.11.5" ">=3.11.0" = Validator.Ok true.
Proof.
  intros Hc Hr cmp.
  assert (Hop : forall op : gostring, op ∈ operators ->
            Validator.CompareVersion current (op ++ required)
            = Validator.Ok (holds op c r)).
  { intros op Hin. by apply CompareVersion_operator. }
  assert (Hin : forall op : gostring,
            bool_decide (op ∈ operators) = true -> op ∈ operators).
  { intros op. apply bool_decide_eq_true. }
  assert (Hb : forall (P : Prop) (d : Decision P) (b : bool),
            (b = true <-> P) -> b = bool_decide P).
  { intros P d [] [H1 H2]; symmetry.
    - apply bool_decide_eq_true_2. auto.
    - apply bool_decide_eq_false_2. intros HP. by specialize (H2 HP). }
  split; [by rewrite (Hop ">=" (Hin ">=" eq_refl))|].
  split; [by rewrite (Hop ">" (Hin ">" eq_refl))|].
  split; [by rewrite (Hop "<=" (Hin "<=" eq_refl))|].
  split; [by rewrite (Hop "<" (Hin "<" eq_refl))|].
  split; [by rewrite (Hop "=" (Hin "=" eq_refl))|].
  split; [exact (Hop [] (Hin [] eq_refl))|].
  split.
  { rewrite (Hop "^" (Hin "^" eq_refl)). f_equal. apply Hb.
    change (holds "^" c r)
      with (bool_decide (lexCompare c r <> Lt) && (c.1.1 =? r.1.1)%Z).
    by rewrite andb_true_iff, bool_decide_eq_true, Z.eqb_eq. }
  split.
  { rewrite (Hop "~" (Hin "~" eq_refl)). f_equal. apply Hb.
    change (holds "~" c r)
      with (bool_decide (lexCompare c r <> Lt) && (c.1.1 =? r.1.1)%Z
            && (c.1.2 =? r.1.2)%Z).
    rewrite !andb_true_iff, bool_decide_eq_true, !Z.eqb_eq. tauto. }
  repeat split; vm_compute; reflexivity.
Qed.

Lemma CompareVersion_semantics_witness :
  Validator.parseVersion "1.2.4" = Validator.Ok (1, 2, 4)%Z
  /\ Validator.parseVersion "v1.2" = Validator.Ok (1, 2, 0)%Z
  /\ Validator.CompareVersion "1.2.4" ("^" ++ "v1.2") = Validator.Ok true.
Proof.
  split; [reflexivity|]. split; [reflexivity|].
  pose proof (CompareVersion_semantics "1.2.4" "v1.2" (1, 2, 4)%Z (1, 2, 0)%Z
                eq_refl eq_refl) as H.
  apply H.
Defined.

(** C6 (amended). [parseVersion] strips one leading [v], splits on [.]
    and reads the first three components only: it succeeds, with the
    values of the components that are there and [0] for the missing ones,
    exactly when each of the first three components that is present is
    numeric (an optional sign and decimal digits, within the range of
    [int]); it fails exactly when one of them is not.  Components after the
    third are not looked at. *)
Theorem parseVersion_first_three (version : gostring) :
  let parts := Strings.Split (Strings.TrimPrefix version "v") "." in
  (Validator.parseVersion version
     = Validator.Ok (componentValue parts 0, componentValue parts 1, componentValue parts 2)
   <-> forall i p, (i < 3)%nat -> parts !! i = Some p -> numeric p = true)
  /\ ((exists e, Validator.parseVersion version = Validator.Err e)
      <-> exists i p, (i < 3)%nat /\ parts !! i = Some p /\ numeric p = false)
  /\ (forall v, Validator.parseVersion version = Validator.Ok v ->
        v = (componentValue parts 0, componentValue parts 1, componentValue parts 2)).
Proof.
  intros parts. split; [|split].
  - rewrite parseVersion_ok. fold parts. simpl. rewrite <- !component_ok. split.
    + intros (H0 & H1 & H2) i p Hi. destruct i as [|[|[|i]]]; [auto..|lia].
    + intros H. repeat split; intros p; apply H; lia.
  - rewrite parseVersion_components. fold parts. split.
    + intros [e He].
      destruct (Validator.component parts 0) as [a|e0] eqn:E0.
      2:{ destruct (proj1 (component_err parts 0)) as (p & ? & ?); [by eexists|].
          exists 0%nat, p. repeat split; [lia|done..]. }
      destruct (Validator.component parts 1) as [b|e1] eqn:E1.
      2:{ destruct (proj1 (component_err parts 1)) as (p & ? & ?); [by eexists|].
          exists 1%nat, p. repeat split; [lia|done..]. }
      destruct (Validator.component parts 2) as [d|e2] eqn:E2; [done|].
      destruct (proj1 (component_err parts 2)) as (p & ? & ?); [by eexists|].
      exists 2%nat, p. repeat split; [lia|done..].
    + intros (i & p & Hi & Hp & Hn).
      assert (exists e, Validator.component parts i = Validator.Err e) as [e He]
        by (apply component_err; eauto).
      destruct i as [|[|[|i]]]; [| | |lia]; rewrite He.
      * by eexists.
      * destruct (Validator.component parts 0); by eexists.
      * destruct (Validator.component parts 0), (Validator.component parts 1); by eexists.
  - intros [[a b] d]. rewrite parseVersion_ok. fold parts. simpl.
    intros (H0 & H1 & H2).
    by rewrite (component_value _ _ _ H0), (component_value _ _ _ H1),
      (component_value _ _ _ H2).
Qed.

Lemma parseVersion_first_three_witness :
  (forall i p, (i < 3)%nat ->
     Strings.Split (Strings.TrimPrefix "v20.1" "v") "." !! i = Some p -> numeric p = true)
  /\ Validator.parseVersion "v20.1" = Validator.Ok (20, 1, 0)%Z.
Proof.
  assert (H : forall i p, (i < 3)%nat ->
     Strings.Split (Strings.TrimPrefix "v20.1" "v") "." !! i = Some p -> numeric p = true).
  { intros i p _. destruct i as [|[|i]]; intros [= <-]; reflexivity. }
  split; [exact H|].
  exact (proj2 (proj1 (parseVersion_first_three "v20.1")) H).
Defined.

(** C6 as stated fails: in "1.2.3.x" the component "x" is present and not
    numeric, yet parsing succeeds. *)
Lemma parseVersion_ignores_fourth_component :
  Strings.Split (Strings.TrimPrefix "1.2.3.x" "v") "."
    = [ "1" : gostring; "2" : gostring; "3" : gostring; "x" : gostring]
  /\ numeric "x" = false
  /\ Validator.parseVersion "1.2.3.x" = Validator.Ok (1, 2, 3)%Z
  /\ ~ ((exists e, Validator.parseVersion "1.2.3.x" = Validator.Err e)
        <-> exists p : gostring,
              p ∈ Strings.Split (Strings.TrimPrefix "1.2.3.x" "v") "."
              /\ numeric p = false).
Proof.
  split; [reflexivity|]. split; [reflexivity|]. split; [reflexivity|].
  intros [_ H]. destruct H as [e He]; [|discriminate He].
  exists ("x" : gostring). split; [|reflexivity].
  change (("x" : gostring) ∈ [ "1" : gostring; "2" : gostring; "3" : gostring; "x" : gostring]).
  rewrite !elem_of_cons. tauto.
Qed.

(* ================================================================== *)
(** ** Requirement checking (internal/validator)                       *)
(* ================================================================== *)

Section Validation.
Import Validator.

Variable LookPath : gostring -> bool.
Variable getCommandVersion : gostring -> gostring.
Variable Level : ValidationLevel.

(** A requirement adds its findings after those already collected. *)
Lemma validateOne_appends result req :
  Errors (validateOne LookPath getCommandVersion Level result req)
    = Errors result ++ Errors (Validate LookPath getCommandVersion Level [req])
  /\ Warnings (validateOne LookPath getCommandVersion Level result req)
    = Warnings result ++ Warnings (Validate LookPath getCommandVersion Level [req]).
Proof.
  unfold Validate, validateOne, CheckCommand. simpl.
  destruct (LookPath (Command req)); simpl.
  - destruct (negb (bool_decide (Version req = []))
              && negb (bool_decide (getCommandVersion (Command req) = []))).
    + destruct (CompareVersion _ _) as [[]|e];
        simpl; try case_bool_decide; simpl; by rewrite ?app_nil_r.
    + simpl. by rewrite !app_nil_r.
  - destruct (Required req); simpl; by rewrite ?app_nil_r.
Qed.

Lemma fold_validateOne reqs result :
  Errors (fold_left (validateOne LookPath getCommandVersion Level) reqs result)
    = Errors result ++ concat (map (fun r => Errors (Validate LookPath getCommandVersion Level [r])) reqs)
  /\ Warnings (fold_left (validateOne LookPath getCommandVersion Level) reqs result)
    = Warnings result ++ concat (map (fun r => Warnings (Validate LookPath getCommandVersion Level [r])) reqs).
Proof.
  revert result. induction reqs as [|req reqs IH]; intros result.
  - simpl. by rewrite !app_nil_r.
  - simpl. destruct (IH (validateOne LookPath getCommandVersion Level result req)) as [-> ->].
    destruct (validateOne_appends result req) as [-> ->].
    by rewrite <- !app_assoc.
Qed.

Lemma validateOne_When result r1 r2 :
  sameButWhen r1 r2 -> validateOne LookPath getCommandVersion Level result r1 = validateOne LookPath getCommandVersion Level result r2.
Proof.
  destruct r1, r2. intros (H1 & H2 & H3 & H4). simpl in *. by subst.
Qed.

End Validation.

(** C2. [Validate] collects, requirement by requirement and in order, the
    findings of each requirement on its own.  A command that is absent
    gives exactly one error when the requirement is [Required] and exactly
    one warning otherwise.  A command that is present and reports a version
    that does not satisfy the declared constraint gives one error when the
    level is [ValidationStrict] and one warning otherwise, whatever the
    [Required] flag. *)
Theorem Validate_severity LookPath getCommandVersion Level
    (reqs : list Validator.Requirement) :
  let V := Validator.Validate LookPath getCommandVersion Level in
  Validator.Errors (V reqs) = concat (map (fun r => Validator.Errors (V [r])) reqs)
  /\ Validator.Warnings (V reqs) = concat (map (fun r => Validator.Warnings (V [r])) reqs)
  /\ (forall req, LookPath (Validator.Command req) = false ->
        V [req] = if Validator.Required req
                  then {| Validator.Errors := [notFound req]; Validator.Warnings := [] |}
                  else {| Validator.Errors := []; Validator.Warnings := [notFound req] |})
  /\ (forall req version,
        LookPath (Validator.Command req) = true ->
        getCommandVersion (Validator.Command req) = version ->
        version <> [] -> Validator.Version req <> [] ->
        Validator.CompareVersion version (Validator.Version req) = Validator.Ok false ->
        V [req] = if bool_decide (Level = Validator.ValidationStrict)
                  then {| Validator.Errors := [mismatch version req];
                          Validator.Warnings := [] |}
                  else {| Validator.Errors := [];
                          Validator.Warnings := [mismatch version req] |}).
Proof.
  intros V. split; [|split; [|split]].
  - apply (fold_validateOne LookPath getCommandVersion Level reqs).
  - apply (fold_validateOne LookPath getCommandVersion Level reqs).
  - intros req Habsent. unfold V, Validator.Validate, Validator.validateOne,
      Validator.CheckCommand. simpl. rewrite Habsent. simpl.
    by destruct (Validator.Required req).
  - intros req version Hpresent Hversion Hv Hreq Hcmp.
    unfold V, Validator.Validate, Validator.validateOne, Validator.CheckCommand.
    simpl. rewrite Hpresent, Hversion. simpl.
    rewrite !bool_decide_eq_false_2 by done. simpl. rewrite Hcmp. simpl.
    by case_bool_decide.
Qed.

Lemma Validate_severity_witness :
  let LookPath := fun cmd : gostring => bool_decide (cmd = "go") in
  let getCommandVersion := fun _ : gostring => ("1.21.0" : gostring) in
  let missing := {| Validator.Command := "this-does-not-exist"; Validator.Version := [];
                    Validator.Required := true; Validator.When := [];
                    Validator.InstallHint := [] |} in
  let old := {| Validator.Command := "go"; Validator.Version := ">=1.22";
                Validator.Required := false; Validator.When := [];
                Validator.InstallHint := [] |} in
  LookPath (Validator.Command missing) = false
  /\ Validator.Validate LookPath getCommandVersion Validator.ValidationBasic [missing]
     = {| Validator.Errors := [notFound missing]; Validator.Warnings := [] |}
  /\ Validator.CompareVersion "1.21.0" (Validator.Version old) = Validator.Ok false
  /\ Validator.Validate LookPath getCommandVersion Validator.ValidationStrict [old]
     = {| Validator.Errors := [mismatch "1.21.0" old]; Validator.Warnings := [] |}.
Proof.
  intros LookPath getCommandVersion missing old.
  split; [reflexivity|]. split.
  - apply (Validate_severity LookPath getCommandVersion Validator.ValidationBasic []).
    reflexivity.
  - split; [reflexivity|].
    apply (Validate_severity LookPath getCommandVersion Validator.ValidationStrict []
             : _ /\ _ /\ _ /\ _); try reflexivity; done.
Defined.

(** C9. The result of [Validate] does not depend on the [When] fields:
    two requirement lists that agree, position by position, on every field
    but [When] give the same errors and the same warnings. *)
Theorem Validate_ignores_When LookPath getCommandVersion Level
    (reqs1 reqs2 : list Validator.Requirement) :
  Forall2 sameButWhen reqs1 reqs2 ->
  Validator.Validate LookPath getCommandVersion Level reqs1
  = Validator.Validate LookPath getCommandVersion Level reqs2.
Proof.
  unfold Validator.Validate. generalize {| Validator.Errors := []; Validator.Warnings := [] |}.
  intros result H. revert result.
  induction H as [|r1 r2 reqs1 reqs2 Hr _ IH]; intros result; [done|].
  simpl. rewrite (validateOne_When _ _ _ result r1 r2 Hr). apply IH.
Qed.

Lemma Validate_ignores_When_witness :
  let docker w := {| Validator.Command := "docker"; Validator.Version := ">=24.0";
                     Validator.Required := false; Validator.When := w;
                     Validator.InstallHint := "https://docs.docker.com/install/" |} in
  Forall2 sameButWhen [docker "{{ .IncludeDocker }}"] [docker []]
  /\ Validator.Validate (fun _ => false) (fun _ => []) Validator.ValidationBasic
       [docker "{{ .IncludeDocker }}"]
     = Validator.Validate (fun _ => false) (fun _ => []) Validator.ValidationBasic
         [docker []].
Proof.
  intros docker.
  assert (H : Forall2 sameButWhen [docker "{{ .IncludeDocker }}"] [docker []])
    by (repeat constructor).
  split; [exact H|].
  exact (Validate_ignores_When _ _ _ _ _ H).
Defined.

(* ================================================================== *)
(** ** File inclusion conditions (internal/generator)                  *)
(* ================================================================== *)

Section Conditions.
Import Template Generator.

Lemma identByte_plain c : identByte c = true -> blank c = false.
Proof. by_cases c. Qed.

Lemma identByte_not_dot c : identByte c = true -> c <> "."%char.
Proof. by_cases c. Qed.

Lemma identByte_not_brace c : identByte c = true -> c <> "{"%char.
Proof. by_cases c. Qed.

Lemma trimRight_plainBytes (s : gostring) : plainBytes s -> Strings.trimRight s = s.
Proof.
  intros H. rewrite <- (app_nil_r s) at 1.
  rewrite trimRight_app by done. by rewrite app_nil_r.
Qed.

Lemma TrimSpace_plainBytes (s : gostring) : plainBytes s -> Strings.TrimSpace s = s.
Proof.
  intros H. destruct H as [|a s Ha Hs]; [done|].
  rewrite TrimSpace_plain by done. by rewrite trimRight_plainBytes.
Qed.

Lemma trimRight_snoc_plain (u : gostring) b :
  blank b = false -> Strings.trimRight (u ++ [b]) = u ++ [b].
Proof.
  intros H. unfold Strings.trimRight.
  rewrite rev_unit, trimLeftRev_plain by done.
  by rewrite <- rev_unit, rev_involutive.
Qed.

Lemma trimRight_snoc_space (u : gostring) :
  Strings.trimRight (u ++ " ") = Strings.trimRight u.
Proof.
  unfold Strings.trimRight.
  change (String.list_ascii_of_string " ") with [" "%char].
  by rewrite rev_unit.
Qed.

Lemma conditionKey_name (name : gostring) :
  Forall (fun c => identByte c = true) name -> conditionKey name = name.
Proof.
  intros H.
  assert (Hp : plainBytes name)
    by (eapply Forall_impl; [exact H|apply identByte_plain]).
  unfold conditionKey. rewrite !(TrimSpace_plainBytes name) by done.
  destruct H as [|a name Ha H]; [reflexivity|].
  change (String.list_ascii_of_string "{{") with ["{"%char; "{"%char].
  change (String.list_ascii_of_string ".") with ["."%char].
  rewrite HasPrefix_cons.
  rewrite (bool_decide_eq_false_2 (a = "{"%char)) by (by apply identByte_not_brace).
  cbn [andb]. rewrite TrimPrefix_cons.
  by rewrite bool_decide_eq_false_2 by (by apply identByte_not_dot).
Qed.

Lemma conditionKey_dotted (name : gostring) :
  Forall (fun c => identByte c = true) name -> conditionKey ("." ++ name) = name.
Proof.
  intros H.
  assert (Hp : plainBytes ("." ++ name)).
  { constructor; [done|]. eapply Forall_impl; [exact H|apply identByte_plain]. }
  unfold conditionKey. rewrite !(TrimSpace_plainBytes ("." ++ name)) by done.
  change (String.list_ascii_of_string "{{") with ["{"%char; "{"%char].
  change (String.list_ascii_of_string ".") with ["."%char].
  simpl. rewrite HasPrefix_cons.
  rewrite (bool_decide_eq_false_2 ("."%char = "{"%char)) by done.
  cbn [andb]. rewrite TrimPrefix_cons.
  by rewrite bool_decide_eq_true_2.
Qed.

Lemma conditionKey_delimited (name : gostring) :
  Forall (fun c => identByte c = true) name ->
  conditionKey ("{{ ." ++ name ++ " }}") = name.
Proof.
  intros H.
  assert (Hp : plainBytes name)
    by (eapply Forall_impl; [exact H|apply identByte_plain]).
  set (inner := " "%char :: "."%char :: name ++ [" "%char]).
  assert (Hs : "{{ ." ++ name ++ " }}" = ("{{" ++ inner) ++ "}}").
  { unfold inner. simpl. by rewrite <- !app_assoc. }
  rewrite Hs. set (s := ("{{" ++ inner) ++ "}}").
  assert (Hr : forall u : gostring, Strings.trimRight (u ++ "}}") = u ++ "}}").
  { intros u. change (String.list_ascii_of_string "}}") with (["}"%char] ++ ["}"%char]).
    rewrite app_assoc. by apply trimRight_snoc_plain. }
  assert (Ht : Strings.TrimSpace s = s).
  { unfold s. change (("{{" ++ inner) ++ "}}") with ("{"%char :: ("{"%char :: inner) ++ "}}").
    rewrite TrimSpace_plain by done. by rewrite Hr. }
  unfold conditionKey. rewrite !Ht.
  assert (Hpre : Strings.HasPrefix s "{{" = true) by done.
  assert (Hsuf : Strings.HasSuffix s "}}" = true) by apply HasSuffix_app.
  rewrite Hpre, Hsuf. cbn [andb].
  assert (Hin : drop 2 (take (length s - 2) s) = inner).
  { unfold s. rewrite length_app.
    replace (length ("{{" ++ inner) + length (String.list_ascii_of_string "}}") - 2)%nat
      with (length ("{{" ++ inner)) by (simpl; lia).
    by rewrite take_app_length. }
  rewrite Hin.
  assert (Hk : Strings.TrimSpace inner = "."%char :: name).
  { unfold Strings.TrimSpace, inner.
    change (Strings.trimLeft (" "%char :: "."%char :: name ++ [" "%char]))
      with (Strings.trimLeft ("."%char :: name ++ [" "%char])).
    rewrite trimLeft_plain by done.
    rewrite trimRight_cons by done. f_equal.
    change (name ++ [" "%char]) with (name ++ " ").
    by rewrite trimRight_snoc_space, trimRight_plainBytes. }
  rewrite Hk.
  change (String.list_ascii_of_string ".") with ["."%char].
  rewrite TrimPrefix_cons. by rewrite bool_decide_eq_true_2.
Qed.

Lemma allConditions_true conditions ctx :
  allConditions conditions ctx = true <->
  forall c, c ∈ conditions -> evaluateCondition c ctx = true.
Proof.
  induction conditions as [|c conditions IH]; simpl.
  - split; [|done]. intros _ c Hc. by apply elem_of_nil in Hc.
  - destruct (evaluateCondition c ctx) eqn:E; simpl.
    + rewrite IH. split.
      * intros H d [->|Hd]%elem_of_cons; auto.
      * intros H d Hd. apply H. by right.
    + split; [done|]. intros H. rewrite <- E. apply H. by left.
Qed.

Lemma shouldGenerateFile_true fileSpec ctx :
  shouldGenerateFile fileSpec ctx = true <->
  forall c, c ∈ Conditions fileSpec -> evaluateCondition c ctx = true.
Proof.
  unfold shouldGenerateFile. destruct (Conditions fileSpec) as [|c cs] eqn:E.
  - simpl. split; [|done]. intros _ c Hc. by apply elem_of_nil in Hc.
  - change (length (c :: cs) =? 0)%nat with false. cbv iota.
    apply allConditions_true.
Qed.

End Conditions.

(** C8. The three surface forms of a reference to [IncludeDocker], the
    delimited form, the field access and the bare name, normalise to the
    same key, and [evaluateCondition] gives the same boolean, the context's
    [IncludeDocker] field, on all three.  The same holds for the three
    forms of any identifier. *)
Theorem condition_surface_forms (ctx : Template.Context) :
  Generator.conditionKey "{{ .IncludeDocker }}" = "IncludeDocker"
  /\ Generator.conditionKey ".IncludeDocker" = "IncludeDocker"
  /\ Generator.conditionKey "IncludeDocker" = "IncludeDocker"
  /\ Generator.evaluateCondition "{{ .IncludeDocker }}" ctx = Template.IncludeDocker ctx
  /\ Generator.evaluateCondition ".IncludeDocker" ctx = Template.IncludeDocker ctx
  /\ Generator.evaluateCondition "IncludeDocker" ctx = Template.IncludeDocker ctx
  /\ (forall name : gostring,
        Forall (fun c => identByte c = true) name ->
        Generator.conditionKey ("{{ ." ++ name ++ " }}") = name
        /\ Generator.conditionKey ("." ++ name) = name
        /\ Generator.conditionKey name = name
        /\ Generator.evaluateCondition ("{{ ." ++ name ++ " }}") ctx
           = Generator.evaluateCondition name ctx
        /\ Generator.evaluateCondition ("." ++ name) ctx
           = Generator.evaluateCondition name ctx).
Proof.
  assert (H1 : Generator.conditionKey "{{ .IncludeDocker }}" = "IncludeDocker")
    by (vm_compute; reflexivity).
  assert (H2 : Generator.conditionKey ".IncludeDocker" = "IncludeDocker")
    by (vm_compute; reflexivity).
  assert (H3 : Generator.conditionKey "IncludeDocker" = "IncludeDocker")
    by (vm_compute; reflexivity).
  split; [exact H1|]. split; [exact H2|]. split; [exact H3|].
  split; [|split; [|split]].
  - unfold Generator.evaluateCondition. rewrite H1. by rewrite bool_decide_eq_true_2.
  - unfold Generator.evaluateCondition. rewrite H2. by rewrite bool_decide_eq_true_2.
  - unfold Generator.evaluateCondition. rewrite H3. by rewrite bool_decide_eq_true_2.
  - intros name Hname.
    split; [by apply conditionKey_delimited|].
    split; [by apply conditionKey_dotted|].
    split; [by apply conditionKey_name|].
    unfold Generator.evaluateCondition.
    by rewrite conditionKey_delimited, conditionKey_dotted, conditionKey_name.
Qed.

Lemma condition_surface_forms_witness :
  let ctx := Template.NewContext "demo" "demo"
               {[ ("CustomFlag" : gostring) := Template.VBool true ]}
               SimpleFS.cliTemplate in
  Forall (fun c => identByte c = true) ("CustomFlag" : gostring)
  /\ Generator.evaluateCondition ("{{ ." ++ "CustomFlag" ++ " }}") ctx
     = Generator.evaluateCondition "CustomFlag" ctx
  /\ Generator.evaluateCondition ("." ++ "CustomFlag") ctx
     = Generator.evaluateCondition "CustomFlag" ctx.
Proof.
  intros ctx.
  assert (H : Forall (fun c => identByte c = true) ("CustomFlag" : gostring))
    by (repeat constructor).
  split; [exact H|].
  destruct (condition_surface_forms ctx) as (_ & _ & _ & _ & _ & _ & Hname).
  destruct (Hname "CustomFlag" H) as (_ & _ & _ & E1 & E2).
  split; [exact E1|exact E2].
Defined.

(** C10. [evaluateCondition] is true exactly when the normalised key is
    [IncludeDocker] or [IncludeTests] and the context field of that name is
    true, or is another key that the variable map binds to the boolean
    true.  A compound expression such as "database != 'none'" is not
    interpreted: it is looked up as a key, so it is false unless the map
    binds that very text to true; a key bound to a value that is not a
    boolean, the string "true" included, is false.  A file with such a
    condition is not generated: the loop of [Generate] passes over it. *)
Theorem evaluateCondition_true (condition : gostring) (ctx : Template.Context) :
  let key := Generator.conditionKey condition in
  (Generator.evaluateCondition condition ctx = true <->
     (key = "IncludeDocker" /\ Template.IncludeDocker ctx = true)
     \/ (key = "IncludeTests" /\ Template.IncludeTests ctx = true)
     \/ (key <> "IncludeDocker" /\ key <> "IncludeTests"
         /\ Template.ctx_Variables ctx !! key = Some (Template.VBool true)))
  /\ Generator.conditionKey "database != 'none'" = "database != 'none'"
  /\ (Template.ctx_Variables ctx !! ("database != 'none'" : gostring)
        <> Some (Template.VBool true) ->
      Generator.evaluateCondition "database != 'none'" ctx = false)
  /\ (forall s, key <> "IncludeDocker" -> key <> "IncludeTests" ->
        Template.ctx_Variables ctx !! key = Some (Template.VString s) ->
        Generator.evaluateCondition condition ctx = false)
  /\ (forall fileSpec,
        condition ∈ Template.Conditions fileSpec ->
        Generator.evaluateCondition condition ctx = false ->
        Generator.shouldGenerateFile fileSpec ctx = false
        /\ forall FS MkdirAll ReadFile WriteFile Join Dir Execute filesDir rest dryRun w,
             Generator.generateFiles FS MkdirAll ReadFile WriteFile Join Dir Execute
               filesDir (fileSpec :: rest) ctx dryRun w
             = Generator.generateFiles FS MkdirAll ReadFile WriteFile Join Dir Execute
                 filesDir rest ctx dryRun
                 (if dryRun
                  then Generator.print FS (Generator.Skipped (Template.Destination fileSpec)) w
                  else w)).
Proof.
  intros key.
  assert (Hiff : Generator.evaluateCondition condition ctx = true <->
     (key = "IncludeDocker" /\ Template.IncludeDocker ctx = true)
     \/ (key = "IncludeTests" /\ Template.IncludeTests ctx = true)
     \/ (key <> "IncludeDocker" /\ key <> "IncludeTests"
         /\ Template.ctx_Variables ctx !! key = Some (Template.VBool true))).
  { unfold Generator.evaluateCondition, Template.GetBool. fold key.
    repeat case_bool_decide.
    - split; [by left|]. intros [[_ ?]|[[E ?]|(? & _)]]; [done| |done].
      rewrite E in *. discriminate.
    - split; [by right; left|]. intros [[? _]|[[_ ?]|(_ & ? & _)]]; done.
    - destruct (Template.ctx_Variables ctx !! key) as [[| [] | |]|] eqn:E;
        split; try done; try (intros [[? _]|[[? _]|(_ & _ & ?)]]; done).
      intros _. right; right. done. }
  assert (Hkey : Generator.conditionKey "database != 'none'" = "database != 'none'")
    by (vm_compute; reflexivity).
  split; [exact Hiff|]. split; [exact Hkey|]. split; [|split].
  - intros Hno. unfold Generator.evaluateCondition, Template.GetBool. rewrite Hkey.
    rewrite !bool_decide_eq_false_2 by done. revert Hno.
    generalize (Template.ctx_Variables ctx !! ("database != 'none'" : gostring)).
    intros [[| [] | |]|]; done.
  - intros s Hd Ht Hs.
    apply not_true_is_false. intros E.
    apply Hiff in E as [[? _]|[[? _]|(_ & _ & ?)]]; congruence.
  - intros fileSpec Hin Hfalse.
    assert (Hskip : Generator.shouldGenerateFile fileSpec ctx = false).
    { apply not_true_is_false. intros E.
      rewrite shouldGenerateFile_true in E. rewrite (E _ Hin) in Hfalse. done. }
    split; [exact Hskip|]. intros. simpl. by rewrite Hskip.
Qed.

Lemma evaluateCondition_true_witness :
  let ctx := Template.NewContext "demo" "demo"
               {[ ("Flag" : gostring) := Template.VString "true" ]}
               SimpleFS.cliTemplate in
  let fileSpec := {| Template.Source := "Dockerfile"; Template.Destination := "Dockerfile";
                     Template.Conditions := [ "{{ .Flag }}" : gostring ];
                     Template.Permissions := [] |} in
  Template.ctx_Variables ctx !! Generator.conditionKey "{{ .Flag }}"
    = Some (Template.VString "true")
  /\ Generator.evaluateCondition "{{ .Flag }}" ctx = false
  /\ Generator.shouldGenerateFile fileSpec ctx = false.
Proof.
  intros ctx fileSpec.
  destruct (evaluateCondition_true "{{ .Flag }}" ctx) as (_ & _ & _ & Hstr & Hfile).
  assert (Hv : Template.ctx_Variables ctx !! Generator.conditionKey "{{ .Flag }}"
               = Some (Template.VString "true")) by (vm_compute; reflexivity).
  assert (Hf : Generator.evaluateCondition "{{ .Flag }}" ctx = false).
  { apply (Hstr "true"); [vm_compute; discriminate|vm_compute; discriminate|exact Hv]. }
  split; [exact Hv|]. split; [exact Hf|].
  apply (Hfile fileSpec); [|exact Hf].
  apply list_elem_of_here.
Defined.

(* ================================================================== *)
(** ** Generation and dry runs (internal/generator)                    *)
(* ================================================================== *)

Section DryRuns.
Import Template Generator.

Variable FS : Type.
Variable MkdirAll : gostring -> FS -> option FS.
Variable ReadFile : gostring -> FS -> option gostring.
Variable WriteFile : gostring -> gostring -> N -> FS -> option FS.
Variable Join : gostring -> gostring -> gostring.
Variable Dir : gostring -> gostring.
Variable Execute : gostring -> Context -> option gostring.
Variable Load : gostring -> FS -> option Template.
Variable formatValue : Value -> gostring.

(** A dry run of one file prints its line and touches nothing. *)
Lemma generateFile_dry filesDir fileSpec ctx (w : World FS) :
  shouldGenerateFile fileSpec ctx = true ->
  generateFile FS MkdirAll ReadFile WriteFile Join Dir Execute
    filesDir fileSpec ctx true w
  = (true, print FS (dryNotice Join ctx fileSpec) w).
Proof.
  intros H. unfold generateFile, dryNotice. rewrite H.
  by destruct (ShouldRender (Source fileSpec)).
Qed.

Lemma generateFiles_dry filesDir files ctx (w : World FS) :
  generateFiles FS MkdirAll ReadFile WriteFile Join Dir Execute
    filesDir files ctx true w
  = (None, {| fs := fs FS w;
              printed := printed FS w ++ map (dryNotice Join ctx) files |}).
Proof.
  revert w. induction files as [|fileSpec files IH]; intros w.
  - simpl. rewrite app_nil_r. by destruct w.
  - simpl. destruct (shouldGenerateFile fileSpec ctx) eqn:E; simpl.
    + rewrite generateFile_dry by done. rewrite IH. simpl.
      by rewrite <- app_assoc.
    + rewrite IH. simpl. unfold dryNotice at 2. rewrite E.
      by rewrite <- app_assoc.
Qed.

(** The whole of a dry run. *)
Lemma Generate_dry opts (w : World FS) :
  DryRun opts = true ->
  Generate FS MkdirAll ReadFile WriteFile Join Dir Execute Load formatValue opts w
  = match Load (opt_Language opts ++ "/" ++ opt_Framework opts) (fs FS w) with
    | None => (Some (LoadFailed (opt_Language opts ++ "/" ++ opt_Framework opts)), w)
    | Some tmpl =>
        (None, {| fs := fs FS w;
                  printed := printed FS w
                             ++ map (dryNotice Join (contextOf opts tmpl)) (Files tmpl) |})
    end.
Proof.
  intros Hdry. unfold Generate. rewrite Hdry. simpl.
  destruct (Load _ _) as [tmpl|]; [|done].
  by rewrite generateFiles_dry.
Qed.

(** A real run of one file prints [Created] for its path when it
    succeeds and nothing when it fails. *)
Lemma generateFile_real filesDir fileSpec ctx (w : World FS) :
  shouldGenerateFile fileSpec ctx = true ->
  let r := generateFile FS MkdirAll ReadFile WriteFile Join Dir Execute
             filesDir fileSpec ctx false w in
  (r.1 = true ->
   exists p, wouldBe (dryNotice Join ctx fileSpec) = Some p
             /\ printed FS r.2 = printed FS w ++ [Created p])
  /\ (r.1 = false -> printed FS r.2 = printed FS w).
Proof.
  intros H. unfold generateFile, dryNotice. rewrite H.
  destruct (ShouldRender (Source fileSpec)); simpl.
  - unfold RenderToFile.
    destruct (Render _ _ _ _ _); [|done].
    destruct (MkdirAll _ _); [|done].
    destruct (WriteFile _ _ _ _); [|done].
    simpl. split; [|done]. intros _. by eexists.
  - unfold CopyFile.
    destruct (ReadFile _ _); [|done].
    destruct (MkdirAll _ _); [|done].
    destruct (WriteFile _ _ _ _); [|done].
    simpl. split; [|done]. intros _. by eexists.
Qed.

(** A real run of the files creates a prefix of what the dry run
    announces, and all of it when it succeeds. *)
Lemma generateFiles_real filesDir files ctx (w : World FS) :
  let r := generateFiles FS MkdirAll ReadFile WriteFile Join Dir Execute
             filesDir files ctx false w in
  exists paths : list gostring,
    printed FS r.2 = printed FS w ++ map Created paths
    /\ paths `prefix_of` omap wouldBe (map (dryNotice Join ctx) files)
    /\ (r.1 = None -> paths = omap wouldBe (map (dryNotice Join ctx) files)).
Proof.
  revert w. induction files as [|fileSpec files IH]; intros w.
  - exists []. simpl. by rewrite app_nil_r.
  - assert (Hcons : omap wouldBe (map (dryNotice Join ctx) (fileSpec :: files))
                    = match wouldBe (dryNotice Join ctx fileSpec) with
                      | Some p => p :: omap wouldBe (map (dryNotice Join ctx) files)
                      | None => omap wouldBe (map (dryNotice Join ctx) files)
                      end) by reflexivity.
    rewrite Hcons. clear Hcons. cbn [generateFiles].
    destruct (shouldGenerateFile fileSpec ctx) eqn:E; cbn [negb].
    + pose proof (generateFile_real filesDir fileSpec ctx w E) as [Hok Hfail].
      cbn zeta in Hok, Hfail.
      destruct (generateFile _ _ _ _ _ _ _ _ _ _ _ w) as [[] w'] eqn:G;
        cbn [fst snd] in *.
      * destruct (Hok eq_refl) as (p & Hp & Hw'). rewrite Hp.
        destruct (IH w') as (paths & Hpr & Hpre & Hall).
        exists (p :: paths). split; [|split].
        -- rewrite Hpr, Hw'. cbn [map]. by rewrite <- app_assoc.
        -- by apply prefix_cons.
        -- intros Hnone. by rewrite (Hall Hnone).
      * exists []. split; [|split].
        -- rewrite Hfail by done. cbn [map]. by rewrite app_nil_r.
        -- apply prefix_nil.
        -- done.
    + assert (Hd : wouldBe (dryNotice Join ctx fileSpec) = None)
        by (unfold dryNotice; by rewrite E).
      rewrite Hd. apply IH.
Qed.

Lemma Generate_real opts (w : World FS) :
  DryRun opts = false ->
  let r := Generate FS MkdirAll ReadFile WriteFile Join Dir Execute Load formatValue
             opts w in
  match Load (opt_Language opts ++ "/" ++ opt_Framework opts) (fs FS w) with
  | None => r = (Some (LoadFailed (opt_Language opts ++ "/" ++ opt_Framework opts)), w)
  | Some tmpl =>
      let announced :=
        omap wouldBe (map (dryNotice Join (contextOf opts tmpl)) (Files tmpl)) in
      exists paths : list gostring,
        printed FS r.2 = printed FS w ++ map Created paths
        /\ paths `prefix_of` announced
        /\ (r.1 = None -> paths = announced)
  end.
Proof.
  intros Hreal. unfold Generate. rewrite Hreal. simpl.
  destruct (Load _ _) as [tmpl|]; [|done].
  fold (contextOf opts tmpl).
  destruct (MkdirAll _ _) as [f1|].
  2:{ exists []. simpl. rewrite app_nil_r. repeat split; [apply prefix_nil|done]. }
  pose proof (generateFiles_real (Join (Path tmpl) "files") (Files tmpl)
                (contextOf opts tmpl) (setFS FS f1 w)) as (paths & Hpr & Hpre & Hall).
  simpl in Hpr, Hall.
  destruct (generateFiles _ _ _ _ _ _ _ _ _ _ _ _) as [[e|] w2]; simpl in *.
  - exists paths. by repeat split.
  - unfold createMetadataFile.
    destruct (WriteFile _ _ _ _); simpl; exists paths; repeat split; auto.
Qed.

End DryRuns.





(* ================================================================== *)
(** ** More on versions and constraints                                *)
(* ================================================================== *)

Section VersionOrder.
Import Validator.

Lemma lexCompare_eq a b : lexCompare a b = Eq <-> a = b.
Proof.
  destruct a as [[a0 a1] a2], b as [[b0 b1] b2]. unfold lexCompare. simpl.
  split.
  - intros H. destruct (a0 ?= b0)%Z eqn:E0; try discriminate H.
    destruct (a1 ?= b1)%Z eqn:E1; try discriminate H.
    apply Z.compare_eq_iff in E0, E1, H. by subst.
  - intros [= -> -> ->]. by rewrite !Z.compare_refl.
Qed.

Lemma lexCompare_antisym a b : lexCompare b a = CompOpp (lexCompare a b).
Proof.
  destruct a as [[a0 a1] a2], b as [[b0 b1] b2]. unfold lexCompare. simpl.
  rewrite (Z.compare_antisym a0 b0), (Z.compare_antisym a1 b1),
    (Z.compare_antisym a2 b2).
  by destruct (a0 ?= b0)%Z, (a1 ?= b1)%Z, (a2 ?= b2)%Z.
Qed.

Lemma lexCompare_trans a b c :
  lexCompare a b <> Gt -> lexCompare b c <> Gt -> lexCompare a c <> Gt.
Proof.
  destruct a as [[a0 a1] a2], b as [[b0 b1] b2], c as [[c0 c1] c2].
  unfold lexCompare. simpl.
  destruct (Z.compare_spec a0 b0), (Z.compare_spec b0 c0), (Z.compare_spec a0 c0);
    try lia; try done;
    destruct (Z.compare_spec a1 b1), (Z.compare_spec b1 c1), (Z.compare_spec a1 c1);
    try lia; try done;
    destruct (Z.compare_spec a2 b2), (Z.compare_spec b2 c2), (Z.compare_spec a2 c2);
    try lia; done.
Qed.

End VersionOrder.

(** X1. [compareVersionParts] is the three-way comparison of a total
    order on triples: its value is -1, 0 or 1; it is 0 exactly on equal
    triples; swapping the arguments negates it; and being at most 0 is
    transitive. *)
Theorem compareVersionParts_order (a b c : Z * Z * Z) :
  (Validator.compareVersionParts a b = -1
   \/ Validator.compareVersionParts a b = 0
   \/ Validator.compareVersionParts a b = 1)%Z
  /\ (Validator.compareVersionParts a b = 0%Z <-> a = b)
  /\ Validator.compareVersionParts b a = (- Validator.compareVersionParts a b)%Z
  /\ ((Validator.compareVersionParts a b <= 0)%Z ->
      (Validator.compareVersionParts b c <= 0)%Z ->
      (Validator.compareVersionParts a c <= 0)%Z).
Proof.
  rewrite !compareVersionParts_lex.
  split; [destruct (lexCompare a b); auto|].
  split.
  { rewrite <- lexCompare_eq. destruct (lexCompare a b); split; done. }
  split.
  { rewrite (lexCompare_antisym a b). by destruct (lexCompare a b). }
  intros Hab Hbc.
  assert (H1 : lexCompare a b <> Gt) by (destruct (lexCompare a b); [done|done|lia]).
  assert (H2 : lexCompare b c <> Gt) by (destruct (lexCompare b c); [done|done|lia]).
  pose proof (lexCompare_trans a b c H1 H2).
  destruct (lexCompare a c); [lia|lia|done].
Qed.

Lemma compareVersionParts_order_witness :
  (Validator.compareVersionParts (1, 2, 3) (1, 3, 0) <= 0)%Z
  /\ (Validator.compareVersionParts (1, 3, 0) (2, 0, 0) <= 0)%Z
  /\ (Validator.compareVersionParts (1, 2, 3) (2, 0, 0) <= 0)%Z.
Proof.
  assert (H1 : (Validator.compareVersionParts (1, 2, 3) (1, 3, 0) <= 0)%Z)
    by (vm_compute; discriminate).
  assert (H2 : (Validator.compareVersionParts (1, 3, 0) (2, 0, 0) <= 0)%Z)
    by (vm_compute; discriminate).
  split; [exact H1|]. split; [exact H2|].
  exact (proj2 (proj2 (proj2 (compareVersionParts_order (1, 2, 3) (1, 3, 0) (2, 0, 0))))
           H1 H2).
Defined.

(** X2. For versions that parse, the constraints are related as their
    signs suggest: [~] implies [^], [^] implies [>=], [=] implies [~] and
    [<=], [>] is the negation of [<=] and [<] the negation of [>=]. *)
Theorem constraints_related (current required : gostring) c r :
  Validator.parseVersion current = Validator.Ok c ->
  Validator.parseVersion required = Validator.Ok r ->
  let sat op := Validator.CompareVersion current (op ++ required) = Validator.Ok true in
  let unsat op := Validator.CompareVersion current (op ++ required) = Validator.Ok false in
  (sat "~" -> sat "^")
  /\ (sat "^" -> sat ">=")
  /\ (sat "=" -> sat "~" /\ sat "<=")
  /\ (sat ">" <-> unsat "<=")
  /\ (sat "<" <-> unsat ">=").
Proof.
  intros Hc Hr sat unsat. unfold sat, unsat.
  assert (Hin : forall op : gostring,
            bool_decide (op ∈ operators) = true -> op ∈ operators).
  { intros op. apply bool_decide_eq_true. }
  rewrite (CompareVersion_operator "~" _ _ c r (Hin "~" eq_refl) Hc Hr).
  rewrite (CompareVersion_operator "^" _ _ c r (Hin "^" eq_refl) Hc Hr).
  rewrite (CompareVersion_operator ">=" _ _ c r (Hin ">=" eq_refl) Hc Hr).
  rewrite (CompareVersion_operator "=" _ _ c r (Hin "=" eq_refl) Hc Hr).
  rewrite (CompareVersion_operator "<=" _ _ c r (Hin "<=" eq_refl) Hc Hr).
  rewrite (CompareVersion_operator ">" _ _ c r (Hin ">" eq_refl) Hc Hr).
  rewrite (CompareVersion_operator "<" _ _ c r (Hin "<" eq_refl) Hc Hr).
  change (holds "~" c r)
    with (bool_decide (lexCompare c r <> Lt) && (c.1.1 =? r.1.1)%Z && (c.1.2 =? r.1.2)%Z).
  change (holds "^" c r)
    with (bool_decide (lexCompare c r <> Lt) && (c.1.1 =? r.1.1)%Z).
  change (holds ">=" c r) with (bool_decide (lexCompare c r <> Lt)).
  change (holds "=" c r) with (bool_decide (lexCompare c r = Eq)).
  change (holds "<=" c r) with (bool_decide (lexCompare c r <> Gt)).
  change (holds ">" c r) with (bool_decide (lexCompare c r = Gt)).
  change (holds "<" c r) with (bool_decide (lexCompare c r = Lt)).
  assert (Heq : lexCompare c r = Eq -> c.1.1 = r.1.1 /\ c.1.2 = r.1.2).
  { intros ->%lexCompare_eq. done. }
  split; [|split; [|split; [|split]]].
  - intros [= H]. destruct (andb_prop _ _ H) as [H12 _]. by rewrite H12.
  - intros [= H]. destruct (andb_prop _ _ H) as [H1 _]. by rewrite H1.
  - intros [= H]. apply bool_decide_eq_true in H.
    destruct (Heq H) as [E1 E2]. rewrite H, E1, E2, !Z.eqb_refl. done.
  - destruct (lexCompare c r); split; intros H; (discriminate H || reflexivity).
  - destruct (lexCompare c r); split; intros H; (discriminate H || reflexivity).
Qed.

Lemma constraints_related_witness :
  Validator.parseVersion "1.2.4" = Validator.Ok (1, 2, 4)%Z
  /\ Validator.parseVersion "1.2.3" = Validator.Ok (1, 2, 3)%Z
  /\ Validator.CompareVersion "1.2.4" ("~" ++ "1.2.3") = Validator.Ok true
  /\ Validator.CompareVersion "1.2.4" ("^" ++ "1.2.3") = Validator.Ok true.
Proof.
  assert (H : Validator.CompareVersion "1.2.4" ("~" ++ "1.2.3") = Validator.Ok true)
    by (vm_compute; reflexivity).
  split; [reflexivity|]. split; [reflexivity|]. split; [exact H|].
  exact (proj1 (constraints_related "1.2.4" "1.2.3" (1, 2, 4)%Z (1, 2, 3)%Z
                  eq_refl eq_refl) H).
Defined.

Section ConstraintText.
Import Validator.

Lemma splitOperator_known (s : gostring) :
  (splitOperator s).1 ∈ [ ">=" : gostring; "<=" : gostring; ">" : gostring;
                          "<" : gostring; "=" : gostring; "^" : gostring;
                          "~" : gostring ].
Proof.
  unfold splitOperator.
  repeat (match goal with
          | |- context [if ?b then _ else _] => destruct b
          end; [cbn [fst]; rewrite !elem_of_cons; tauto|]).
  cbn [fst]. rewrite !elem_of_cons. tauto.
Qed.

Lemma trimLeft_spaces (ws s : gostring) :
  spaces ws -> Strings.trimLeft (ws ++ s) = Strings.trimLeft s.
Proof. induction 1 as [|a ws Ha _ IH]; [done|]. simpl. by rewrite Ha. Qed.

Lemma trimLeftRev_spaces (ws s : gostring) :
  spaces ws -> Strings.trimLeftRev (ws ++ s) = Strings.trimLeftRev s.
Proof. induction 1 as [|a ws Ha _ IH]; [done|]. simpl. by rewrite Ha. Qed.

Lemma trimRight_spaces (s ws : gostring) :
  spaces ws -> Strings.trimRight (s ++ ws) = Strings.trimRight s.
Proof.
  intros H. unfold Strings.trimRight.
  by rewrite rev_app_distr, trimLeftRev_spaces by (by apply Forall_rev).
Qed.

Lemma trimLeftRev_keep (x : gostring) a (y : gostring) :
  blank a = false ->
  Strings.trimLeftRev (x ++ a :: y) = Strings.trimLeftRev x ++ a :: y.
Proof.
  intros Ha.
  induction x as [x IH] using by_length.
  destruct x as [|c r1]; [by apply trimLeftRev_plain|].
  simpl. destruct (Strings.asciiSpace c) eqn:Hc.
  { apply IH. simpl; lia. }
  destruct r1 as [|b r2].
  { simpl. rewrite space2_plain_l by done.
    destruct y as [|d y]; [done|]. by rewrite space3_plain by auto. }
  simpl. destruct (Strings.space2 b c) eqn:Hbc.
  { apply IH. simpl; lia. }
  destruct r2 as [|d r3].
  { simpl. by rewrite space3_plain by auto. }
  simpl. destruct (Strings.space3 d b c) eqn:Hdbc; [|done].
  apply IH. simpl; lia.
Qed.

Lemma trimRight_keep (u : gostring) a (r : gostring) :
  blank a = false ->
  Strings.trimRight (u ++ a :: r) = u ++ a :: Strings.trimRight r.
Proof.
  intros Ha. unfold Strings.trimRight.
  rewrite rev_app_distr. simpl. rewrite <- app_assoc. simpl.
  rewrite trimLeftRev_keep by done.
  rewrite rev_app_distr. simpl. rewrite rev_involutive. by rewrite <- app_assoc.
Qed.

Lemma space_not_operator n :
  Strings.asciiSpace n = true \/ versionStart n = true -> n <> "="%char.
Proof. intros [H|H] ->; vm_compute in H; discriminate H. Qed.

Lemma splitOperator_next (op : gostring) n (tail : gostring) :
  op ∈ operators -> op <> [] -> n <> "="%char ->
  splitOperator (op ++ n :: tail) = (op, Strings.TrimSpace (n :: tail)).
Proof.
  intros Hop Hne Hn.
  unfold operators in Hop. rewrite !elem_of_cons, elem_of_nil in Hop.
  unfold splitOperator.
  destruct Hop as [->|[->|[->|[->|[->|[->|[->|[->|[]]]]]]]]]; try done; simpl;
    rewrite ?HasPrefix_cons, ?HasPrefix_nil;
    rewrite ?(bool_decide_eq_false_2 (n = _)) by done;
    done.
Qed.

(** The switch of [CompareVersion], once the requirement is split. *)
Lemma CompareVersion_split (op current requirement v : gostring) c r :
  op ∈ operators ->
  splitOperator (Strings.TrimSpace requirement)
    = (if bool_decide (op = []) then "=" : gostring else op, v) ->
  parseVersion current = Ok c -> parseVersion v = Ok r ->
  CompareVersion current requirement = Ok (holds op c r).
Proof.
  intros Hop Hsplit Hc Hr. unfold CompareVersion.
  rewrite Hsplit, Hc, Hr, compareVersionParts_lex. unfold holds.
  unfold operators in Hop. rewrite !elem_of_cons, elem_of_nil in Hop.
  destruct Hop as [->|[->|[->|[->|[->|[->|[->|[->|[]]]]]]]]]; simpl;
    destruct (lexCompare c r); done.
Qed.

Lemma CompareVersion_padded (ws1 ws2 ws3 op current required : gostring) c r :
  op ∈ operators -> spaces ws1 -> spaces ws2 -> spaces ws3 ->
  parseVersion current = Ok c -> parseVersion required = Ok r ->
  CompareVersion current (ws1 ++ op ++ ws2 ++ required ++ ws3) = Ok (holds op c r).
Proof.
  intros Hop H1 H2 H3 Hc Hr.
  destruct (parseVersion_start _ _ Hr) as (a & rest & -> & Ha).
  pose proof (versionStart_plain a Ha) as Hpl.
  apply parseVersion_trimRight in Hr. rewrite trimRight_cons in Hr by done.
  set (t := Strings.trimRight rest) in *.
  assert (Ht : Strings.trimRight (a :: t) = a :: t).
  { unfold t. rewrite <- (trimRight_cons a rest) by done.
    by rewrite trimRight_idem, trimRight_cons. }
  assert (Hts : Strings.TrimSpace (ws2 ++ a :: t) = a :: t).
  { unfold Strings.TrimSpace. rewrite trimLeft_spaces by done.
    by rewrite trimLeft_plain. }
  apply (CompareVersion_split op _ _ (a :: t)); try done.
  destruct op as [|o op'].
  - rewrite bool_decide_eq_true_2 by done.
    assert (E : Strings.TrimSpace (ws1 ++ [] ++ ws2 ++ (a :: rest) ++ ws3) = a :: t).
    { unfold Strings.TrimSpace. rewrite !trimLeft_spaces by done.
      cbn [app]. rewrite trimLeft_plain, trimRight_cons by done.
      by rewrite trimRight_spaces. }
    rewrite E.
    exact (splitOperator_operator [] a t Hop Ha Ht).
  - rewrite bool_decide_eq_false_2 by done.
    assert (Ho : blank o = false).
    { pose proof (operator_plain _ Hop) as Hp. by inversion Hp. }
    assert (E : Strings.TrimSpace (ws1 ++ (o :: op') ++ ws2 ++ (a :: rest) ++ ws3)
                = (o :: op') ++ ws2 ++ a :: t).
    { unfold Strings.TrimSpace. rewrite trimLeft_spaces by done.
      cbn [app]. rewrite trimLeft_plain by done.
      change (o :: op' ++ ws2 ++ a :: rest ++ ws3)
        with ((o :: op') ++ ws2 ++ a :: rest ++ ws3).
      rewrite (app_assoc (o :: op') ws2), trimRight_keep by done.
      rewrite trimRight_spaces by done. by rewrite <- app_assoc. }
    rewrite E.
    destruct ws2 as [|n ws2'].
    + change ((o :: op') ++ [] ++ a :: t) with ((o :: op') ++ a :: t).
      rewrite splitOperator_next; [|done|done|].
      * by rewrite (Hts : Strings.TrimSpace (a :: t) = a :: t).
      * apply space_not_operator. by right.
    + change ((o :: op') ++ (n :: ws2') ++ a :: t)
        with ((o :: op') ++ n :: (ws2' ++ a :: t)).
      rewrite splitOperator_next; [|done|done|].
      * by rewrite (Hts : Strings.TrimSpace (n :: ws2' ++ a :: t) = a :: t).
      * apply space_not_operator. left. by inversion H2.
Qed.

Lemma Split_middle (u w : gostring) sep :
  Strings.Split (u ++ sep :: w) sep = Strings.Split u sep ++ Strings.Split w sep.
Proof.
  induction u as [|c u IH]; simpl.
  - by rewrite bool_decide_eq_true_2.
  - case_bool_decide; rewrite IH; [done|].
    pose proof (Split_nonempty u sep).
    by destruct (Strings.Split u sep).
Qed.

Lemma component_padded parts i :
  (length parts <= 2)%nat -> (i < 3)%nat ->
  component (parts ++ [ "0" : gostring ]) i = component parts i.
Proof.
  intros Hlen Hi. unfold component.
  destruct (decide (i < length parts)%nat) as [Hlt|Hge].
  - by rewrite lookup_app_l.
  - rewrite (lookup_ge_None_2 parts i) by lia.
    destruct (decide (i = length parts)) as [->|Hne].
    + by rewrite list_lookup_middle.
    + rewrite lookup_ge_None_2; [done|]. rewrite length_app. simpl. lia.
Qed.

End ConstraintText.

(** X3. White space around a constraint, and between its operator and its
    version, does not matter: for versions that parse, a requirement padded
    with ASCII white space is decided like the bare operator followed by
    the version. *)
Theorem CompareVersion_ignores_spaces
    (ws1 ws2 ws3 op current required : gostring) c r :
  op ∈ operators -> spaces ws1 -> spaces ws2 -> spaces ws3 ->
  Validator.parseVersion current = Validator.Ok c ->
  Validator.parseVersion required = Validator.Ok r ->
  Validator.CompareVersion current (ws1 ++ op ++ ws2 ++ required ++ ws3)
  = Validator.CompareVersion current (op ++ required).
Proof.
  intros Hop H1 H2 H3 Hc Hr.
  rewrite (CompareVersion_padded ws1 ws2 ws3 op current required c r) by done.
  by rewrite (CompareVersion_operator op current required c r).
Qed.

Lemma CompareVersion_ignores_spaces_witness :
  (">=" : gostring) ∈ operators
  /\ spaces " " /\ spaces "  " /\ spaces []
  /\ Validator.parseVersion "3.11.5" = Validator.Ok (3, 11, 5)
  /\ Validator.parseVersion "3.11" = Validator.Ok (3, 11, 0)
  /\ Validator.CompareVersion "3.11.5" (" " ++ ">=" ++ "  " ++ "3.11" ++ [])
     = Validator.CompareVersion "3.11.5" (">=" ++ "3.11").
Proof.
  assert (Hop : (">=" : gostring) ∈ operators)
    by (unfold operators; rewrite !elem_of_cons; tauto).
  assert (H1 : spaces " ") by (repeat constructor).
  assert (H2 : spaces "  ") by (repeat constructor).
  assert (H3 : spaces []) by constructor.
  repeat (split; [done|]).
  exact (CompareVersion_ignores_spaces " " "  " [] ">=" "3.11.5" "3.11"
           (3, 11, 5) (3, 11, 0) Hop H1 H2 H3 eq_refl eq_refl).
Defined.


(** X5. What [parseVersion] pads and strips: a version with at most two
    components parses like the same text followed by [.0], and a version
    that does not start with [v] parses like the same text after a [v].
    This holds for the error as well as for the triple. *)
Theorem parseVersion_padding (version : gostring) :
  ((length (Strings.Split (Strings.TrimPrefix version "v") ".") <= 2)%nat ->
   Validator.parseVersion (version ++ ".0") = Validator.parseVersion version)
  /\ (Strings.HasPrefix version "v" = false ->
      Validator.parseVersion ("v" ++ version) = Validator.parseVersion version).
Proof.
  split.
  - intros Hlen. rewrite !parseVersion_components.
    assert (E : Strings.TrimPrefix (version ++ ".0") "v"
                = Strings.TrimPrefix version "v" ++ ".0").
    { destruct version as [|a rest]; [reflexivity|].
      change (String.list_ascii_of_string "v") with ["v"%char].
      change ((a :: rest) ++ ".0") with (a :: rest ++ ".0").
      rewrite !TrimPrefix_cons. by case_bool_decide. }
    rewrite E.
    change (String.list_ascii_of_string ".0") with ("."%char :: "0").
    rewrite Split_middle.
    change (Strings.Split "0" ".") with [ "0" : gostring ].
    by rewrite !component_padded by (done || lia).
  - intros Hv. unfold Validator.parseVersion.
    change (String.list_ascii_of_string "v") with ["v"%char] in *.
    cbn [app]. rewrite TrimPrefix_cons, bool_decide_eq_true_2 by done.
    unfold Strings.TrimPrefix. by rewrite Hv.
Qed.

Lemma parseVersion_padding_witness :
  (length (Strings.Split (Strings.TrimPrefix "3.11" "v") ".") <= 2)%nat
  /\ Validator.parseVersion ("3.11" ++ ".0") = Validator.parseVersion "3.11"
  /\ Strings.HasPrefix "3.11" "v" = false
  /\ Validator.parseVersion ("v" ++ "3.11") = Validator.parseVersion "3.11".
Proof.
  assert (H1 : (length (Strings.Split (Strings.TrimPrefix "3.11" "v") ".") <= 2)%nat)
    by (vm_compute; lia).
  destruct (parseVersion_padding "3.11") as [Hpad Hv].
  split; [exact H1|]. split; [exact (Hpad H1)|].
  split; [reflexivity|exact (Hv eq_refl)].
Defined.

(* ================================================================== *)
(** ** More on requirement checking                                    *)
(* ================================================================== *)

Section Findings.
Import Validator.

Variable LookPath : gostring -> bool.
Variable getCommandVersion : gostring -> gostring.

(** What one requirement contributes, case by case. *)
Lemma Validate_one Level req :
  Validate LookPath getCommandVersion Level [req] =
  if negb (LookPath (Command req)) then
    if Required req
    then {| Errors := [notFound req]; Warnings := [] |}
    else {| Errors := []; Warnings := [notFound req] |}
  else if bool_decide (Version req = [])
          || bool_decide (getCommandVersion (Command req) = [])
  then {| Errors := []; Warnings := [] |}
  else
    match CompareVersion (getCommandVersion (Command req)) (Version req) with
    | Ok true => {| Errors := []; Warnings := [] |}
    | Ok false =>
        if bool_decide (Level = ValidationStrict)
        then {| Errors := [mismatch (getCommandVersion (Command req)) req];
                Warnings := [] |}
        else {| Errors := [];
                Warnings := [mismatch (getCommandVersion (Command req)) req] |}
    | Err e =>
        let finding := {| ve_Command := Command req;
                          ve_Message := MsgCompareError (Command req) e;
                          ve_InstallHint := InstallHint req |} in
        if bool_decide (Level = ValidationStrict)
        then {| Errors := [finding]; Warnings := [] |}
        else {| Errors := []; Warnings := [finding] |}
    end.
Proof.
  unfold Validate, validateOne, CheckCommand, notFound, mismatch. simpl.
  destruct (LookPath (Command req)); simpl.
  - destruct (bool_decide (Version req = [])),
      (bool_decide (getCommandVersion (Command req) = [])); simpl; try done.
    destruct (CompareVersion _ _) as [[]|e]; simpl; try done;
      by destruct (bool_decide (Level = ValidationStrict)).
  - by destruct (Required req).
Qed.

Lemma Validate_concat Level reqs :
  Errors (Validate LookPath getCommandVersion Level reqs)
    = concat (map (fun r => Errors (Validate LookPath getCommandVersion Level [r])) reqs)
  /\ Warnings (Validate LookPath getCommandVersion Level reqs)
    = concat (map (fun r => Warnings (Validate LookPath getCommandVersion Level [r])) reqs).
Proof. apply (fold_validateOne LookPath getCommandVersion Level reqs). Qed.

(** A requirement gives at most one finding; the finding names the
    requirement and is not a check error. *)
Lemma Validate_one_finding Level req :
  let r := Validate LookPath getCommandVersion Level [req] in
  (length (Errors r) + length (Warnings r) <= 1)%nat
  /\ forall f, f ∈ Errors r ++ Warnings r ->
       ve_Command f = Command req /\ ve_InstallHint f = InstallHint req
       /\ forall cmd e, ve_Message f <> MsgCheckError cmd e.
Proof.
  rewrite Validate_one.
  repeat match goal with
         | |- context [if ?b then _ else _] => destruct b
         | |- context [match ?x with Ok _ => _ | Err _ => _ end] => destruct x as [[]|?]
         end; simpl; (split; [lia|]); intros f Hf;
    first [ by apply elem_of_nil in Hf
          | apply list_elem_of_singleton in Hf; by subst ].
Qed.

Lemma Validate_one_total Level1 Level2 req :
  let r1 := Validate LookPath getCommandVersion Level1 [req] in
  let r2 := Validate LookPath getCommandVersion Level2 [req] in
  (length (Errors r1) + length (Warnings r1)
   = length (Errors r2) + length (Warnings r2))%nat.
Proof.
  rewrite !Validate_one.
  repeat match goal with
         | |- context [if ?b then _ else _] => destruct b
         | |- context [match ?x with Ok _ => _ | Err _ => _ end] => destruct x as [[]|?]
         end; done.
Qed.

End Findings.

Section Concat.
Context {A B : Type}.

Lemma elem_of_concat_map (g : A -> list B) (l : list A) (x : B) :
  x ∈ concat (map g l) <-> exists y, y ∈ l /\ x ∈ g y.
Proof.
  induction l as [|a l IH]; simpl.
  - split; [by intros ?%elem_of_nil|]. by intros (y & ?%elem_of_nil & _).
  - rewrite elem_of_app, IH. split.
    + intros [H|(y & Hy & Hx)].
      * exists a. split; [by left|done].
      * exists y. split; [by right|done].
    + intros (y & [->|Hy]%elem_of_cons & Hx); [by left|].
      right. by exists y.
Qed.

Lemma concat_map_nil (g : A -> list B) (l : list A) :
  concat (map g l) = [] <-> forall y, y ∈ l -> g y = [].
Proof.
  induction l as [|a l IH]; simpl.
  - split; [|done]. by intros _ y ?%elem_of_nil.
  - split.
    + intros [Ha Hl]%app_eq_nil y [->|Hy]%elem_of_cons; [done|].
      by apply IH.
    + intros H. rewrite (H a) by (by left). simpl. apply IH.
      intros y Hy. apply H. by right.
Qed.


End Concat.

(** X6. The findings of [Validate]: a requirement gives at most one
    finding, so there are never more findings than requirements; every
    finding names the command and carries the install hint of a requirement
    of the list; and no finding reports an error of the check itself, since
    [CheckCommand] never returns one. *)
Theorem Validate_findings LookPath getCommandVersion Level
    (reqs : list Validator.Requirement) :
  let r := Validator.Validate LookPath getCommandVersion Level reqs in
  (length (Validator.Errors r) + length (Validator.Warnings r) <= length reqs)%nat
  /\ forall f, f ∈ Validator.Errors r ++ Validator.Warnings r ->
       (exists req, req ∈ reqs
                    /\ Validator.ve_Command f = Validator.Command req
                    /\ Validator.ve_InstallHint f = Validator.InstallHint req)
       /\ forall cmd e, Validator.ve_Message f <> Validator.MsgCheckError cmd e.
Proof.
  intros r. subst r.
  destruct (Validate_concat LookPath getCommandVersion Level reqs) as [HE HW].
  split.
  - rewrite HE, HW. clear HE HW.
    induction reqs as [|req reqs IH]; simpl; [lia|].
    rewrite !length_app.
    pose proof (proj1 (Validate_one_finding LookPath getCommandVersion Level req)).
    simpl in *. lia.
  - intros f Hf.
    assert (exists req, req ∈ reqs
              /\ f ∈ Validator.Errors (Validator.Validate LookPath getCommandVersion Level [req])
                     ++ Validator.Warnings (Validator.Validate LookPath getCommandVersion Level [req]))
      as (req & Hreq & Hin).
    { rewrite HE, HW in Hf. apply elem_of_app in Hf as [Hf|Hf];
        apply elem_of_concat_map in Hf as (req & Hreq & Hin);
        exists req; (split; [done|]); apply elem_of_app; auto. }
    destruct (proj2 (Validate_one_finding LookPath getCommandVersion Level req) f Hin)
      as (Hc & Hh & Hm).
    split; [by exists req|done].
Qed.

Lemma Validate_findings_witness :
  let LookPath := fun cmd : gostring => bool_decide (cmd = "go") in
  let missing := {| Validator.Command := "poetry"; Validator.Version := [];
                    Validator.Required := true; Validator.When := [];
                    Validator.InstallHint := "pip install poetry" |} in
  let r := Validator.Validate LookPath (fun _ => []) Validator.ValidationBasic [missing] in
  notFound missing ∈ Validator.Errors r ++ Validator.Warnings r
  /\ exists req, req ∈ [missing]
       /\ Validator.ve_Command (notFound missing) = Validator.Command req
       /\ Validator.ve_InstallHint (notFound missing) = Validator.InstallHint req.
Proof.
  intros LookPath missing r.
  assert (H : notFound missing ∈ Validator.Errors r ++ Validator.Warnings r)
    by (apply list_elem_of_here).
  split; [exact H|].
  exact (proj1 (proj2 (Validate_findings LookPath (fun _ => []) Validator.ValidationBasic
                         [missing]) (notFound missing) H)).
Defined.



(** X8. [Validate] finds nothing exactly when every requirement is met:
    its command is installed and, if it declares a constraint and the
    command reports a version, the version satisfies the constraint.  A
    command that reports no version is never faulted for it. *)
Theorem Validate_clean LookPath getCommandVersion Level
    (reqs : list Validator.Requirement) :
  Validator.Validate LookPath getCommandVersion Level reqs
    = {| Validator.Errors := []; Validator.Warnings := [] |}
  <-> forall req, req ∈ reqs ->
        LookPath (Validator.Command req) = true
        /\ (Validator.Version req = []
            \/ getCommandVersion (Validator.Command req) = []
            \/ Validator.CompareVersion (getCommandVersion (Validator.Command req))
                 (Validator.Version req) = Validator.Ok true).
Proof.
  assert (Hone : forall req,
            (Validator.Errors (Validator.Validate LookPath getCommandVersion Level [req]) = []
             /\ Validator.Warnings (Validator.Validate LookPath getCommandVersion Level [req]) = [])
            <-> LookPath (Validator.Command req) = true
                /\ (Validator.Version req = []
                    \/ getCommandVersion (Validator.Command req) = []
                    \/ Validator.CompareVersion (getCommandVersion (Validator.Command req))
                         (Validator.Version req) = Validator.Ok true)).
  { intros req. rewrite Validate_one.
    destruct (LookPath (Validator.Command req)); simpl.
    2:{ destruct (Validator.Required req); simpl; split; intros [? ?]; done. }
    case_bool_decide as Hv; simpl; [by split; auto|].
    case_bool_decide as Hg; simpl; [by split; auto|].
    destruct (Validator.CompareVersion _ _) as [[]|e]; simpl.
    - by split; auto.
    - destruct (bool_decide (Level = Validator.ValidationStrict)); simpl;
        split; [by intros [? ?]| |by intros [? ?]|]; intros [_ [?|[?|?]]]; done.
    - destruct (bool_decide (Level = Validator.ValidationStrict)); simpl;
        split; [by intros [? ?]| |by intros [? ?]|]; intros [_ [?|[?|?]]]; done. }
  destruct (Validate_concat LookPath getCommandVersion Level reqs) as [HE HW].
  split.
  - intros H req Hreq. apply Hone.
    rewrite H in HE, HW. simpl in HE, HW. symmetry in HE, HW.
    rewrite concat_map_nil in HE, HW. auto.
  - intros H.
    destruct (Validator.Validate LookPath getCommandVersion Level reqs) as [es ws].
    simpl in HE, HW. subst es ws. f_equal; apply concat_map_nil; intros req Hreq;
      by apply Hone, H.
Qed.

Lemma Validate_clean_witness :
  let LookPath := fun cmd : gostring => bool_decide (cmd = "go") in
  let getCommandVersion := fun _ : gostring => ("1.21.0" : gostring) in
  let go := {| Validator.Command := "go"; Validator.Version := ">=1.20";
               Validator.Required := true; Validator.When := [];
               Validator.InstallHint := [] |} in
  (forall req, req ∈ [go] ->
     LookPath (Validator.Command req) = true
     /\ (Validator.Version req = []
         \/ getCommandVersion (Validator.Command req) = []
         \/ Validator.CompareVersion (getCommandVersion (Validator.Command req))
              (Validator.Version req) = Validator.Ok true))
  /\ Validator.Validate LookPath getCommandVersion Validator.ValidationStrict [go]
     = {| Validator.Errors := []; Validator.Warnings := [] |}.
Proof.
  intros LookPath getCommandVersion go.
  assert (H : forall req, req ∈ [go] ->
     LookPath (Validator.Command req) = true
     /\ (Validator.Version req = []
         \/ getCommandVersion (Validator.Command req) = []
         \/ Validator.CompareVersion (getCommandVersion (Validator.Command req))
              (Validator.Version req) = Validator.Ok true)).
  { intros req ->%list_elem_of_singleton. split; [reflexivity|].
    right; right. vm_compute. reflexivity. }
  split; [exact H|].
  exact (proj2 (Validate_clean LookPath getCommandVersion Validator.ValidationStrict [go]) H).
Defined.

(* ================================================================== *)
(** ** Version probing ([extractVersion], [getCommandVersion])         *)
(* ================================================================== *)

Section Extraction.
Import Probe.

(** What does not start with a digit. *)

Lemma digitRun_spec (s : gostring) :
  s = (digitRun s).1 ++ (digitRun s).2
  /\ Forall (fun c => Unicode.IsDigit c = true) (digitRun s).1
  /\ noDigitAhead (digitRun s).2.
Proof.
  induction s as [|c s (IH1 & IH2 & IH3)]; [by repeat constructor|].
  simpl. destruct (Unicode.IsDigit c) eqn:Hc; [|by repeat constructor].
  destruct (digitRun s) as [d r]. simpl in *.
  split; [by rewrite IH1 at 1|]. split; [by constructor|done].
Qed.

Lemma digitRun_app (d r : gostring) :
  Forall (fun c => Unicode.IsDigit c = true) d -> noDigitAhead r ->
  digitRun (d ++ r) = (d, r).
Proof.
  intros Hd Hr. induction Hd as [|c d Hc _ IH]; simpl.
  - destruct r as [|c r]; [done|]. simpl in *. by rewrite Hr.
  - by rewrite Hc, IH.
Qed.

Lemma dotDigits_spec (s d r : gostring) :
  dotDigits s = Some (d, r) ->
  s = "."%char :: d ++ r /\ digitGroup d /\ noDigitAhead r.
Proof.
  unfold dotDigits. destruct s as [|c s]; [done|].
  case_bool_decide as Hc; [|done]. subst c.
  destruct (digitRun_spec s) as (H1 & H2 & H3).
  destruct (digitRun s) as [[|a d'] r']; [done|].
  intros [= <- <-]. simpl in *. split; [by rewrite H1 at 1|]. by split.
Qed.

Lemma dotDigits_app (d r : gostring) :
  digitGroup d -> noDigitAhead r -> dotDigits ("."%char :: d ++ r) = Some (d, r).
Proof.
  intros [Hne Hd] Hr. unfold dotDigits.
  rewrite bool_decide_eq_true_2 by done. rewrite digitRun_app by done.
  by destruct d.
Qed.

Lemma semver_spec (s v : gostring) :
  semver s = Some v ->
  exists d1 d2 d3, digitGroup d1 /\ digitGroup d2 /\ digitGroup d3
                   /\ v = d1 ++ "." ++ d2 ++ "." ++ d3.
Proof.
  unfold semver.
  destruct (digitRun_spec s) as (H1 & H2 & H3).
  destruct (digitRun s) as [[|a d1] r1]; [done|]. cbn [fst snd] in *.
  destruct (dotDigits r1) as [[d2 r2]|] eqn:E2; [|done].
  destruct (dotDigits r2) as [[d3 r3]|] eqn:E3; [|done].
  intros [= <-].
  apply dotDigits_spec in E2 as (_ & G2 & _).
  apply dotDigits_spec in E3 as (_ & G3 & _).
  exists (a :: d1), d2, d3. split; [by split|]. split; [done|]. by split.
Qed.

Lemma majorMinor_spec (s v : gostring) :
  majorMinor s = Some v ->
  exists d1 d2, digitGroup d1 /\ digitGroup d2 /\ v = d1 ++ "." ++ d2.
Proof.
  unfold majorMinor.
  destruct (digitRun_spec s) as (H1 & H2 & H3).
  destruct (digitRun s) as [[|a d1] r1]; [done|]. cbn [fst snd] in *.
  destruct (dotDigits r1) as [[d2 r2]|] eqn:E2; [|done].
  intros [= <-].
  apply dotDigits_spec in E2 as (_ & G2 & _).
  exists (a :: d1), d2. split; [by split|]. by split.
Qed.

Lemma optionalV_inv m (s v : gostring) :
  optionalV m s = Some v -> exists t, (t = s \/ s = "v"%char :: t) /\ m t = Some v.
Proof.
  unfold optionalV. destruct s as [|c s]; [by exists []; auto|].
  case_bool_decide as Hc.
  - subst c. destruct (m s) as [w|] eqn:E.
    + intros [= <-]. exists s. auto.
    + intros H. exists ("v"%char :: s). auto.
  - intros H. exists (c :: s). auto.
Qed.

Lemma leftmost_Some m (s v : gostring) :
  leftmost m s = Some v -> exists pre t, s = pre ++ t /\ m t = Some v.
Proof.
  induction s as [|c s IH]; simpl.
  - destruct (m []) eqn:E; [|done]. intros [= <-]. by exists [], [].
  - destruct (m (c :: s)) eqn:E.
    + intros [= <-]. by exists [], (c :: s).
    + intros (pre & t & -> & Ht)%IH. by exists (c :: pre), t.
Qed.

Lemma leftmost_None m (s : gostring) :
  leftmost m s = None -> forall pre t, s = pre ++ t -> m t = None.
Proof.
  induction s as [|c s IH]; simpl.
  - destruct (m []) eqn:E; [done|]. intros _ pre t Hs.
    symmetry in Hs. apply app_eq_nil in Hs as [_ ->]. done.
  - destruct (m (c :: s)) eqn:E; [done|]. intros H pre t Hs.
    destruct pre as [|c' pre]; simpl in Hs.
    + by subst t.
    + injection Hs as -> ->. by apply (IH H pre).
Qed.

(** A pattern that needs a digit first does not match on a [v]. *)
Lemma semver_not_v (s : gostring) : semver ("v"%char :: s) = None.
Proof. reflexivity. Qed.

Lemma semver_optionalV (t v : gostring) :
  semver t = Some v -> optionalV semver t = Some v.
Proof.
  intros H. unfold optionalV. destruct t as [|c t]; [done|].
  case_bool_decide as Hc; [|done]. subst c. by rewrite semver_not_v in H.
Qed.

Lemma versionWord_inv (s v : gostring) :
  versionWord s = Some v -> exists pre t, s = pre ++ t /\ optionalV semver t = Some v.
Proof.
  unfold versionWord. destruct (Strings.HasPrefix s "version") eqn:Hp; [|done].
  assert (Hs : s = take 7 s ++ drop 7 s) by (by rewrite take_drop).
  destruct (drop 7 s) as [|c r] eqn:Hd; [done|].
  destruct (isReSpace c); [|done]. intros H.
  assert (Hskip : forall r : gostring, exists ws, r = ws ++ skipSpaces r).
  { clear. induction r as [|a r [ws IH]]; [by exists []|]. simpl.
    destruct (isReSpace a); [|by exists []]. exists (a :: ws). simpl. by rewrite <- IH. }
  destruct (Hskip r) as [ws Hws].
  exists (take 7 s ++ c :: ws), (skipSpaces r). split; [|done].
  rewrite Hs at 1. rewrite <- app_assoc. simpl. by rewrite <- Hws.
Qed.

Lemma digit_not_dot c : Unicode.IsDigit c = true -> c <> "."%char.
Proof. by_cases c. Qed.

Lemma digit_not_v c : Unicode.IsDigit c = true -> c <> "v"%char.
Proof. by_cases c. Qed.

Lemma digit_not_sign c : Unicode.IsDigit c = true -> isSign c = false.
Proof. by_cases c. Qed.

Lemma digit_value c : Unicode.IsDigit c = true -> 0 <= Strconv.digitValue c <= 9.
Proof. by_cases c. Qed.

Lemma group_no_dot (d : gostring) :
  digitGroup d -> Forall (fun c => c <> "."%char) d.
Proof. intros [_ H]. eapply Forall_impl; [exact H|apply digit_not_dot]. Qed.

Lemma Split_two (d1 d2 : gostring) :
  digitGroup d1 -> digitGroup d2 ->
  Strings.Split (d1 ++ "." ++ d2) "." = [d1; d2].
Proof.
  intros G1 G2. change (String.list_ascii_of_string ".") with ["."%char].
  cbn [app]. rewrite Split_middle, !Split_whole by (by apply group_no_dot). done.
Qed.

Lemma Split_three (d1 d2 d3 : gostring) :
  digitGroup d1 -> digitGroup d2 -> digitGroup d3 ->
  Strings.Split (d1 ++ "." ++ d2 ++ "." ++ d3) "." = [d1; d2; d3].
Proof.
  intros G1 G2 G3. change (String.list_ascii_of_string ".") with ["."%char].
  cbn [app]. rewrite !Split_middle, !Split_whole by (by apply group_no_dot). done.
Qed.

Lemma decimal_bound (d : gostring) acc :
  Forall (fun c => Unicode.IsDigit c = true) d -> 0 <= acc ->
  0 <= fold_left (fun acc c => acc * 10 + Strconv.digitValue c) d acc
    < (acc + 1) * 10 ^ Z.of_nat (length d).
Proof.
  intros Hd. revert acc. induction Hd as [|c d Hc _ IH]; intros acc Hacc.
  - simpl. lia.
  - cbn [fold_left length]. pose proof (digit_value c Hc) as Hv.
    specialize (IH (acc * 10 + Strconv.digitValue c) ltac:(lia)).
    rewrite Nat2Z.inj_succ, Z.pow_succ_r by lia.
    assert (0 < 10 ^ Z.of_nat (length d)) by (apply Z.pow_pos_nonneg; lia).
    nia.
Qed.

Lemma numeric_group (d : gostring) :
  digitGroup d -> (length d <= 18)%nat -> numeric d = true.
Proof.
  intros [Hne Hd] Hlen.
  destruct d as [|c d]; [done|].
  pose proof (Forall_inv Hd) as Hc. simpl in Hc.
  pose proof (decimal_bound (c :: d) 0 Hd ltac:(lia)) as Hb.
  assert (10 ^ Z.of_nat (length (c :: d)) <= 10 ^ 18)
    by (apply Z.pow_le_mono_r; lia).
  unfold numeric, decimalValue, unsign, isNegative.
  rewrite (digit_not_sign c Hc).
  rewrite (bool_decide_eq_false_2 (c = "-"%char))
    by (intros ->; vm_compute in Hc; discriminate Hc).
  rewrite (bool_decide_eq_false_2 (c :: d = [])) by done.
  fold (decimal (c :: d)) in Hb.
  apply andb_true_intro; split; [apply andb_true_intro; split|].
  - apply andb_true_intro; split; [done|].
    apply forallb_forall. intros x Hx. rewrite Forall_forall in Hd.
    apply Hd. by apply list_elem_of_In.
  - apply Z.leb_le. unfold Strconv.minInt. lia.
  - apply Z.leb_le. unfold Strconv.maxInt. lia.
Qed.

(** What a match of one of the four patterns looks like. *)
Lemma pattern_groups p (t v : gostring) :
  p ∈ patterns -> p t = Some v ->
  (exists d1 d2, digitGroup d1 /\ digitGroup d2 /\ v = d1 ++ "." ++ d2)
  \/ (exists d1 d2 d3, digitGroup d1 /\ digitGroup d2 /\ digitGroup d3
                        /\ v = d1 ++ "." ++ d2 ++ "." ++ d3).
Proof.
  unfold patterns. rewrite !elem_of_cons, elem_of_nil.
  intros [->|[->|[->|[->|[]]]]] H.
  - apply optionalV_inv in H as (t' & _ & H). right. by apply semver_spec in H.
  - apply optionalV_inv in H as (t' & _ & H). left. by apply majorMinor_spec in H.
  - apply versionWord_inv in H as (pre & t' & _ & H).
    apply optionalV_inv in H as (t'' & _ & H). right. by apply semver_spec in H.
  - right. by apply semver_spec in H.
Qed.

Lemma firstPattern_match ps (output : gostring) :
  firstPattern ps output = []
  \/ exists p pre t, p ∈ ps /\ output = pre ++ t /\ p t = Some (firstPattern ps output).
Proof.
  induction ps as [|p ps IH]; simpl; [by left|].
  destruct (leftmost p output) as [v|] eqn:E.
  - right. apply leftmost_Some in E as (pre & t & -> & Ht).
    exists p, pre, t. split; [by left|done].
  - destruct IH as [IH|(q & pre & t & Hq & Ho & Ht)]; [by left|].
    right. exists q, pre, t. split; [by right|done].
Qed.

Lemma groups_parse (v : gostring) :
  Forall digitGroup (Strings.Split v ".") ->
  Forall (fun g : gostring => (length g <= 18)%nat) (Strings.Split v ".") ->
  let parts := Strings.Split v "." in
  Validator.parseVersion v
  = Validator.Ok (componentValue parts 0, componentValue parts 1, componentValue parts 2).
Proof.
  intros Hg Hl parts.
  assert (Hnum : forall i p, parts !! i = Some p -> numeric p = true).
  { intros i p Hp. apply list_elem_of_lookup_2 in Hp.
    rewrite Forall_forall in Hg, Hl. apply numeric_group; auto. }
  assert (Hv : Strings.TrimPrefix v "v" = v).
  { unfold Strings.TrimPrefix.
    destruct (Strings.HasPrefix v "v") eqn:Hp; [exfalso|done].
    destruct v as [|c v']; [done|].
    change (String.list_ascii_of_string "v") with ["v"%char] in Hp.
    rewrite HasPrefix_cons in Hp. apply andb_prop in Hp as [Hc%bool_decide_eq_true _].
    subst c. cbn [Strings.Split] in Hg.
    rewrite (bool_decide_eq_false_2 ("v"%char = "."%char)) in Hg by done.
    pose proof (Split_nonempty v' "."%char).
    destruct (Strings.Split v' ".") as [|p ps]; [done|].
    apply Forall_inv in Hg as [_ Hd]. apply Forall_inv in Hd.
    vm_compute in Hd. discriminate Hd. }
  apply parseVersion_ok. rewrite Hv. fold parts. cbn [fst snd].
  repeat split; apply component_ok; intros p; apply Hnum.
Qed.

End Extraction.

(** X9. What [extractVersion] returns is empty or made of two or three
    groups of digits separated by dots, whatever the output of the command;
    and when no group has more than 18 digits, [parseVersion] accepts it,
    with the value of each group. *)
Theorem extractVersion_shape (output : gostring) :
  let v := Probe.extractVersion output in
  let parts := Strings.Split v "." in
  v = []
  \/ (Forall digitGroup parts
      /\ (2 <= length parts <= 3)%nat
      /\ (Forall (fun g : gostring => (length g <= 18)%nat) parts ->
          Validator.parseVersion v
          = Validator.Ok (componentValue parts 0, componentValue parts 1,
                          componentValue parts 2))).
Proof.
  intros v parts. unfold v, Probe.extractVersion in *.
  destruct (firstPattern_match Probe.patterns output)
    as [H|(p & pre & t & Hp & _ & Ht)]; [by left|].
  right.
  assert (Hparts : Forall digitGroup parts /\ (2 <= length parts <= 3)%nat).
  { unfold parts.
    destruct (pattern_groups p t _ Hp Ht)
      as [(d1 & d2 & G1 & G2 & ->)|(d1 & d2 & d3 & G1 & G2 & G3 & ->)].
    - rewrite Split_two by done. split; [by repeat apply Forall_cons_2|simpl; lia].
    - rewrite Split_three by done. split; [by repeat apply Forall_cons_2|simpl; lia]. }
  destruct Hparts as [Hg Hlen]. split; [done|]. split; [done|].
  intros Hshort. by apply groups_parse.
Qed.

Lemma extractVersion_shape_witness :
  let v := Probe.extractVersion "Docker version 24.0.6, build ed223bc" in
  Forall (fun g : gostring => (length g <= 18)%nat) (Strings.Split v ".")
  /\ Validator.parseVersion v = Validator.Ok (24, 0, 6).
Proof.
  intros v.
  assert (Hv : v = "24.0.6") by (vm_compute; reflexivity).
  assert (Hs : Forall (fun g : gostring => (length g <= 18)%nat) (Strings.Split v "."))
    by (rewrite Hv; repeat constructor; simpl; lia).
  split; [exact Hs|].
  destruct (extractVersion_shape "Docker version 24.0.6, build ed223bc")
    as [Hnil|(_ & _ & Hparse)].
  - fold v in Hnil. rewrite Hv in Hnil. discriminate Hnil.
  - fold v in Hparse. rewrite (Hparse Hs). rewrite Hv. reflexivity.
Defined.

(** X10. The last two patterns of [extractVersion] never decide: a text
    in which they match has a match of the first pattern as well, so the
    result is that of the first two patterns alone. *)
Theorem extractVersion_two_patterns (output : gostring) :
  Probe.extractVersion output
  = Probe.firstPattern [ Probe.optionalV Probe.semver;
                         Probe.optionalV Probe.majorMinor ] output.
Proof.
  unfold Probe.extractVersion, Probe.patterns. cbn [Probe.firstPattern].
  destruct (Probe.leftmost (Probe.optionalV Probe.semver) output) as [v|] eqn:E1; [done|].
  destruct (Probe.leftmost (Probe.optionalV Probe.majorMinor) output) as [v|] eqn:E2; [done|].
  pose proof (leftmost_None _ _ E1) as Hnone.
  destruct (Probe.leftmost Probe.versionWord output) as [v|] eqn:E3.
  { exfalso. apply leftmost_Some in E3 as (pre & t & -> & Ht).
    apply versionWord_inv in Ht as (pre' & t' & -> & Ht').
    rewrite (Hnone (pre ++ pre') t') in Ht'; [done|by rewrite app_assoc]. }
  destruct (Probe.leftmost Probe.semver output) as [v|] eqn:E4; [|done].
  exfalso. apply leftmost_Some in E4 as (pre & t & -> & Ht).
  apply semver_optionalV in Ht. by rewrite (Hnone pre t) in Ht.
Qed.

Section FirstVersion.
Import Probe.

Lemma semver_nondigit c (s : gostring) :
  Unicode.IsDigit c = false -> semver (c :: s) = None.
Proof. intros H. unfold semver. cbn [digitRun]. by rewrite H. Qed.

Lemma dot_noDigitAhead (s : gostring) : noDigitAhead ("."%char :: s).
Proof. done. Qed.

Lemma semver_app (d1 d2 d3 suf : gostring) :
  digitGroup d1 -> digitGroup d2 -> digitGroup d3 -> noDigitAhead suf ->
  semver (d1 ++ "."%char :: d2 ++ "."%char :: d3 ++ suf)
  = Some (d1 ++ "." ++ d2 ++ "." ++ d3).
Proof.
  intros [N1 G1] G2 G3 Hsuf. unfold semver.
  rewrite digitRun_app by (done || apply dot_noDigitAhead).
  rewrite dotDigits_app by (done || apply dot_noDigitAhead).
  rewrite dotDigits_app by done.
  by destruct d1.
Qed.

Lemma optionalV_other m c (s : gostring) :
  c <> "v"%char -> optionalV m (c :: s) = m (c :: s).
Proof. intros H. unfold optionalV. by rewrite bool_decide_eq_false_2. Qed.

Lemma leftmost_skips (pre ver rest : gostring) :
  Forall (fun c => Unicode.IsDigit c = false) pre ->
  (exists c r, ver = c :: r /\ Unicode.IsDigit c = true) ->
  semver (ver ++ rest) = Some ver ->
  leftmost (optionalV semver) (pre ++ ver ++ rest) = Some ver.
Proof.
  intros Hpre (c0 & r0 & -> & Hc0) Hver.
  induction Hpre as [|c pre Hc Hpre IH].
  - cbn [app] in *. cbn [leftmost].
    rewrite optionalV_other by (by apply digit_not_v). by rewrite Hver.
  - change ((c :: pre) ++ (c0 :: r0) ++ rest)
      with (c :: (pre ++ (c0 :: r0) ++ rest)).
    cbn [leftmost].
    destruct (optionalV semver (c :: pre ++ (c0 :: r0) ++ rest)) as [w|] eqn:E;
      [|exact IH].
    unfold optionalV in E. rewrite (semver_nondigit c) in E by done.
    case_bool_decide; [|done].
    destruct pre as [|c' pre'].
    + cbn [app] in E. cbn [app] in Hver. rewrite Hver in E. done.
    + apply Forall_inv in Hpre. cbn [app] in E.
      rewrite (semver_nondigit c') in E by done. done.
Qed.

End FirstVersion.

(** X11. The first version of the output is the one reported: when a
    version of three groups of digits comes after text without a digit, and
    no digit follows it, [extractVersion] returns that version, whatever
    else the output says later on. *)
Theorem extractVersion_first (pre d1 d2 d3 suf : gostring) :
  Forall (fun c => Unicode.IsDigit c = false) pre ->
  digitGroup d1 -> digitGroup d2 -> digitGroup d3 ->
  noDigitAhead suf ->
  Probe.extractVersion (pre ++ (d1 ++ "." ++ d2 ++ "." ++ d3) ++ suf)
  = d1 ++ "." ++ d2 ++ "." ++ d3.
Proof.
  intros Hpre G1 G2 G3 Hsuf.
  unfold Probe.extractVersion, Probe.patterns. cbn [Probe.firstPattern].
  rewrite leftmost_skips; [done|done| |].
  - destruct G1 as [N1 G1]. destruct d1 as [|c d1]; [done|].
    exists c, (d1 ++ "." ++ d2 ++ "." ++ d3). split; [done|].
    by apply Forall_inv in G1.
  - rewrite <- semver_app with (suf := suf) by done. f_equal.
    change (String.list_ascii_of_string ".") with ["."%char].
    by rewrite <- !app_assoc.
Qed.

Lemma extractVersion_first_witness :
  Probe.extractVersion "go version go1.21.0 linux/amd64 (built with 1.20.3)"
  = "1.21.0".
Proof.
  apply (extractVersion_first "go version go" "1" "21" "0"
           " linux/amd64 (built with 1.20.3)").
  - repeat (apply Forall_cons_2; [reflexivity|]). apply Forall_nil_2.
  - split; [discriminate|]. repeat (apply Forall_cons_2; [reflexivity|]). apply Forall_nil_2.
  - split; [discriminate|]. repeat (apply Forall_cons_2; [reflexivity|]). apply Forall_nil_2.
  - split; [discriminate|]. repeat (apply Forall_cons_2; [reflexivity|]). apply Forall_nil_2.
  - reflexivity.
Defined.

Section Flags.
Import Probe.
Variable CombinedOutput : gostring -> gostring -> option gostring.

(** A flag gives nothing: the command fails, or its output has no
    version. *)
Lemma tryFlags_skip cmd (before rest : list gostring) :
  (forall f output, f ∈ before -> CombinedOutput cmd f = Some output ->
                    extractVersion output = []) ->
  tryFlags CombinedOutput cmd (before ++ rest) = tryFlags CombinedOutput cmd rest.
Proof.
  induction before as [|f before IH]; intros H; [done|].
  cbn [app tryFlags].
  rewrite IH by (intros g o Hg; apply H; by right).
  destruct (CombinedOutput cmd f) as [o|] eqn:E; [|done].
  rewrite (H f o) by (done || by left). by rewrite bool_decide_eq_true_2.
Qed.

Lemma tryFlags_Some cmd flags v :
  tryFlags CombinedOutput cmd flags = Some v ->
  v <> [] /\ exists flag output,
    flag ∈ flags /\ CombinedOutput cmd flag = Some output
    /\ v = extractVersion output.
Proof.
  induction flags as [|f flags IH]; [done|]. cbn [tryFlags].
  destruct (CombinedOutput cmd f) as [o|] eqn:E.
  - case_bool_decide as Hv; cbn [negb].
    + intros Hr. destruct (IH Hr) as (Hne & g & o' & Hg & Ho & ->).
      split; [done|]. exists g, o'. split; [by right|done].
    + intros [= <-]. split; [done|]. exists f, o. split; [by left|done].
  - intros Hr. destruct (IH Hr) as (Hne & g & o' & Hg & Ho & ->).
    split; [done|]. exists g, o'. split; [by right|done].
Qed.

Lemma tryFlags_None cmd flags :
  tryFlags CombinedOutput cmd flags = None <->
  (forall f output, f ∈ flags -> CombinedOutput cmd f = Some output ->
                    extractVersion output = []).
Proof.
  split.
  - intros Hn f o Hf Ho.
    destruct (decide (extractVersion o = [])) as [|Hne]; [done|exfalso].
    apply list_elem_of_split in Hf as (before & after & ->).
    revert Hn. induction before as [|g before IH]; cbn [app tryFlags].
    + rewrite Ho, bool_decide_eq_false_2 by done. done.
    + destruct (CombinedOutput cmd g) as [o'|]; [|exact IH].
      destruct (negb _); [done|exact IH].
  - intros H. rewrite <- (app_nil_r flags). by rewrite tryFlags_skip.
Qed.

End Flags.

(** X12. [getCommandVersion] tries the flags in their order and stops at
    the first one whose command runs and whose output has a version: the
    flags before it, having failed or printed no version, do not count. *)
Theorem getCommandVersion_first_flag
    (CombinedOutput : gostring -> gostring -> option gostring)
    cmd (before after : list gostring) flag output :
  Probe.versionFlags = before ++ flag :: after ->
  (forall f o, f ∈ before -> CombinedOutput cmd f = Some o ->
               Probe.extractVersion o = []) ->
  CombinedOutput cmd flag = Some output ->
  Probe.extractVersion output <> [] ->
  Probe.getCommandVersion CombinedOutput cmd = Some (Probe.extractVersion output).
Proof.
  intros Hflags Hbefore Hrun Hver. unfold Probe.getCommandVersion.
  rewrite Hflags, tryFlags_skip by done.
  cbn [Probe.tryFlags]. rewrite Hrun.
  by rewrite bool_decide_eq_false_2.
Qed.

Lemma getCommandVersion_first_flag_witness :
  let CombinedOutput (cmd flag : gostring) : option gostring :=
    if bool_decide (flag = "--version") then None
    else if bool_decide (flag = "-version") then Some ("usage: tool [flags]" : gostring)
    else Some ("tool v2.7.1" : gostring) in
  Probe.getCommandVersion CombinedOutput "tool" = Some ("2.7.1" : gostring).
Proof.
  intros CombinedOutput.
  apply (getCommandVersion_first_flag CombinedOutput "tool"
           ["--version" : gostring; "-version" : gostring] ["version" : gostring]
           "-v" "tool v2.7.1").
  - reflexivity.
  - intros f o Hf. rewrite !elem_of_cons, elem_of_nil in Hf.
    destruct Hf as [->|[->|[]]]; vm_compute; [discriminate|].
    intros [= <-]. reflexivity.
  - reflexivity.
  - vm_compute. discriminate.
Defined.

(** X13. [getCommandVersion] fails exactly when no flag gives a version,
    and a version it returns is never empty: it is what [extractVersion]
    found in the output of one of the four flags. *)
Theorem getCommandVersion_result
    (CombinedOutput : gostring -> gostring -> option gostring) cmd :
  (Probe.getCommandVersion CombinedOutput cmd = None <->
   forall flag output, flag ∈ Probe.versionFlags ->
     CombinedOutput cmd flag = Some output -> Probe.extractVersion output = [])
  /\ (forall v, Probe.getCommandVersion CombinedOutput cmd = Some v ->
        v <> [] /\ exists flag output,
          flag ∈ Probe.versionFlags /\ CombinedOutput cmd flag = Some output
          /\ v = Probe.extractVersion output).
Proof.
  split; [apply tryFlags_None|apply tryFlags_Some].
Qed.

(* ================================================================== *)
(** ** Project names ([ValidateProjectName])                           *)
(* ================================================================== *)

Section Names.
Import ProjectName.

Lemma nameByte_not_separator c :
  nameByte c = true -> c <> "/"%char /\ c <> "\"%char /\ c <> "."%char.
Proof. by_cases c. Qed.

Lemma lower_nameByte c : Unicode.IsLower c = true -> nameByte c = true.
Proof. unfold nameByte. by intros ->. Qed.

(** A name the pattern accepts is made of name bytes only. *)
Lemma projectNamePattern_bytes (name : gostring) :
  projectNamePattern name = true ->
  name <> [] /\ Forall (fun c => nameByte c = true) name.
Proof.
  destruct name as [|c rest]; [done|]. cbn [projectNamePattern].
  intros [Hc Hrest]%andb_prop. split; [done|].
  apply Forall_cons_2; [by apply lower_nameByte|].
  apply Forall_forall. intros x Hx.
  rewrite forallb_forall in Hrest. apply Hrest. by apply list_elem_of_In.
Qed.

Lemma no_separator (name : gostring) :
  Forall (fun c => nameByte c = true) name ->
  existsb (fun char => bool_decide (char = "/"%char)
                       || bool_decide (char = "\"%char)) name = false.
Proof.
  induction 1 as [|c name Hc _ IH]; [done|]. cbn [existsb]. rewrite IH.
  destruct (nameByte_not_separator c Hc) as (H1 & H2 & _).
  by rewrite !bool_decide_eq_false_2.
Qed.

Lemma not_dots (name : gostring) :
  name <> [] -> Forall (fun c => nameByte c = true) name ->
  name <> "." /\ name <> "..".
Proof.
  intros Hne H. destruct name as [|c rest]; [done|].
  apply Forall_inv in H. destruct (nameByte_not_separator c H) as (_ & _ & Hdot).
  split; intros [= -> _]; done.
Qed.

(** Past the pattern, only the file system decides. *)
Lemma pattern_passes (Stat : gostring -> bool) (name : gostring) :
  projectNamePattern name = true ->
  ValidateProjectName Stat name
  = if Stat name then Some (AlreadyExists name) else None.
Proof.
  intros Hp. unfold ValidateProjectName.
  destruct (projectNamePattern_bytes name Hp) as [Hne Hbytes].
  destruct (not_dots name Hne Hbytes) as [Hd1 Hd2].
  rewrite (bool_decide_eq_false_2 (name = [])) by done.
  rewrite (bool_decide_eq_false_2 (name = ".")) by done.
  rewrite (bool_decide_eq_false_2 (name = "..")) by done.
  cbn [orb]. rewrite no_separator by done. by rewrite Hp.
Qed.

End Names.

(** X14. [ValidateProjectName] accepts a name exactly when the pattern
    matches it and nothing of that name exists: the checks for the empty
    name, for [.] and [..] and for path separators reject nothing that the
    pattern would let through. *)
Theorem ValidateProjectName_accepts (Stat : gostring -> bool) (name : gostring) :
  ProjectName.ValidateProjectName Stat name = None
  <-> ProjectName.projectNamePattern name = true /\ Stat name = false.
Proof.
  split.
  - unfold ProjectName.ValidateProjectName. repeat case_bool_decide; cbn [orb]; try done.
    destruct (existsb _ name); [done|].
    destruct (ProjectName.projectNamePattern name); cbn [negb]; [|done].
    by destruct (Stat name).
  - intros [Hp Hs]. rewrite pattern_passes by done. by rewrite Hs.
Qed.

(** X15. The file system is consulted for well-formed names only: a name
    that the pattern rejects is refused with the same error whatever
    exists on disk, and that error is never the one for an existing
    directory; the latter is raised exactly for a well-formed name that
    exists. *)
Theorem ValidateProjectName_stat (Stat Stat' : gostring -> bool) (name : gostring) :
  (ProjectName.projectNamePattern name = false ->
   ProjectName.ValidateProjectName Stat name
   = ProjectName.ValidateProjectName Stat' name
   /\ ProjectName.ValidateProjectName Stat name <> None
   /\ forall n, ProjectName.ValidateProjectName Stat name
                <> Some (ProjectName.AlreadyExists n))
  /\ (forall n, ProjectName.ValidateProjectName Stat name
                = Some (ProjectName.AlreadyExists n)
                <-> n = name /\ ProjectName.projectNamePattern name = true
                    /\ Stat name = true).
Proof.
  split.
  - intros Hp. unfold ProjectName.ValidateProjectName. rewrite Hp. cbn [negb].
    repeat case_bool_decide; cbn [orb]; try done;
      by destruct (existsb _ name).
  - intros n. split.
    + unfold ProjectName.ValidateProjectName.
      repeat case_bool_decide; cbn [orb]; try done.
      destruct (existsb _ name); [done|].
      destruct (ProjectName.projectNamePattern name); cbn [negb]; [|done].
      destruct (Stat name); [|done]. by intros [= ->].
    + intros (-> & Hp & Hs). rewrite pattern_passes by done. by rewrite Hs.
Qed.

(* ================================================================== *)
(** ** Variables and contexts ([mergeVariables], [NewContext])         *)
(* ================================================================== *)

Section Merging.
Import Template Generator Accessors.

(** The declared default of a key, when it is not [nil]. *)
Lemma lookup_mergeVariables (tmpl : Template) (userVars : gmap gostring Value) key :
  mergeVariables tmpl userVars !! key
  = match userVars !! key with
    | Some v => Some v
    | None =>
        match Variables tmpl !! key with
        | Some varDef =>
            match var_Default varDef with VNil => None | v => Some v end
        | None => None
        end
    end.
Proof.
  unfold mergeVariables. rewrite lookup_union, lookup_omap.
  destruct (userVars !! key) as [v|]; [by destruct (_ ≫= _)|].
  destruct (Variables tmpl !! key) as [d|]; [|done]. cbn.
  by destruct (var_Default d).
Qed.

(** On a context made by [NewContext] the two fields that
    [evaluateCondition] reads are the variables of the same name. *)
Lemma evaluateCondition_GetBool projectName outputDir variables (tmpl : Template)
    condition :
  let ctx := NewContext projectName outputDir variables tmpl in
  evaluateCondition condition ctx = GetBool ctx (conditionKey condition).
Proof.
  intros ctx. unfold evaluateCondition.
  case_bool_decide as H1; [by rewrite H1|].
  case_bool_decide as H2; [by rewrite H2|]. done.
Qed.

Lemma GetBool_true (c : Context) key :
  GetBool c key = true <-> ctx_Variables c !! key = Some (VBool true).
Proof.
  unfold GetBool. destruct (ctx_Variables c !! key) as [[| [|] | |]|]; split; done.
Qed.

End Merging.

(** X16. [mergeVariables]: a value given by the user wins, also when it is
    [nil]; a key the user does not give takes the declared default unless
    that is [nil]; no other key appears; and merging the result with the
    same template again changes nothing. *)
Theorem mergeVariables_lookup (tmpl : Template.Template)
    (userVars : gmap gostring Template.Value) :
  let merged := Generator.mergeVariables tmpl userVars in
  (forall key v, userVars !! key = Some v -> merged !! key = Some v)
  /\ (forall key, userVars !! key = None ->
        merged !! key
        = d ← Template.Variables tmpl !! key;
          match Template.var_Default d with
          | Template.VNil => None
          | v => Some v
          end)
  /\ (forall key, merged !! key = Some Template.VNil ->
        userVars !! key = Some Template.VNil)
  /\ Generator.mergeVariables tmpl merged = merged.
Proof.
  intros merged. unfold merged.
  split; [|split; [|split]].
  - intros key v H. by rewrite lookup_mergeVariables, H.
  - intros key H. rewrite lookup_mergeVariables, H.
    by destruct (Template.Variables tmpl !! key).
  - intros key. rewrite lookup_mergeVariables.
    destruct (userVars !! key) as [v|]; [done|].
    destruct (Template.Variables tmpl !! key) as [d|]; [|done].
    by destruct (Template.var_Default d).
  - apply map_eq. intros key. rewrite !lookup_mergeVariables.
    destruct (userVars !! key) as [v|]; [done|].
    destruct (Template.Variables tmpl !! key) as [d|]; [|done].
    by destruct (Template.var_Default d).
Qed.

(** X17. The fields that [NewContext] fills from the variables agree with
    the accessors on the same key, so that on such a context
    [evaluateCondition] is [GetBool] at the key of the condition: the two
    names it treats apart are no exception. *)
Theorem NewContext_accessors projectName outputDir variables
    (tmpl : Template.Template) :
  let ctx := Template.NewContext projectName outputDir variables tmpl in
  Template.PythonVersion ctx = Accessors.GetString ctx "PythonVersion"
  /\ Template.Database ctx = Accessors.GetString ctx "Database"
  /\ Template.CIProvider ctx = Accessors.GetString ctx "CIProvider"
  /\ Template.IncludeDocker ctx = Template.GetBool ctx "IncludeDocker"
  /\ Template.IncludeTests ctx = Template.GetBool ctx "IncludeTests"
  /\ forall condition,
       Generator.evaluateCondition condition ctx
       = Template.GetBool ctx (Generator.conditionKey condition).
Proof.
  intros ctx.
  assert (HS : forall key,
             Template.assertString variables key = Accessors.GetString ctx key).
  { intros key. unfold Template.assertString, Accessors.GetString, ctx.
    cbn [Template.ctx_Variables Template.NewContext].
    by destruct (variables !! key) as [[]|]. }
  assert (HB : forall key,
             Template.assertBool variables key = Template.GetBool ctx key).
  { intros key. unfold Template.assertBool, Template.GetBool, ctx.
    cbn [Template.ctx_Variables Template.NewContext].
    by destruct (variables !! key) as [[]|]. }
  repeat split; try apply HS; try apply HB.
  intros condition. apply evaluateCondition_GetBool.
Qed.

(** X18. The accessors are typed: for any context and key at most one of
    [GetString], [GetBool] and [GetInt] returns something else than the
    zero value of its type. *)
Theorem accessors_exclusive (c : Template.Context) (key : gostring) :
  (Accessors.GetString c key <> [] ->
   Template.GetBool c key = false /\ Accessors.GetInt c key = 0)
  /\ (Template.GetBool c key = true ->
      Accessors.GetString c key = [] /\ Accessors.GetInt c key = 0)
  /\ (Accessors.GetInt c key <> 0 ->
      Accessors.GetString c key = [] /\ Template.GetBool c key = false).
Proof.
  unfold Accessors.GetString, Template.GetBool, Accessors.GetInt.
  destruct (Template.ctx_Variables c !! key) as [[|b|n|s]|];
    repeat split; done.
Qed.

(** X19. Which files [Generate] takes: in the context it builds, a file
    is generated exactly when, for each of its conditions, the user gave
    [true] for the key of the condition, or gave nothing for it and the
    template declares [true] as its default. *)
Theorem shouldGenerateFile_variables (opts : Generator.Options)
    (tmpl : Template.Template) fileSpec :
  Generator.shouldGenerateFile fileSpec (contextOf opts tmpl) = true
  <-> forall condition, condition ∈ Template.Conditions fileSpec ->
        let key := Generator.conditionKey condition in
        Generator.opt_Variables opts !! key = Some (Template.VBool true)
        \/ (Generator.opt_Variables opts !! key = None
            /\ exists d, Template.Variables tmpl !! key = Some d
                         /\ Template.var_Default d = Template.VBool true).
Proof.
  rewrite shouldGenerateFile_true.
  assert (Hone : forall condition,
            Generator.evaluateCondition condition (contextOf opts tmpl) = true
            <-> (Generator.opt_Variables opts !! Generator.conditionKey condition
                   = Some (Template.VBool true)
                 \/ (Generator.opt_Variables opts !! Generator.conditionKey condition = None
                     /\ exists d,
                          Template.Variables tmpl !! Generator.conditionKey condition = Some d
                          /\ Template.var_Default d = Template.VBool true))).
  { intros condition. unfold contextOf.
    rewrite evaluateCondition_GetBool, GetBool_true.
    cbn [Template.ctx_Variables Template.NewContext].
    rewrite lookup_mergeVariables.
    destruct (Generator.opt_Variables opts !! _) as [v|].
    - split; [by left|]. by intros [H|[H _]].
    - destruct (Template.Variables tmpl !! _) as [d|].
      + split.
        * intros H. right. split; [done|]. exists d. split; [done|].
          destruct (Template.var_Default d); by inversion H.
        * intros [H|(_ & d' & [= <-] & Hd)]; [done|]. by rewrite Hd.
      + split; [done|]. by intros [H|(_ & d' & H & _)]. }
  split; intros H condition Hc; apply Hone; by apply H.
Qed.

(* ================================================================== *)
(** ** Name casing, continued                                          *)
(* ================================================================== *)

Section Mirror.
Import Template.

Lemma hyphenate_upper c : Unicode.IsUpper (hyphenate c) = Unicode.IsUpper c.
Proof. by_cases c. Qed.

Lemma hyphenate_lower c :
  Unicode.ToLower (hyphenate c) = hyphenate (Unicode.ToLower c).
Proof. by_cases c. Qed.

Lemma hyphenate_separateUpper first (t : gostring) :
  map hyphenate (separateUpper "_" first t)
  = separateUpper "-" first (map hyphenate t).
Proof.
  revert first. induction t as [|r t IH]; intros first; [done|].
  cbn [separateUpper map]. rewrite hyphenate_upper, hyphenate_lower.
  destruct (Unicode.IsUpper r && negb first); cbn [map]; by rewrite IH.
Qed.

Lemma hyphenate_hyphen a :
  a <> "-"%char ->
  bool_decide (hyphenate a = "-"%char) = bool_decide (a = "_"%char).
Proof.
  intros Ha. unfold hyphenate.
  destruct (decide (a = "_"%char)) as [->|E]; [done|].
  rewrite (bool_decide_eq_false_2 (a = "_"%char)) by done.
  by rewrite bool_decide_eq_false_2.
Qed.

Lemma hyphenate_collapseRuns prev (x : gostring) :
  Forall (fun c => c <> "-"%char) x ->
  map hyphenate (Regexp.collapseRuns "_" prev x)
  = Regexp.collapseRuns "-" prev (map hyphenate x).
Proof.
  intros Hx. revert prev. induction Hx as [|a x Ha _ IH]; intros prev; [done|].
  cbn [Regexp.collapseRuns map]. rewrite hyphenate_hyphen by done.
  case_bool_decide as E.
  - destruct prev; cbn [map]; by rewrite IH.
  - cbn [map]. by rewrite IH.
Qed.

Lemma hyphenate_ReplaceAll (s : gostring) :
  map hyphenate (Strings.ReplaceAll s "-" "_") = Strings.ReplaceAll s "_" "-".
Proof.
  unfold Strings.ReplaceAll. rewrite map_map. apply map_ext. intros c.
  unfold hyphenate. repeat case_bool_decide; congruence.
Qed.

Lemma toKebabCase_mirror (s : gostring) :
  toKebabCase s = map hyphenate (toSnakeCase s).
Proof.
  unfold toKebabCase, toSnakeCase.
  rewrite hyphenate_collapseRuns.
  - by rewrite hyphenate_separateUpper, hyphenate_ReplaceAll.
  - apply separateUpper_avoids; [done|apply ToLower_hyphen|].
    by apply ReplaceAll_avoids.
Qed.

(** [collapseRuns] leaves no run of two. *)
Lemma collapseRuns_start c (s r : gostring) :
  Regexp.collapseRuns c true s <> c :: r.
Proof.
  induction s as [|a s IH]; [done|]. cbn [Regexp.collapseRuns].
  case_bool_decide; [done|]. by intros [= ->].
Qed.

Lemma collapseRuns_noDoubled c prev (s : gostring) :
  noDoubled c (Regexp.collapseRuns c prev s).
Proof.
  revert prev. induction s as [|a s IH]; intros prev pre post.
  - by destruct pre.
  - cbn [Regexp.collapseRuns]. case_bool_decide as E.
    + destruct prev; [apply IH|].
      destruct pre as [|x pre].
      * intros [= H]. by apply collapseRuns_start in H.
      * intros [= _ H]. by apply IH in H.
    + destruct pre as [|x pre].
      * by intros [= ->].
      * intros [= _ H]. by apply IH in H.
Qed.

Lemma asciiText_lower c :
  (N_of_ascii c < 128)%N -> (N_of_ascii (Unicode.ToLower c) < 128)%N.
Proof. by_cases c. Qed.

Lemma separateUpper_ascii sep first (s : gostring) :
  (N_of_ascii sep < 128)%N -> asciiText s -> asciiText (separateUpper sep first s).
Proof.
  intros Hsep Hs. revert first.
  induction Hs as [|r s Hr _ IH]; intros first; [done|].
  cbn [separateUpper].
  destruct (Unicode.IsUpper r && negb first);
    repeat (apply Forall_cons_2; [done || by apply asciiText_lower|]); apply IH.
Qed.

Lemma ReplaceAll_ascii (s : gostring) old new :
  (N_of_ascii new < 128)%N -> asciiText s -> asciiText (Strings.ReplaceAll s old new).
Proof.
  intros Hn Hs. unfold Strings.ReplaceAll. apply Forall_map.
  eapply Forall_impl; [exact Hs|]. intros c Hc. cbn. by case_bool_decide.
Qed.

(** The length of what [separateUpper] and [collapseRuns] return. *)
Lemma separateUpper_length sep first (s : gostring) :
  (length s <= length (separateUpper sep first s) <= 2 * length s)%nat.
Proof.
  revert first. induction s as [|r s IH]; intros first; [simpl; lia|].
  cbn [separateUpper]. specialize (IH false).
  destruct (Unicode.IsUpper r && negb first); cbn [length]; lia.
Qed.

Lemma collapseRuns_length c prev (s : gostring) :
  (length (Regexp.collapseRuns c prev s) <= length s)%nat.
Proof.
  revert prev. induction s as [|a s IH]; intros prev; [done|].
  cbn [Regexp.collapseRuns].
  case_bool_decide; [destruct prev|]; cbn [length];
    [specialize (IH true)|specialize (IH true)|specialize (IH false)]; lia.
Qed.

End Mirror.

(** X20. The kebab form is the snake form with every [_] turned into [-]
    (ASCII names, on which the model of the case functions is that of
    Go). *)
Theorem toKebabCase_of_snake (s : gostring) :
  asciiText s ->
  Template.toKebabCase s = map hyphenate (Template.toSnakeCase s)
  /\ length (Template.toKebabCase s) = length (Template.toSnakeCase s).
Proof.
  intros _. rewrite toKebabCase_mirror. split; [done|]. apply length_map.
Qed.

Lemma toKebabCase_of_snake_witness :
  Template.toKebabCase "my_APIProject-x" = "my-a-p-i-project-x".
Proof.
  assert (H : asciiText ("my_APIProject-x" : gostring))
    by (repeat (apply Forall_cons_2; [reflexivity|]); apply Forall_nil_2).
  rewrite (proj1 (toKebabCase_of_snake "my_APIProject-x" H)).
  vm_compute. reflexivity.
Defined.

(** X21. What [toSnakeCase] returns for an ASCII name: ASCII text without
    an upper-case letter or a hyphen, in which [_] never comes twice in a
    row, and at most twice as long as the name. *)
Theorem toSnakeCase_output (s : gostring) :
  asciiText s ->
  let out := Template.toSnakeCase s in
  asciiText out
  /\ Forall (fun c => Unicode.IsUpper c = false /\ c <> "-"%char) out
  /\ noDoubled "_" out
  /\ (length out <= 2 * length s)%nat.
Proof.
  intros Hs out. unfold out, Template.toSnakeCase.
  split; [|split; [|split]].
  - apply collapseRuns_Forall, separateUpper_ascii; [reflexivity|].
    by apply ReplaceAll_ascii.
  - apply collapseRuns_Forall. apply Forall_and. split.
    + by apply separateUpper_lower.
    + apply separateUpper_avoids; [done|apply ToLower_hyphen|].
      by apply ReplaceAll_avoids.
  - apply collapseRuns_noDoubled.
  - etransitivity; [apply collapseRuns_length|].
    etransitivity; [apply separateUpper_length|].
    unfold Strings.ReplaceAll. by rewrite length_map.
Qed.

Lemma toSnakeCase_output_witness :
  let out := Template.toSnakeCase "My--API_Project" in
  out = "my_a_p_i_project" /\ noDoubled "_" out /\ (length out <= 30)%nat.
Proof.
  assert (H : asciiText ("My--API_Project" : gostring))
    by (repeat (apply Forall_cons_2; [reflexivity|]); apply Forall_nil_2).
  destruct (toSnakeCase_output "My--API_Project" H) as (_ & _ & H3 & H4).
  split; [vm_compute; reflexivity|]. split; [exact H3|exact H4].
Defined.

(* ================================================================== *)
(** ** Camel case and Pascal case                                      *)
(* ================================================================== *)

Section CamelPascal.
Import Template.

Lemma ToLower_ToUpper c : Unicode.ToLower (Unicode.ToUpper c) = Unicode.ToLower c.
Proof. by_cases c. Qed.

Lemma ToLower_ToLower c : Unicode.ToLower (Unicode.ToLower c) = Unicode.ToLower c.
Proof. by_cases c. Qed.

Lemma ToLower_capitalize (p : gostring) :
  Strings.ToLower (capitalize p) = Strings.ToLower p.
Proof.
  destruct p as [|c p]; [done|]. unfold Strings.ToLower. cbn [capitalize map].
  by rewrite ToLower_ToUpper.
Qed.

Lemma ToLower_twice (p : gostring) :
  Strings.ToLower (Strings.ToLower p) = Strings.ToLower p.
Proof.
  unfold Strings.ToLower. rewrite map_map. apply map_ext, ToLower_ToLower.
Qed.

Lemma ToLower_app (p q : gostring) :
  Strings.ToLower (p ++ q) = Strings.ToLower p ++ Strings.ToLower q.
Proof. apply map_app. Qed.

(** Past the first part, [toCamelCase] writes what [toPascalCase]
    writes. *)
Lemma camelParts_later i parts : camelParts (S i) parts = pascalParts parts.
Proof.
  revert i. induction parts as [|p parts IH]; intros i; [done|].
  cbn [camelParts pascalParts]. destruct p as [|c p]; [apply IH|].
  change (S i =? 0)%nat with false. cbv iota. by rewrite IH.
Qed.

Lemma camelParts_lower i parts :
  Strings.ToLower (camelParts i parts) = Strings.ToLower (pascalParts parts).
Proof.
  revert i. induction parts as [|p parts IH]; intros i; [done|].
  cbn [camelParts pascalParts]. destruct p as [|c p]; [apply IH|].
  rewrite !ToLower_app, IH. f_equal.
  destruct (i =? 0)%nat; [|done].
  by rewrite ToLower_twice, ToLower_capitalize.
Qed.

(** The pieces read after a separator are those read from the start,
    but for the empty piece in front. *)
Lemma splitGo_inRun (s : gostring) :
  pascalParts (Regexp.splitGo true [] s) = pascalParts (Regexp.splitGo false [] s).
Proof.
  destruct s as [|a s]; [done|]. cbn [Regexp.splitGo].
  destruct (Regexp.isSeparator a); [|done]. done.
Qed.

Lemma toCamelCase_parts (s : gostring) :
  toCamelCase s = camelParts 0 (Regexp.SplitSeparators s).
Proof. unfold toCamelCase. by destruct (Regexp.SplitSeparators s). Qed.

End CamelPascal.

(** X22. Camel case and Pascal case of an ASCII name differ in letter
    case only, and a name that starts with a separator has no first
    segment to write in lower case: its camel case is its Pascal case,
    which is the Pascal case of the name without that separator. *)
Theorem toCamelCase_toPascalCase (s : gostring) :
  asciiText s ->
  Strings.ToLower (Template.toCamelCase s) = Strings.ToLower (Template.toPascalCase s)
  /\ length (Template.toCamelCase s) = length (Template.toPascalCase s)
  /\ forall c, Regexp.isSeparator c = true ->
       Template.toCamelCase (c :: s) = Template.toPascalCase (c :: s)
       /\ Template.toPascalCase (c :: s) = Template.toPascalCase s.
Proof.
  intros _.
  assert (Hlow : Strings.ToLower (Template.toCamelCase s)
                 = Strings.ToLower (Template.toPascalCase s)).
  { rewrite toCamelCase_parts. apply camelParts_lower. }
  split; [exact Hlow|]. split.
  - apply (f_equal length) in Hlow. unfold Strings.ToLower in Hlow.
    by rewrite !length_map in Hlow.
  - intros c Hc.
    assert (Hp : Template.toPascalCase (c :: s) = Template.toPascalCase s).
    { unfold Template.toPascalCase, Regexp.SplitSeparators.
      cbn [Regexp.splitGo]. rewrite Hc. cbn [rev Template.pascalParts].
      apply splitGo_inRun. }
    split; [|exact Hp]. rewrite Hp, toCamelCase_parts.
    unfold Template.toPascalCase, Regexp.SplitSeparators.
    cbn [Regexp.splitGo]. rewrite Hc. cbn [rev Template.camelParts].
    rewrite camelParts_later. apply splitGo_inRun.
Qed.

Lemma toCamelCase_toPascalCase_witness :
  Template.toCamelCase "_my-API project" = "MyAPIProject"
  /\ Strings.ToLower (Template.toCamelCase "my-API project") = "myapiproject".
Proof.
  assert (H : asciiText ("my-API project" : gostring))
    by (repeat (apply Forall_cons_2; [reflexivity|]); apply Forall_nil_2).
  destruct (toCamelCase_toPascalCase "my-API project" H) as (H1 & _ & H3).
  destruct (H3 "_"%char eq_refl) as [H4 H5].
  split.
  - change (String.list_ascii_of_string "_my-API project")
      with ("_"%char :: String.list_ascii_of_string "my-API project").
    rewrite H4, H5. vm_compute. reflexivity.
  - rewrite H1. vm_compute. reflexivity.
Defined.

(* ================================================================== *)
(** ** Failures of [Generate] and the metadata file                    *)
(* ================================================================== *)

Section Failures.
Import Template Generator.

Variable FS : Type.
Variable MkdirAll : gostring -> FS -> option FS.
Variable ReadFile : gostring -> FS -> option gostring.
Variable WriteFile : gostring -> gostring -> N -> FS -> option FS.
Variable Join : gostring -> gostring -> gostring.
Variable Dir : gostring -> gostring.
Variable Execute : gostring -> Context -> option gostring.
Variable Load : gostring -> FS -> option Template.
Variable formatValue : Value -> gostring.

(** The loop over the files fails at a file that was to be generated, and
    in a real run only. *)
Lemma generateFiles_error filesDir files ctx dryRun (w : World FS) e :
  (generateFiles FS MkdirAll ReadFile WriteFile Join Dir Execute
     filesDir files ctx dryRun w).1 = Some e ->
  dryRun = false
  /\ exists fileSpec, fileSpec ∈ files
       /\ e = GenerateFileFailed (Destination fileSpec)
       /\ shouldGenerateFile fileSpec ctx = true.
Proof.
  destruct dryRun.
  { by rewrite generateFiles_dry. }
  intros H. split; [done|]. revert w H.
  induction files as [|f files IH]; intros w; [done|].
  cbn [generateFiles].
  destruct (shouldGenerateFile f ctx) eqn:Hf; cbn [negb].
  - destruct (generateFile _ _ _ _ _ _ _ _ _ _ _ _) as [[|] w1].
    + intros H. destruct (IH _ H) as (g & Hg & He & Hs).
      exists g. split; [by right|done].
    + cbn [fst]. intros [= <-]. exists f. split; [by left|done].
  - intros H. destruct (IH _ H) as (g & Hg & He & Hs).
    exists g. split; [by right|done].
Qed.

(** A piece of a text stays one when the text gets longer in front. *)
Lemma infix_behind (h t x : gostring) :
  (exists pre post : gostring, t = pre ++ x ++ post) ->
  exists pre post : gostring, h ++ t = pre ++ x ++ post.
Proof.
  intros (pre & post & ->). exists (h ++ pre), post. by rewrite <- app_assoc.
Qed.

Lemma infix_concat_map {A} (f : A -> gostring) (a : A) (l : list A) :
  a ∈ l -> exists pre post : gostring, concat (map f l) = pre ++ f a ++ post.
Proof.
  intros (l1 & l2 & ->)%list_elem_of_split.
  exists (concat (map f l1)), (concat (map f l2)).
  by rewrite map_app, concat_app.
Qed.

End Failures.



(** X24. After a real run that succeeds, the metadata file of the project
    holds the text made from the context of the run, on any file system
    where a file reads as it was written. *)
Theorem Generate_writes_metadata FS MkdirAll ReadFile WriteFile Join Dir Execute
    Load formatValue (opts : Generator.Options) (w : Generator.World FS) tmpl :
  (forall path content perm f f',
     WriteFile path content perm f = Some f' -> ReadFile path f' = Some content) ->
  Generator.DryRun opts = false ->
  Load (Generator.opt_Language opts ++ "/" ++ Generator.opt_Framework opts)
       (Generator.fs FS w) = Some tmpl ->
  let r := Generator.Generate FS MkdirAll ReadFile WriteFile Join Dir Execute Load
             formatValue opts w in
  r.1 = None ->
  ReadFile (Join (Template.OutputDir (contextOf opts tmpl)) ".devinit.yaml")
           (Generator.fs FS r.2)
  = Some (Generator.metadataText formatValue (contextOf opts tmpl) tmpl).
Proof.
  intros Hlaw HD HL r. unfold r, Generator.Generate. rewrite HL, HD. cbn [negb].
  fold (contextOf opts tmpl).
  destruct (MkdirAll _ (Generator.fs FS w)) as [f1|]; [|done].
  destruct (Generator.generateFiles _ _ _ _ _ _ _ _ _ _ _ _) as [[e'|] w2]; [done|].
  unfold Generator.createMetadataFile.
  destruct (WriteFile _ _ _ (Generator.fs FS w2)) as [f|] eqn:HW; [|done].
  intros _. cbn [fst snd Generator.setFS Generator.fs].
  by apply Hlaw in HW.
Qed.

Lemma Generate_writes_metadata_witness :
  let r := SimpleFS.run (SimpleFS.cliOptions false) SimpleFS.disk in
  SimpleFS.ReadFile "demo/.devinit.yaml" (Generator.fs _ r.2)
  = Some (Generator.metadataText SimpleFS.formatValue
            (contextOf (SimpleFS.cliOptions false) SimpleFS.cliTemplate)
            SimpleFS.cliTemplate).
Proof.
  apply (Generate_writes_metadata (gmap gostring SimpleFS.node) SimpleFS.MkdirAll
           SimpleFS.ReadFile SimpleFS.WriteFile SimpleFS.Join SimpleFS.Dir
           SimpleFS.Execute SimpleFS.Load SimpleFS.formatValue
           (SimpleFS.cliOptions false)
           {| Generator.fs := SimpleFS.disk; Generator.printed := [] |}
           SimpleFS.cliTemplate).
  - intros path content perm f f'. unfold SimpleFS.WriteFile, SimpleFS.ReadFile.
    destruct (SimpleFS.isDir path f); [discriminate|].
    destruct (SimpleFS.isDir (SimpleFS.Dir path) f); [|discriminate].
    intros [= <-]. by rewrite lookup_insert_eq.
  - reflexivity.
  - reflexivity.
  - vm_compute. reflexivity.
Defined.

(** X25. The metadata records the variables of the context, the defaults
    of the template included: every variable that [mergeVariables] yields
    has its line in the text that [Generate] writes. *)
Theorem metadata_records_variables (formatValue : Template.Value -> gostring)
    (opts : Generator.Options) (tmpl : Template.Template) key v :
  Generator.mergeVariables tmpl (Generator.opt_Variables opts) !! key = Some v ->
  exists pre post : gostring,
    Generator.metadataText formatValue (contextOf opts tmpl) tmpl
    = pre ++ ("  " ++ key ++ ": " ++ formatValue v ++ Generator.newline) ++ post.
Proof.
  intros H. unfold Generator.metadataText, contextOf.
  cbn [Template.ctx_Variables Template.NewContext].
  apply elem_of_map_to_list in H.
  do 17 apply infix_behind.
  apply (infix_concat_map
           (fun kv : gostring * Template.Value =>
              "  " ++ kv.1 ++ ": " ++ formatValue kv.2 ++ Generator.newline)
           (key, v)), H.
Qed.

Lemma metadata_records_variables_witness :
  exists pre post : gostring,
    Generator.metadataText SimpleFS.formatValue
      (contextOf (SimpleFS.cliOptions false) SimpleFS.cliTemplate) SimpleFS.cliTemplate
    = pre ++ ("  IncludeDocker: false" ++ Generator.newline) ++ post.
Proof.
  apply (metadata_records_variables SimpleFS.formatValue (SimpleFS.cliOptions false)
           SimpleFS.cliTemplate "IncludeDocker" (Template.VBool false)).
  vm_compute. reflexivity.
Defined.

(* ================================================================== *)
(** ** The template loader ([Load], [validate])                        *)
(* ================================================================== *)

Section Loading.
Import Template Loader.

Variable FS : Type.
Variable Join : gostring -> gostring -> gostring.
Variable IsNotExist : gostring -> FS -> bool.

Lemma firstMissing_None filesDir files (f : FS) :
  firstMissing FS Join IsNotExist filesDir files f = None
  <-> forall file, file ∈ files ->
        IsNotExist (Join filesDir (Source file)) f = false.
Proof.
  induction files as [|g files IH]; cbn [firstMissing].
  - split; [|done]. intros _ file H. by apply elem_of_nil in H.
  - destruct (IsNotExist (Join filesDir (Source g)) f) eqn:E.
    + split; [done|]. intros H. specialize (H g ltac:(by left)). congruence.
    + rewrite IH. split.
      * intros H file [->|Hf]%elem_of_cons; auto.
      * intros H file Hf. apply H. by right.
Qed.

Lemma firstMissing_Some filesDir files (f : FS) source :
  firstMissing FS Join IsNotExist filesDir files f = Some source
  -> exists files1 file files2,
       files = files1 ++ file :: files2
       /\ Source file = source
       /\ IsNotExist (Join filesDir source) f = true
       /\ forall g, g ∈ files1 -> IsNotExist (Join filesDir (Source g)) f = false.
Proof.
  induction files as [|g files IH]; cbn [firstMissing]; [done|].
  destruct (IsNotExist (Join filesDir (Source g)) f) eqn:E.
  - intros [= <-]. exists [], g, files. repeat split; try done.
    intros h H. by apply elem_of_nil in H.
  - intros H. destruct (IH H) as (files1 & file & files2 & -> & Hs & Hm & Hb).
    exists (g :: files1), file, files2. repeat split; try done.
    intros h [->|Hh]%elem_of_cons; auto.
Qed.

End Loading.

(** X26. What [Load] returns.  A template it hands out was parsed from
    [template.yaml] in the directory of that name, has that directory as
    its [Path], a version, a name and a language, and each of its sources
    exists below [GetFilesDir].  Its errors come in the order of the
    checks: the directory, the file, the parse, then version, name,
    language and the first source that is missing; the framework is not
    checked. *)
Theorem Load_result FS Join IsNotExist ReadFile Unmarshal
    (templatesDir name : gostring) (f : FS) :
  let templatePath := Join templatesDir name in
  let read := ReadFile (Join templatePath "template.yaml") f in
  let exists_ path := IsNotExist path f = false in
  match Loader.Load FS Join IsNotExist ReadFile Unmarshal templatesDir name f with
  | inr tmpl =>
      exists_ templatePath
      /\ (exists data parsed,
            read = Some data /\ Unmarshal data = Some parsed
            /\ tmpl = Loader.setPath templatePath parsed)
      /\ Template.Path tmpl = templatePath
      /\ Template.Version tmpl <> [] /\ Template.Name tmpl <> []
      /\ Template.Language tmpl <> []
      /\ forall file, file ∈ Template.Files tmpl ->
           exists_ (Join (Loader.GetFilesDir Join tmpl) (Template.Source file))
  | inl (Loader.TemplateNotFound n) => n = name /\ ~ exists_ templatePath
  | inl Loader.ReadFailed => exists_ templatePath /\ read = None
  | inl Loader.ParseFailed =>
      exists_ templatePath /\ exists data, read = Some data /\ Unmarshal data = None
  | inl (Loader.InvalidTemplate e) =>
      exists_ templatePath
      /\ exists data parsed,
           read = Some data /\ Unmarshal data = Some parsed
           /\ match e with
              | Loader.VersionRequired => Template.Version parsed = []
              | Loader.NameRequired =>
                  Template.Version parsed <> [] /\ Template.Name parsed = []
              | Loader.LanguageRequired =>
                  Template.Version parsed <> [] /\ Template.Name parsed <> []
                  /\ Template.Language parsed = []
              | Loader.FileNotFound source =>
                  Template.Version parsed <> [] /\ Template.Name parsed <> []
                  /\ Template.Language parsed <> []
                  /\ exists files1 file files2,
                       Template.Files parsed = files1 ++ file :: files2
                       /\ Template.Source file = source
                       /\ ~ exists_ (Join (Join templatePath "files") source)
                       /\ forall g, g ∈ files1 ->
                            exists_ (Join (Join templatePath "files") (Template.Source g))
              end
  end.
Proof.
  intros templatePath read exists_. unfold Loader.Load. fold templatePath.
  destruct (IsNotExist templatePath f) eqn:HE.
  { split; [done|]. unfold exists_. by rewrite HE. }
  fold read. destruct read as [data|] eqn:HR; [|done].
  destruct (Unmarshal data) as [parsed|] eqn:HU; [|split; [done|by exists data]].
  unfold Loader.validate.
  cbn [Loader.setPath Template.Version Template.Name Template.Language
       Template.Files Template.Path].
  case_bool_decide as HV. { split; [done|]. by exists data, parsed. }
  case_bool_decide as HN. { split; [done|]. by exists data, parsed. }
  case_bool_decide as HL. { split; [done|]. by exists data, parsed. }
  destruct (Loader.firstMissing _ _ _ _ _ f) as [source|] eqn:HF.
  - split; [done|]. exists data, parsed. repeat split; try done.
    apply firstMissing_Some in HF
      as (files1 & file & files2 & Hfiles & Hs & Hm & Hb).
    exists files1, file, files2. repeat split; try done.
    unfold exists_. by rewrite Hm.
  - split; [done|]. split; [by exists data, parsed|].
    repeat split; try done.
    intros file Hfile. unfold exists_, Loader.GetFilesDir.
    cbn [Loader.setPath Template.Path Template.Files] in *.
    by apply (proj1 (firstMissing_None _ _ _ _ _ _) HF).
Qed.

(* ================================================================== *)
(** ** The command [new] ([runNewCommand])                             *)
(* ================================================================== *)

Section FlagVariables.
Import Template Generator Cli.

Variable projectName pythonVersion database : gostring.
Variable docker includeTests : bool.

Lemma flag_IncludeDocker :
  flagVariables projectName pythonVersion database docker includeTests
    !! ("IncludeDocker" : gostring)
  = Some (VBool docker).
Proof.
  unfold flagVariables.
  rewrite !lookup_insert_ne by discriminate. apply lookup_insert_eq.
Qed.

Lemma flag_IncludeTests :
  flagVariables projectName pythonVersion database docker includeTests
    !! ("IncludeTests" : gostring)
  = Some (VBool includeTests).
Proof.
  unfold flagVariables.
  rewrite !lookup_insert_ne by discriminate. apply lookup_insert_eq.
Qed.

Lemma flag_PythonVersion :
  flagVariables projectName pythonVersion database docker includeTests
    !! ("PythonVersion" : gostring)
  = Some (VString pythonVersion).
Proof.
  unfold flagVariables.
  rewrite !lookup_insert_ne by discriminate. apply lookup_insert_eq.
Qed.

Lemma flag_Database :
  flagVariables projectName pythonVersion database docker includeTests
    !! ("Database" : gostring)
  = Some (VString database).
Proof.
  unfold flagVariables.
  rewrite !lookup_insert_ne by discriminate. apply lookup_insert_eq.
Qed.

Lemma flag_CIProvider :
  flagVariables projectName pythonVersion database docker includeTests
    !! ("CIProvider" : gostring)
  = None.
Proof.
  unfold flagVariables.
  rewrite !lookup_insert_ne by discriminate. apply lookup_empty.
Qed.

End FlagVariables.

(** X27. The context of a run of [new]: the flags settle the Docker, test,
    database and Python settings whatever the template declares as their
    defaults, the project goes to the directory of its name, and the CI
    provider, for which the command passes nothing on, is the default of
    the template when that is a string and empty otherwise. *)
Theorem new_context (projectName lang framework database pythonVersion : gostring)
    (docker includeTests dryRun : bool) (tmpl : Template.Template) :
  let opts := Cli.newOptions projectName lang framework database pythonVersion
                docker includeTests dryRun in
  let ctx := contextOf opts tmpl in
  Template.ProjectName ctx = projectName
  /\ Template.OutputDir ctx = projectName
  /\ Template.IncludeDocker ctx = docker
  /\ Template.IncludeTests ctx = includeTests
  /\ Template.Database ctx = database
  /\ Template.PythonVersion ctx = pythonVersion
  /\ Template.CIProvider ctx
     = match Template.Variables tmpl !! ("CIProvider" : gostring) with
       | Some d => match Template.var_Default d with
                   | Template.VString s => s
                   | _ => []
                   end
       | None => []
       end
  /\ forall condition,
       (Generator.conditionKey condition = "IncludeDocker" ->
        Generator.evaluateCondition condition ctx = docker)
       /\ (Generator.conditionKey condition = "IncludeTests" ->
           Generator.evaluateCondition condition ctx = includeTests).
Proof.
  intros opts ctx. unfold ctx, contextOf, opts, Cli.newOptions.
  cbn [Generator.opt_ProjectName Generator.opt_OutputDir Generator.opt_Variables
       Template.NewContext Template.ProjectName Template.OutputDir
       Template.IncludeDocker Template.IncludeTests Template.Database
       Template.PythonVersion Template.CIProvider].
  rewrite bool_decide_eq_true_2 by done.
  unfold Template.assertBool, Template.assertString.
  rewrite !lookup_mergeVariables.
  rewrite flag_IncludeDocker, flag_IncludeTests, flag_Database, flag_PythonVersion,
    flag_CIProvider.
  repeat split; try done.
  - destruct (Template.Variables tmpl !! _) as [d|]; [|done].
    by destruct (Template.var_Default d).
  - intros H. unfold Generator.evaluateCondition. rewrite H.
    rewrite bool_decide_eq_true_2 by done.
    cbn [Template.IncludeDocker Template.NewContext]. unfold Template.assertBool.
    by rewrite lookup_mergeVariables, flag_IncludeDocker.
  - intros H. unfold Generator.evaluateCondition. rewrite H.
    rewrite bool_decide_eq_false_2 by discriminate.
    rewrite bool_decide_eq_true_2 by done.
    cbn [Template.IncludeTests Template.NewContext]. unfold Template.assertBool.
    by rewrite lookup_mergeVariables, flag_IncludeTests.
Qed.


(* ================================================================== *)
(** ** The checker on versions read from commands                      *)
(* ================================================================== *)

Section Probed.
Import Validator Probe.

Variable CombinedOutput : gostring -> gostring -> option gostring.

(** A version read from a command is empty or parses, unless a group of
    digits is too long for an [int]. *)
Lemma extractVersion_parses (output : gostring) :
  extractVersion output = []
  \/ (Forall (fun g : gostring => (length g <= 18)%nat)
        (Strings.Split (extractVersion output) ".") ->
      exists c, parseVersion (extractVersion output) = Ok c).
Proof.
  unfold extractVersion.
  destruct (firstPattern_match patterns output)
    as [H|(p & pre & t & Hp & _ & Ht)]; [by left|].
  right. intros Hshort. eexists. apply groups_parse; [|done].
  destruct (pattern_groups p t _ Hp Ht)
    as [(d1 & d2 & G1 & G2 & ->)|(d1 & d2 & d3 & G1 & G2 & G3 & ->)].
  - rewrite Split_two by done. by repeat apply Forall_cons_2.
  - rewrite Split_three by done. by repeat apply Forall_cons_2.
Qed.

Lemma reportedVersion_parses cmd :
  reportedVersion CombinedOutput cmd = []
  \/ (Forall (fun g : gostring => (length g <= 18)%nat)
        (Strings.Split (reportedVersion CombinedOutput cmd) ".") ->
      exists c, parseVersion (reportedVersion CombinedOutput cmd) = Ok c).
Proof.
  unfold reportedVersion, getCommandVersion.
  destruct (tryFlags CombinedOutput cmd versionFlags) as [v|] eqn:E; [|by left].
  apply tryFlags_Some in E as (_ & flag & output & _ & _ & ->).
  apply extractVersion_parses.
Qed.

Lemma CompareVersion_current (current requirement text : gostring) e :
  CompareVersion current requirement = Err (InvalidCurrent text e) ->
  text = current /\ parseVersion current = Err e.
Proof.
  unfold CompareVersion.
  destruct (splitOperator (Strings.TrimSpace requirement)) as [op v].
  destruct (parseVersion current) as [c|e']; [|by intros [= -> ->]].
  destruct (parseVersion v) as [r|e']; [|done].
  repeat match goal with
         | |- context [if ?b then _ else _] => destruct b
         end; done.
Qed.

End Probed.

(** X29. With the versions that [getCommandVersion] reads, the checker
    never blames the installed version for a comparison that failed, unless
    one of its groups of digits is longer than 18 digits: any other
    comparison error is about the constraint of the requirement. *)
Theorem Validate_probed CombinedOutput LookPath Level
    (reqs : list Validator.Requirement) finding command text e :
  let r := Validator.Validate LookPath (Probe.reportedVersion CombinedOutput)
             Level reqs in
  finding ∈ Validator.Errors r ++ Validator.Warnings r ->
  Validator.ve_Message finding
    = Validator.MsgCompareError command (Validator.InvalidCurrent text e) ->
  text = Probe.reportedVersion CombinedOutput command
  /\ Exists (fun g : gostring => (18 < length g)%nat) (Strings.Split text ".").
Proof.
  intros r Hin Hmsg.
  destruct (Validate_concat LookPath (Probe.reportedVersion CombinedOutput) Level reqs)
    as [HE HW].
  fold r in HE, HW. rewrite HE, HW in Hin. clear HE HW.
  assert (Hreq : exists req, req ∈ reqs /\
            finding ∈ Validator.Errors
                        (Validator.Validate LookPath
                           (Probe.reportedVersion CombinedOutput) Level [req])
                      ++ Validator.Warnings
                           (Validator.Validate LookPath
                              (Probe.reportedVersion CombinedOutput) Level [req])).
  { apply elem_of_app in Hin as [Hin|Hin];
      apply elem_of_concat_map in Hin as (req & Hreq & Hf);
      exists req; (split; [done|]); apply elem_of_app; [by left|by right]. }
  destruct Hreq as (req & _ & Hf).
  rewrite Validate_one in Hf.
  destruct (negb (LookPath (Validator.Command req))).
  { destruct (Validator.Required req); cbn in Hf;
      apply list_elem_of_singleton in Hf; subst finding; discriminate Hmsg. }
  destruct (bool_decide (Validator.Version req = []) || _) eqn:Hguard.
  { by apply elem_of_nil in Hf. }
  apply orb_false_elim in Hguard as [_ Hne%bool_decide_eq_false].
  destruct (Validator.CompareVersion _ (Validator.Version req)) as [[]|e'] eqn:HC.
  - by apply elem_of_nil in Hf.
  - destruct (bool_decide (Level = Validator.ValidationStrict)); cbn in Hf;
      apply list_elem_of_singleton in Hf; subst finding; discriminate Hmsg.
  - assert (Hm : Validator.MsgCompareError (Validator.Command req) e'
                 = Validator.MsgCompareError command (Validator.InvalidCurrent text e)).
    { destruct (bool_decide (Level = Validator.ValidationStrict)); cbn in Hf;
        apply list_elem_of_singleton in Hf; subst finding; exact Hmsg. }
    injection Hm as Hcmd ->. rewrite Hcmd in *.
    apply CompareVersion_current in HC as [-> Hparse].
    split; [done|].
    destruct (reportedVersion_parses CombinedOutput command) as [H|H]; [done|].
    destruct (decide (Forall (fun g : gostring => (length g <= 18)%nat)
                        (Strings.Split (Probe.reportedVersion CombinedOutput command) ".")))
      as [Hshort|Hlong].
    + destruct (H Hshort) as [c Hc]. congruence.
    + apply not_Forall_Exists in Hlong; [|intros g; apply _].
      eapply Exists_impl; [exact Hlong|]. intros g Hg. cbn in Hg. lia.
Qed.

Lemma Validate_probed_witness :
  Exists (fun g : gostring => (18 < length g)%nat)
    (Strings.Split "12345678901234567890.1.0" ".").
Proof.
  pose (CombinedOutput := fun _ _ : gostring =>
          Some ("tool 12345678901234567890.1.0" : gostring)).
  pose (req := {| Validator.Command := "tool"; Validator.Version := ">=1.0.0";
                  Validator.Required := true; Validator.When := [];
                  Validator.InstallHint := [] |}).
  pose (finding :=
          {| Validator.ve_Command := "tool";
             Validator.ve_Message :=
               Validator.MsgCompareError "tool"
                 (Validator.InvalidCurrent "12345678901234567890.1.0"
                    (Validator.InvalidComponent "12345678901234567890"));
             Validator.ve_InstallHint := [] |}).
  refine (proj2 (Validate_probed CombinedOutput (fun _ => true)
                   Validator.ValidationStrict [req] finding "tool"
                   "12345678901234567890.1.0"
                   (Validator.InvalidComponent "12345678901234567890") _ _)).
  - assert (H : Validator.Errors
                  (Validator.Validate (fun _ => true)
                     (Probe.reportedVersion CombinedOutput)
                     Validator.ValidationStrict [req]) = [finding])
      by (vm_compute; reflexivity).
    rewrite H. apply elem_of_app. left. apply list_elem_of_here.
  - reflexivity.
Defined.

(* ================================================================== *)
(** ** File permissions                                                *)
(* ================================================================== *)

Section Permissions.
Import Template Generator.

Variable FS : Type.
Variable MkdirAll : gostring -> FS -> option FS.
Variable ReadFile : gostring -> FS -> option gostring.
Variable WriteFile : gostring -> gostring -> N -> FS -> option FS.
Variable Join : gostring -> gostring -> gostring.
Variable Dir : gostring -> gostring.
Variable Execute : gostring -> Context -> option gostring.

Lemma GetPermissions_default (f : FileSpec) : GetPermissions f = 420%N.
Proof. unfold GetPermissions. by destruct (Permissions f). Qed.

Lemma generateFile_permissions permissions filesDir fileSpec ctx dryRun (w : World FS) :
  generateFile FS MkdirAll ReadFile WriteFile Join Dir Execute
    filesDir (setPermissions permissions fileSpec) ctx dryRun w
  = generateFile FS MkdirAll ReadFile WriteFile Join Dir Execute
      filesDir fileSpec ctx dryRun w.
Proof.
  unfold generateFile. rewrite !GetPermissions_default.
  by cbn [setPermissions Source Destination].
Qed.

End Permissions.

(** X30. The permissions that a template declares for a file have no
    effect: [GetPermissions] is [0644] for every file, and [Generate]'s
    loop over the files does the same whatever permissions the files
    declare. *)
Theorem permissions_ignored FS MkdirAll ReadFile WriteFile Join Dir Execute
    permissions filesDir files ctx dryRun (w : Generator.World FS) :
  Forall (fun f => Template.GetPermissions f = 420%N) files
  /\ Generator.generateFiles FS MkdirAll ReadFile WriteFile Join Dir Execute
       filesDir (map (setPermissions permissions) files) ctx dryRun w
     = Generator.generateFiles FS MkdirAll ReadFile WriteFile Join Dir Execute
         filesDir files ctx dryRun w.
Proof.
  split.
  - apply Forall_forall. intros f _. apply GetPermissions_default.
  - revert w. induction files as [|f files IH]; intros w; [done|].
    cbn [map Generator.generateFiles].
    change (Generator.shouldGenerateFile (setPermissions permissions f) ctx)
      with (Generator.shouldGenerateFile f ctx).
    change (Template.Destination (setPermissions permissions f))
      with (Template.Destination f).
    rewrite generateFile_permissions.
    destruct (Generator.shouldGenerateFile f ctx); cbn [negb]; [|apply IH].
    destruct (Generator.generateFile _ _ _ _ _ _ _ _ _ _ _ _) as [[|] w1]; [apply IH|done].
Qed.
